(** * Resource lifecycle reconcilers of the AWS provider: a shallow embedding

    The development follows three source files:
    - [internal/service/appmesh/virtual_node.go]  (module [AppMesh]),
    - [internal/service/transfer/access.go]      (module [Transfer]),
    - [internal/service/waf/list_pages_gen.go]   (module [WAF]),
    and the parts of the plugin SDK and of the AWS SDK they call
    (module [SDK]).

    Remote services are deterministic oracles over the history of the
    calls made so far; every lifecycle function threads that history
    through a small state monad, so that the calls an operation issues can
    be counted and inspected. *)

From Stdlib Require Import String Ascii List ZArith Bool Lia.
From stdpp Require Import base option list strings gmap.

Local Open Scope string_scope.
Local Open Scope list_scope.

(* ================================================================== *)
(** * Library model: errors, diagnostics, history-passing monad       *)
(* ================================================================== *)

Module SDK.

(** [awserr.Error]: what a call of the AWS SDK returns when it fails. *)
Record AwsError := { Code : string; Message : string }.

(** Go [error] values, as far as the sources distinguish them. *)
Inductive error : Type :=
  | awserr (e : AwsError)                    (* awserr.Error           *)
  | NotFoundError (Message : string)         (* resource.NotFoundError *)
  | TimeoutError (LastError : option string) (* resource.TimeoutError  *)
  | errorString (s : string).                (* errors.New, fmt.Errorf *)

(** [err.Error()] *)
Definition Error (e : error) : string :=
  match e with
  | awserr e => Code e +:+ ": " +:+ Message e
  | NotFoundError m => m
  | TimeoutError None => "timeout while waiting for state"
  | TimeoutError (Some l) => "timeout while waiting for state: " +:+ l
  | errorString s => s
  end.

(** [aws.StringValue]: a nil pointer reads as the empty string. *)
Definition StringValue (p : option string) : string :=
  match p with Some s => s | None => "" end.

(** [tfawserr.ErrCodeEquals(err, code)]; false on a nil error. *)
Definition ErrCodeEquals (err : option error) (code : string) : bool :=
  match err with
  | Some (awserr e) => String.eqb (Code e) code
  | _ => false
  end.

(** [diag.Diagnostic], severity [Error] only: the sources emit no warning. *)
Record Diagnostic := { Summary : string }.
Abbreviation Diagnostics := (list Diagnostic).

(** Modelled from the spec: [sdkdiag.AppendErrorf] lives in
    [internal/errs/sdkdiag], which is not among the files followed here; it appends one error
    diagnostic carrying the formatted message ("every other error is
    returned to the caller with enough context"). *)
Definition AppendErrorf (diags : Diagnostics) (msg : string) : Diagnostics :=
  diags ++ [ {| Summary := msg |} ].

Definition HasError (diags : Diagnostics) : bool :=
  match diags with [] => false | _ => true end.

(** History-passing computations.  [Ev] is the type of recorded events. *)
Definition M (Ev A : Type) : Type := list Ev -> A * list Ev.

Definition ret {Ev A} (a : A) : M Ev A := fun h => (a, h).

Definition bind {Ev A B} (m : M Ev A) (k : A -> M Ev B) : M Ev B :=
  fun h => let (a, h') := m h in k a h'.

(** [strings.Split(s, sep)] for a separator of one byte, the only use the
    sources make of it: the pieces between the separators, in order; a
    string without separator, the empty one too, is its own single piece. *)
Fixpoint Split (s : string) (sep : ascii) : list string :=
  match s with
  | EmptyString => [EmptyString]
  | String c rest =>
      if Ascii.eqb c sep then EmptyString :: Split rest sep
      else match Split rest sep with
           | piece :: pieces => String c piece :: pieces
           | [] => [String c EmptyString]
           end
  end.

(** [strings.Join(parts, sep)] *)
Fixpoint Join (parts : list string) (sep : string) : string :=
  match parts with
  | [] => ""
  | [p] => p
  | p :: rest => p +:+ sep +:+ Join rest sep
  end.

(** [strings.Count(s, sep)] for a separator of one byte. *)
Fixpoint Count (s : string) (sep : ascii) : nat :=
  match s with
  | EmptyString => 0
  | String c rest => (if Ascii.eqb c sep then 1 else 0) + Count rest sep
  end.

(** [schema.ValueType] and the fields of [schema.Schema] that the
    top-level attributes of the two resources set. *)
Inductive ValueType := TypeString | TypeInt | TypeList | TypeSet | TypeMap.

Record Schema := {
  Type_ : ValueType;
  Required : bool;
  Optional : bool;
  Computed : bool;
  ForceNew : bool
}.

(** Whether the schema marks the attribute [key] as [ForceNew]. *)
Definition forceNewOf (schema : list (string * Schema)) (key : string) : bool :=
  match List.find (fun entry => String.eqb (fst entry) key) schema with
  | Some entry => ForceNew (snd entry)
  | None => false
  end.


(** [resource.RetryError], built by [resource.RetryableError] and
    [resource.NonRetryableError]. *)
Inductive RetryError :=
  | RetryableError (err : error)
  | NonRetryableError (err : error).

(** [resource.RetryContext(ctx, timeout, f)] of the plugin SDK.  The
    time-out is abstracted as the number of attempts of [f] that fit in
    it.  [f] is a closure: [v] stands for the variables it captures and
    assigns.  [resultErr] is the SDK's variable of that name: the error of
    the latest attempt.  When the window closes, the SDK returns
    [resultErr] if it is set, and a [*resource.TimeoutError] (with no
    [LastError]) otherwise. *)
Fixpoint RetryContext {Ev V} (attempts : nat)
  (f : V -> M Ev (V * option RetryError)) (v : V) (resultErr : option error)
  : M Ev (V * option error) :=
  match attempts with
  | O =>
      ret (v, Some (match resultErr with
                    | Some e => e
                    | None => TimeoutError None
                    end))
  | S n =>
      bind (f v) (fun '(v', rerr) =>
        match rerr with
        | None => ret (v', None)
        | Some (NonRetryableError e) => ret (v', Some e)
        | Some (RetryableError e) => RetryContext n f v' (Some e)
        end)
  end.

(** Modelled from the spec: [tfresource.TimedOut] lives in
    [internal/tfresource], which is not among the files followed here; it recognises the
    error of a propagation window that "elapses" without any underlying
    error: a [*resource.TimeoutError] whose [LastError] is nil. *)
Definition TimedOut (err : option error) : bool :=
  match err with
  | Some (TimeoutError None) => true
  | _ => false
  end.

(** Modelled from the spec: [tfresource.NotFound] lives in
    [internal/tfresource], which is not among the files followed here; it recognises the
    "absence of the identified remote object" as reported by the finder
    functions, a [*resource.NotFoundError]. *)
Definition NotFound (err : option error) : bool :=
  match err with
  | Some (NotFoundError _) => true
  | _ => false
  end.

End SDK.

Declare Scope go_scope.
Delimit Scope go_scope with go.
Notation "x <- m ;; k" := (SDK.bind m (fun x => k))
  (at level 100, m at next level, right associativity) : go_scope.

(* ================================================================== *)
(** * internal/service/waf/list_pages_gen.go                          *)
(* ================================================================== *)

Module WAF.
Import SDK.

(** The operations listed in the generator's [-ListOps] flag; one
    [list<Op>Pages] function is generated for each. *)
Inductive ListOp :=
  | ListByteMatchSets | ListGeoMatchSets | ListIPSets | ListRateBasedRules
  | ListRegexMatchSets | ListRegexPatternSets | ListRuleGroups | ListRules
  | ListSizeConstraintSets | ListSqlInjectionMatchSets | ListWebACLs
  | ListXssMatchSets.

(** [waf.List<Op>Input]: every one of them has these two fields. *)
Record ListInput := { Limit : option Z; InNextMarker : option string }.

(** Every summary type of the twelve outputs is an (id, name) pair. *)
Record SummaryItem := { ItemId : string; ItemName : string }.

(** [waf.List<Op>Output] *)
Record ListOutput := { Items : list SummaryItem; NextMarker : option string }.

(** What one run leaves behind: remote calls with their results, and
    invocations of the page callback with its arguments and its answer. *)
Inductive Event :=
  | EvCall (op : ListOp) (input : ListInput) (res : ListOutput + AwsError)
  | EvFn (output : ListOutput) (lastPage : bool) (continue : bool).

(** [conn.List<Op>WithContext]: an oracle over the events so far. *)
Definition Conn := list Event -> ListOp -> ListInput -> ListOutput + AwsError.

(** The page callback is a Go closure: it may update captured variables,
    here a state of type [S]. *)
Definition PageFn (S : Type) := ListOutput -> bool -> S -> bool * S.

Definition setNextMarker (input : ListInput) (m : option string) : ListInput :=
  {| Limit := Limit input; InNextMarker := m |}.

Definition isLastPage (output : ListOutput) : bool :=
  String.eqb (StringValue (NextMarker output)) "".

(** One completed iteration: the request, the page and the callback's answer. *)
Record Round := { rInput : ListInput; rPage : ListOutput; rCont : bool }.

Definition roundEvents (op : ListOp) (r : Round) : list Event :=
  [ EvCall op (rInput r) (inl (rPage r));
    EvFn (rPage r) (isLastPage (rPage r)) (rCont r) ].

(** A round after which the loop goes on. *)
Definition continues (r : Round) : bool :=
  rCont r && negb (isLastPage (rPage r)).

Section Pages.
Context {S : Type}.
Variable conn : Conn.
Variable op : ListOp.
Variable fn : PageFn S.

(** The body of every generated function, with [fuel] bounding the
    iterations of its [for] loop; [None] is "still looping".  The
    function returns the error (nil is [None]), the input as the caller
    sees it afterwards (the loop writes [input.NextMarker]), the callback
    state and the events. *)
Fixpoint listPages (fuel : nat) (input : ListInput) (s : S) (h : list Event)
  : option (option error * ListInput * S * list Event) :=
  match fuel with
  | O => None
  | Datatypes.S fuel' =>
      match conn h op input with
      | inr err =>
          Some (Some (awserr err), input, s, h ++ [EvCall op input (inr err)])
      | inl output =>
          let h1 := h ++ [EvCall op input (inl output)] in
          let lastPage := isLastPage output in
          let (cont, s') := fn output lastPage s in
          let h2 := h1 ++ [EvFn output lastPage cont] in
          if negb cont || lastPage then Some (None, input, s', h2)
          else listPages fuel' (setNextMarker input (NextMarker output)) s' h2
      end
  end.

(** The rounds are those of a run from [input], [s] and [h]: each page is
    the answer of the service to the request of its round, each answer of
    the callback is the one it gives on that page, and each round starts
    from the marker, the callback state and the history that the round
    before it left. *)
Fixpoint played (rounds : list Round) (input : ListInput) (s : S) (h : list Event)
  : Prop :=
  match rounds with
  | [] => True
  | r :: rest =>
      rInput r = input
      /\ conn h op input = inl (rPage r)
      /\ fst (fn (rPage r) (isLastPage (rPage r)) s) = rCont r
      /\ played rest (setNextMarker input (NextMarker (rPage r)))
            (snd (fn (rPage r) (isLastPage (rPage r)) s))
            (h ++ roundEvents op r)
  end.

(** The callback state after the rounds: the callback ran once on the
    page of each, in order. *)
Fixpoint stateAfter (rounds : list Round) (s : S) : S :=
  match rounds with
  | [] => s
  | r :: rest => stateAfter rest (snd (fn (rPage r) (isLastPage (rPage r)) s))
  end.
End Pages.

(** The input after rounds that the loop went on from: each of them ends
    with [input.NextMarker = output.NextMarker]. *)
Fixpoint inputAfter (rounds : list Round) (input : ListInput) : ListInput :=
  match rounds with
  | [] => input
  | r :: rest => inputAfter rest (setNextMarker input (NextMarker (rPage r)))
  end.

Definition listByteMatchSetsPages {S} conn := @listPages S conn ListByteMatchSets.
Definition listGeoMatchSetsPages {S} conn := @listPages S conn ListGeoMatchSets.
Definition listIPSetsPages {S} conn := @listPages S conn ListIPSets.
Definition listRateBasedRulesPages {S} conn := @listPages S conn ListRateBasedRules.
Definition listRegexMatchSetsPages {S} conn := @listPages S conn ListRegexMatchSets.
Definition listRegexPatternSetsPages {S} conn := @listPages S conn ListRegexPatternSets.
Definition listRuleGroupsPages {S} conn := @listPages S conn ListRuleGroups.
Definition listRulesPages {S} conn := @listPages S conn ListRules.
Definition listSizeConstraintSetsPages {S} conn := @listPages S conn ListSizeConstraintSets.
Definition listSqlInjectionMatchSetsPages {S} conn := @listPages S conn ListSqlInjectionMatchSets.
Definition listWebACLsPages {S} conn := @listPages S conn ListWebACLs.
Definition listXssMatchSetsPages {S} conn := @listPages S conn ListXssMatchSets.

(** A service that answers its k-th call with the k-th entry of a script,
    and with an empty last page once the script is used up. *)
Definition callsIn (h : list Event) : nat :=
  length (List.filter (fun e => match e with EvCall _ _ _ => true | _ => false end) h).

Definition scripted (script : list (ListOutput + AwsError)) : Conn :=
  fun h _ _ =>
    nth (callsIn h) script (inl {| Items := []; NextMarker := None |}).

(** Two pages of web ACLs, and a callback that collects the items of
    every page and always asks for more. *)
Definition somePages : list (ListOutput + AwsError) :=
  [ inl {| Items := [ {| ItemId := "a1"; ItemName := "first" |} ];
           NextMarker := Some "m1" |};
    inl {| Items := [ {| ItemId := "a2"; ItemName := "second" |} ];
           NextMarker := None |} ].

Definition collect : PageFn (list SummaryItem) :=
  fun output _ acc => (true, acc ++ Items output).

(** A callback that keeps the items of the page it is given and asks
    for no more. *)
Definition firstPageOnly : PageFn (list SummaryItem) :=
  fun output _ acc => (false, acc ++ Items output).

(** A callback that asks for more as many times as its state says, and
    then stops. *)
Definition countdown : PageFn nat :=
  fun _ _ k => (negb (Nat.eqb k 0), Nat.pred k).

(** A service whose listing never ends: every answer announces a next
    page. *)
Definition endless : Conn :=
  fun _ _ _ => inl {| Items := []; NextMarker := Some "more" |}.

Definition throttled : AwsError :=
  {| Code := "WAFInternalErrorException"; Message := "try again" |}.

(** The call that failed, if the run ended on an error. *)
Definition failedCall (op : ListOp) (input : ListInput) (err : option error)
  : list Event :=
  match err with
  | Some (awserr e) => [EvCall op input (inr e)]
  | _ => []
  end.

End WAF.

(* ================================================================== *)
(** * internal/service/appmesh/virtual_node.go                        *)
(* ================================================================== *)

Module AppMesh.
Import SDK.
Local Open Scope go_scope.

(** What the file uses from elsewhere and never looks into: the nested
    [spec] block with its two mappings (internal/service/appmesh/
    structure.go), the tag helpers (internal/tags), [time.Time]. *)
Class Helpers := {
  SpecConfig : Type;                 (* d.Get("spec").([]interface{}) *)
  SpecConfig_eq :: EqDecision SpecConfig;
  VirtualNodeSpec : Type;            (* *appmesh.VirtualNodeSpec *)
  expandVirtualNodeSpec : SpecConfig -> VirtualNodeSpec;
  flattenVirtualNodeSpec : VirtualNodeSpec -> SpecConfig;
  DefaultConfig : Type;              (* *tftags.DefaultConfig *)
  IgnoreConfig : Type;               (* *tftags.IgnoreConfig *)
  MergeTags : DefaultConfig -> gmap string string -> gmap string string;
  IgnoreAWS : gmap string string -> gmap string string;
  IgnoreConfigTags : IgnoreConfig -> gmap string string -> gmap string string;
  RemoveDefaultConfig : DefaultConfig -> gmap string string -> gmap string string;
  Time : Type;                       (* time.Time *)
  FormatRFC3339 : Time -> string
}.

Section WithHelpers.
Context `{H : Helpers}.

(** ** Wire types (github.com/aws/aws-sdk-go/service/appmesh)

    The members that the file dereferences without a nil test ([Metadata],
    [Status], [Spec] and the two times) are required members of the API
    shapes and are taken as present. *)

Record ResourceMetadata := {
  Arn : option string;
  CreatedAt : Time;
  LastUpdatedAt : Time;
  MetaMeshOwner : option string;
  ResourceOwner : option string;
  Uid : option string
}.

Record VirtualNodeStatus := { Status : option string }.

Record VirtualNodeData := {
  VnMeshName : option string;
  Metadata : ResourceMetadata;
  Spec : VirtualNodeSpec;
  VnStatus : VirtualNodeStatus;
  VnVirtualNodeName : option string
}.

Record CreateVirtualNodeInput := {
  CrMeshName : option string;
  CrMeshOwner : option string;
  CrSpec : VirtualNodeSpec;
  CrTags : gmap string string;
  CrVirtualNodeName : option string
}.

Record DescribeVirtualNodeInput := {
  DeMeshName : option string;
  DeMeshOwner : option string;
  DeVirtualNodeName : option string
}.

Record UpdateVirtualNodeInput := {
  UpMeshName : option string;
  UpMeshOwner : option string;
  UpSpec : VirtualNodeSpec;
  UpVirtualNodeName : option string
}.

Record DeleteVirtualNodeInput := {
  DlMeshName : option string;
  DlVirtualNodeName : option string
}.

Definition VirtualNodeStatusCodeDeleted : string := "DELETED".
Definition ErrCodeNotFoundException : string := "NotFoundException".

(** ** The remote service

    One constructor per client method the file calls, with the request and
    the result.  A [Describe] result of [inl None] is a response without a
    [VirtualNode].  [ListTags] and [UpdateTags] are the package's tag
    helpers, each taken as one exchange with the service. *)
Inductive Event :=
  | EvCreateVirtualNode (input : CreateVirtualNodeInput) (res : VirtualNodeData + AwsError)
  | EvDescribeVirtualNode (input : DescribeVirtualNodeInput) (res : option VirtualNodeData + AwsError)
  | EvUpdateVirtualNode (input : UpdateVirtualNodeInput) (res : VirtualNodeData + AwsError)
  | EvDeleteVirtualNode (input : DeleteVirtualNodeInput) (res : VirtualNodeData + AwsError)
  | EvListTags (arn : string) (res : gmap string string + AwsError)
  | EvUpdateTags (arn : string) (o n : gmap string string) (res : option AwsError).

Record Conn := {
  CreateVirtualNodeWithContext :
    list Event -> CreateVirtualNodeInput -> VirtualNodeData + AwsError;
  DescribeVirtualNodeWithContext :
    list Event -> DescribeVirtualNodeInput -> option VirtualNodeData + AwsError;
  UpdateVirtualNodeWithContext :
    list Event -> UpdateVirtualNodeInput -> VirtualNodeData + AwsError;
  DeleteVirtualNodeWithContext :
    list Event -> DeleteVirtualNodeInput -> VirtualNodeData + AwsError;
  ListTagsOf : list Event -> string -> gmap string string + AwsError;
  UpdateTagsOf :
    list Event -> string -> gmap string string -> gmap string string -> option AwsError
}.

(** The provider client, [conns.AWSClient], behind [meta]. *)
Record AWSClient := {
  AppMeshConn : Conn;
  DefaultTagsConfig : DefaultConfig;
  IgnoreTagsConfig : IgnoreConfig
}.

(** An event that changes the remote system. *)
Definition mutating (e : Event) : bool :=
  match e with
  | EvCreateVirtualNode _ _ | EvUpdateVirtualNode _ _
  | EvDeleteVirtualNode _ _ | EvUpdateTags _ _ _ _ => true
  | EvDescribeVirtualNode _ _ | EvListTags _ _ => false
  end.

Definition isDescribe (e : Event) : bool :=
  match e with EvDescribeVirtualNode _ _ => true | _ => false end.

Definition asError (r : option AwsError) : option error := option_map awserr r.

Definition createVirtualNode (conn : Conn) (input : CreateVirtualNodeInput)
  : M Event (VirtualNodeData + error) :=
  fun h => let r := CreateVirtualNodeWithContext conn h input in
           (match r with inl vn => inl vn | inr e => inr (awserr e) end,
            h ++ [EvCreateVirtualNode input r]).

(** The pair [resp], [err] that a describe call hands to its caller. *)
Definition describeResult (r : option VirtualNodeData + AwsError)
  : option VirtualNodeData * option error :=
  match r with
  | inl vn => (vn, None)
  | inr e => (None, Some (awserr e))
  end.

Definition describeVirtualNode (conn : Conn) (input : DescribeVirtualNodeInput)
  : M Event (option VirtualNodeData * option error) :=
  fun h => let r := DescribeVirtualNodeWithContext conn h input in
           (describeResult r, h ++ [EvDescribeVirtualNode input r]).

(** A not-found answer of the service to a describe call. *)
Definition isNotFoundReply (r : option VirtualNodeData + AwsError) : bool :=
  match r with
  | inr e => String.eqb (Code e) ErrCodeNotFoundException
  | inl _ => false
  end.

(** A describe answer with an object whose status is "DELETED". *)
Definition isDeletedReply (r : option VirtualNodeData + AwsError) : bool :=
  match r with
  | inl (Some vn) =>
      String.eqb (StringValue (Status (VnStatus vn))) VirtualNodeStatusCodeDeleted
  | _ => false
  end.

(** The events of polls that were answered by errors. *)
Definition pollEvents (req : DescribeVirtualNodeInput) (errs : list AwsError)
  : list Event :=
  map (fun e => EvDescribeVirtualNode req (inr e)) errs.

Definition updateVirtualNode (conn : Conn) (input : UpdateVirtualNodeInput)
  : M Event (VirtualNodeData + error) :=
  fun h => let r := UpdateVirtualNodeWithContext conn h input in
           (match r with inl vn => inl vn | inr e => inr (awserr e) end,
            h ++ [EvUpdateVirtualNode input r]).

Definition deleteVirtualNode (conn : Conn) (input : DeleteVirtualNodeInput)
  : M Event (option error) :=
  fun h => let r := DeleteVirtualNodeWithContext conn h input in
           (match r with inl _ => None | inr e => Some (awserr e) end,
            h ++ [EvDeleteVirtualNode input r]).

(** Modelled from the spec: [ListTags] and [UpdateTags] live in the
    generated tag helpers of the package, which are not among the files
    followed here; they are the "tag-listing/tag-update side-channel for a
    generic key-value label set attached to the resource", each taken as
    one exchange with the service. *)
Definition ListTags (conn : Conn) (arn : string)
  : M Event (gmap string string + error) :=
  fun h => let r := ListTagsOf conn h arn in
           (match r with inl t => inl t | inr e => inr (awserr e) end,
            h ++ [EvListTags arn r]).

Definition UpdateTags (conn : Conn) (arn : string) (o n : gmap string string)
  : M Event (option error) :=
  fun h => let r := UpdateTagsOf conn h arn o n in
           (asError r, h ++ [EvUpdateTags arn o n r]).

(** ** Tracked state: [schema.ResourceData]

    One field per top-level attribute of the schema.  A string attribute
    that is not set reads as the empty string, as [d.Get] has it. *)
Record Attrs := {
  name : string;
  mesh_name : string;
  mesh_owner : string;
  spec : SpecConfig;
  arn : string;
  created_date : string;
  last_updated_date : string;
  resource_owner : string;
  tags : gmap string string;
  tags_all : gmap string string
}.

(** [prior] is the state before the operation and [planned] the state the
    host wants ([d.HasChange] and [d.GetChange] compare the two);
    [current] is what [d.Get] reads and [d.Set] writes. *)
Record ResourceData := {
  Id : string;
  IsNewResource : bool;
  prior : Attrs;
  planned : Attrs;
  current : Attrs
}.

Definition SetId (v : string) (d : ResourceData) : ResourceData :=
  {| Id := v; IsNewResource := IsNewResource d;
     prior := prior d; planned := planned d; current := current d |}.

Definition withCurrent (f : Attrs -> Attrs) (d : ResourceData) : ResourceData :=
  {| Id := Id d; IsNewResource := IsNewResource d;
     prior := prior d; planned := planned d; current := f (current d) |}.

Definition Set_name (v : string) (a : Attrs) : Attrs :=
  {| name := v; mesh_name := mesh_name a; mesh_owner := mesh_owner a;
     spec := spec a; arn := arn a; created_date := created_date a;
     last_updated_date := last_updated_date a;
     resource_owner := resource_owner a; tags := tags a; tags_all := tags_all a |}.
Definition Set_mesh_name (v : string) (a : Attrs) : Attrs :=
  {| name := name a; mesh_name := v; mesh_owner := mesh_owner a;
     spec := spec a; arn := arn a; created_date := created_date a;
     last_updated_date := last_updated_date a;
     resource_owner := resource_owner a; tags := tags a; tags_all := tags_all a |}.
Definition Set_mesh_owner (v : string) (a : Attrs) : Attrs :=
  {| name := name a; mesh_name := mesh_name a; mesh_owner := v;
     spec := spec a; arn := arn a; created_date := created_date a;
     last_updated_date := last_updated_date a;
     resource_owner := resource_owner a; tags := tags a; tags_all := tags_all a |}.
Definition Set_spec (v : SpecConfig) (a : Attrs) : Attrs :=
  {| name := name a; mesh_name := mesh_name a; mesh_owner := mesh_owner a;
     spec := v; arn := arn a; created_date := created_date a;
     last_updated_date := last_updated_date a;
     resource_owner := resource_owner a; tags := tags a; tags_all := tags_all a |}.
Definition Set_arn (v : string) (a : Attrs) : Attrs :=
  {| name := name a; mesh_name := mesh_name a; mesh_owner := mesh_owner a;
     spec := spec a; arn := v; created_date := created_date a;
     last_updated_date := last_updated_date a;
     resource_owner := resource_owner a; tags := tags a; tags_all := tags_all a |}.
Definition Set_created_date (v : string) (a : Attrs) : Attrs :=
  {| name := name a; mesh_name := mesh_name a; mesh_owner := mesh_owner a;
     spec := spec a; arn := arn a; created_date := v;
     last_updated_date := last_updated_date a;
     resource_owner := resource_owner a; tags := tags a; tags_all := tags_all a |}.
Definition Set_last_updated_date (v : string) (a : Attrs) : Attrs :=
  {| name := name a; mesh_name := mesh_name a; mesh_owner := mesh_owner a;
     spec := spec a; arn := arn a; created_date := created_date a;
     last_updated_date := v;
     resource_owner := resource_owner a; tags := tags a; tags_all := tags_all a |}.
Definition Set_resource_owner (v : string) (a : Attrs) : Attrs :=
  {| name := name a; mesh_name := mesh_name a; mesh_owner := mesh_owner a;
     spec := spec a; arn := arn a; created_date := created_date a;
     last_updated_date := last_updated_date a;
     resource_owner := v; tags := tags a; tags_all := tags_all a |}.
Definition Set_tags (v : gmap string string) (a : Attrs) : Attrs :=
  {| name := name a; mesh_name := mesh_name a; mesh_owner := mesh_owner a;
     spec := spec a; arn := arn a; created_date := created_date a;
     last_updated_date := last_updated_date a;
     resource_owner := resource_owner a; tags := v; tags_all := tags_all a |}.
Definition Set_tags_all (v : gmap string string) (a : Attrs) : Attrs :=
  {| name := name a; mesh_name := mesh_name a; mesh_owner := mesh_owner a;
     spec := spec a; arn := arn a; created_date := created_date a;
     last_updated_date := last_updated_date a;
     resource_owner := resource_owner a; tags := tags a; tags_all := v |}.

(** [d.GetOk] on a string attribute: set means different from the zero
    value. *)
Definition GetOk (v : string) : option string :=
  if String.eqb v "" then None else Some v.

(** [d.HasChange(key)] for an attribute read by the projection [get]. *)
Definition HasChange {A} `{EqDecision A} (get : Attrs -> A) (d : ResourceData) : bool :=
  negb (bool_decide (get (prior d) = get (planned d))).

(** ** Lifecycle functions *)

Definition describeRequest (d : ResourceData) : DescribeVirtualNodeInput :=
  {| DeMeshName := Some (mesh_name (current d));
     DeVirtualNodeName := Some (name (current d));
     DeMeshOwner := GetOk (mesh_owner (current d)) |}.

(** The function literal passed to [resource.RetryContext] in
    [resourceVirtualNodeRead]; it assigns the captured [resp]. *)
Definition readAttempt (conn : Conn) (d : ResourceData) (req : DescribeVirtualNodeInput)
  (_ : option VirtualNodeData) : M Event (option VirtualNodeData * option RetryError) :=
  p <- describeVirtualNode conn req ;;
  let '(resp, err) := p in
  if IsNewResource d && ErrCodeEquals err ErrCodeNotFoundException then
    ret (resp, option_map RetryableError err)
  else
    match err with
    | Some e => ret (resp, Some (NonRetryableError e))
    | None => ret (resp, None)
    end.

(** The first part of [resourceVirtualNodeRead], up to the second
    [DescribeVirtualNodeWithContext] call that follows a time-out;
    [attempts] is the number of polls that fit in [propagationTimeout].
    The result is the pair [resp], [err] of the source. *)
Definition describeWithRetry (conn : Conn) (attempts : nat) (d : ResourceData)
  (req : DescribeVirtualNodeInput) : M Event (option VirtualNodeData * option error) :=
  p <- RetryContext attempts (readAttempt conn d req) None None ;;
  let '(resp, err) := p in
  if TimedOut err then describeVirtualNode conn req else ret (resp, err).

(** The rest of [resourceVirtualNodeRead], from the first test on [err].
    [d.Set] does not fail on a value of the attribute's type, so the
    returns that follow the [d.Set] of [spec], [tags] and [tags_all] are
    never taken and are left out. *)
Definition finishRead (meta : AWSClient) (d : ResourceData)
  (resp : option VirtualNodeData) (err : option error)
  : M Event (Diagnostics * ResourceData) :=
  let diags : Diagnostics := [] in
  let conn := AppMeshConn meta in
  let defaultTagsConfig := DefaultTagsConfig meta in
  let ignoreTagsConfig := IgnoreTagsConfig meta in
  if negb (IsNewResource d) && ErrCodeEquals err ErrCodeNotFoundException then
    ret (diags, SetId "" d)
  else
  match err with
  | Some e =>
      ret (AppendErrorf diags ("reading App Mesh Virtual Node: " +:+ Error e), d)
  | None =>
  match resp with
  | None =>
      ret (AppendErrorf diags "reading App Mesh Virtual Node: empty response", d)
  | Some vn =>
  if String.eqb (StringValue (Status (VnStatus vn))) VirtualNodeStatusCodeDeleted then
    if IsNewResource d then
      ret (AppendErrorf diags ("reading App Mesh Virtual Node: "
             +:+ StringValue (Status (VnStatus vn)) +:+ " after creation"), d)
    else
      ret (diags, SetId "" d)
  else
    let arn_ := StringValue (Arn (Metadata vn)) in
    let d := withCurrent (Set_name (StringValue (VnVirtualNodeName vn))) d in
    let d := withCurrent (Set_mesh_name (StringValue (VnMeshName vn))) d in
    let d := withCurrent (Set_mesh_owner (StringValue (MetaMeshOwner (Metadata vn)))) d in
    let d := withCurrent (Set_arn arn_) d in
    let d := withCurrent (Set_created_date (FormatRFC3339 (CreatedAt (Metadata vn)))) d in
    let d := withCurrent (Set_last_updated_date (FormatRFC3339 (LastUpdatedAt (Metadata vn)))) d in
    let d := withCurrent (Set_resource_owner (StringValue (ResourceOwner (Metadata vn)))) d in
    let d := withCurrent (Set_spec (flattenVirtualNodeSpec (Spec vn))) d in
    r <- ListTags conn arn_ ;;
    match r with
    | inr e =>
        ret (AppendErrorf diags ("listing tags for App Mesh virtual node ("
               +:+ arn_ +:+ "): " +:+ Error e), d)
    | inl tags_ =>
        let tags_ := IgnoreConfigTags ignoreTagsConfig (IgnoreAWS tags_) in
        let d := withCurrent (Set_tags (RemoveDefaultConfig defaultTagsConfig tags_)) d in
        let d := withCurrent (Set_tags_all tags_) d in
        ret (diags, d)
    end
  end
  end.

Definition resourceVirtualNodeRead (meta : AWSClient) (attempts : nat) (d : ResourceData)
  : M Event (Diagnostics * ResourceData) :=
  p <- describeWithRetry (AppMeshConn meta) attempts d (describeRequest d) ;;
  let '(resp, err) := p in
  finishRead meta d resp err.

Definition resourceVirtualNodeCreate (meta : AWSClient) (attempts : nat) (d : ResourceData)
  : M Event (Diagnostics * ResourceData) :=
  let diags : Diagnostics := [] in
  let conn := AppMeshConn meta in
  let defaultTagsConfig := DefaultTagsConfig meta in
  let tags_ := MergeTags defaultTagsConfig (tags (current d)) in
  let req := {| CrMeshName := Some (mesh_name (current d));
                CrVirtualNodeName := Some (name (current d));
                CrSpec := expandVirtualNodeSpec (spec (current d));
                CrTags := IgnoreAWS tags_;
                CrMeshOwner := GetOk (mesh_owner (current d)) |} in
  r <- createVirtualNode conn req ;;
  match r with
  | inr e =>
      ret (AppendErrorf diags ("creating App Mesh virtual node: " +:+ Error e), d)
  | inl vn =>
      let d := SetId (StringValue (Uid (Metadata vn))) d in
      p <- resourceVirtualNodeRead meta attempts d ;;
      let '(rdiags, d) := p in
      ret (diags ++ rdiags, d)
  end.

Definition resourceVirtualNodeUpdate (meta : AWSClient) (attempts : nat) (d : ResourceData)
  : M Event (Diagnostics * ResourceData) :=
  let diags : Diagnostics := [] in
  let conn := AppMeshConn meta in
  uerr <- (if HasChange spec d then
             let v := spec (planned d) in
             let req := {| UpMeshName := Some (mesh_name (current d));
                           UpVirtualNodeName := Some (name (current d));
                           UpSpec := expandVirtualNodeSpec v;
                           UpMeshOwner := GetOk (mesh_owner (current d)) |} in
             r <- updateVirtualNode conn req ;;
             ret (match r with inl _ => None | inr e => Some e end)
           else ret None) ;;
  match uerr with
  | Some e =>
      ret (AppendErrorf diags ("updating App Mesh virtual node (" +:+ Id d
             +:+ "): " +:+ Error e), d)
  | None =>
      let arn_ := arn (current d) in
      terr <- (if HasChange tags_all d then
                 UpdateTags conn arn_ (tags_all (prior d)) (tags_all (planned d))
               else ret None) ;;
      match terr with
      | Some e =>
          ret (AppendErrorf diags ("updating App Mesh virtual node (" +:+ arn_
                 +:+ ") tags: " +:+ Error e), d)
      | None =>
          p <- resourceVirtualNodeRead meta attempts d ;;
          let '(rdiags, d) := p in
          ret (diags ++ rdiags, d)
      end
  end.

Definition deleteRequest (d : ResourceData) : DeleteVirtualNodeInput :=
  {| DlMeshName := Some (mesh_name (current d));
     DlVirtualNodeName := Some (name (current d)) |}.

Definition resourceVirtualNodeDelete (meta : AWSClient) (d : ResourceData)
  : M Event Diagnostics :=
  let diags : Diagnostics := [] in
  let conn := AppMeshConn meta in
  err <- deleteVirtualNode conn (deleteRequest d) ;;
  if ErrCodeEquals err ErrCodeNotFoundException then ret diags
  else
    match err with
    | Some e =>
        ret (AppendErrorf diags ("deleting App Mesh virtual node (" +:+ Id d
               +:+ "): " +:+ Error e))
    | None => ret diags
    end.

(** What [resourceVirtualNodeImport] does: it returns a list of resources
    and an error, or dereferences the nil [VirtualNode] of a response that
    has none. *)
Inductive ImportOutcome :=
  | Returned (ds : list ResourceData) (err : option error)
  | NilDereference.

Definition resourceVirtualNodeImport (meta : AWSClient) (d : ResourceData)
  : M Event ImportOutcome :=
  let parts := Split (Id d) "/" in
  if negb (Nat.eqb (length parts) 2) then
    ret (Returned [] (Some (errorString ("wrong format of import ID (" +:+ Id d
           +:+ "), use: 'mesh-name/virtual-node-name'"))))
  else
    let mesh := nth 0 parts "" in
    let name_ := nth 1 parts "" in
    let conn := AppMeshConn meta in
    p <- describeVirtualNode conn
                      {| DeMeshName := Some mesh;
                         DeVirtualNodeName := Some name_;
                         DeMeshOwner := None |} ;;
    let '(resp, err) := p in
    match err with
    | Some e => ret (Returned [] (Some e))
    | None =>
        match resp with
        | None => ret NilDereference
        | Some vn =>
            let d := SetId (StringValue (Uid (Metadata vn))) d in
            let d := withCurrent (Set_name (StringValue (VnVirtualNodeName vn))) d in
            let d := withCurrent (Set_mesh_name (StringValue (VnMeshName vn))) d in
            ret (Returned [d] None)
        end
    end.

(** The calls of Update before its final Read. *)
Definition updateCalls (meta : AWSClient) (d : ResourceData) (h : list Event)
  : list Event :=
  let specReq := {| UpMeshName := Some (mesh_name (current d));
                    UpVirtualNodeName := Some (name (current d));
                    UpSpec := expandVirtualNodeSpec (spec (planned d));
                    UpMeshOwner := GetOk (mesh_owner (current d)) |} in
  let r := UpdateVirtualNodeWithContext (AppMeshConn meta) h specReq in
  let specCalls := if HasChange spec d then [EvUpdateVirtualNode specReq r] else [] in
  let failed := HasChange spec d && match r with inl _ => false | inr _ => true end in
  let tagCalls :=
    if negb failed && HasChange tags_all d then
      [EvUpdateTags (arn (current d)) (tags_all (prior d)) (tags_all (planned d))
         (UpdateTagsOf (AppMeshConn meta) (h ++ specCalls) (arn (current d))
            (tags_all (prior d)) (tags_all (planned d)))]
    else [] in
  specCalls ++ tagCalls.

(** The request that [resourceVirtualNodeCreate] builds. *)
Definition createRequest (meta : AWSClient) (d : ResourceData) : CreateVirtualNodeInput :=
  {| CrMeshName := Some (mesh_name (current d));
     CrVirtualNodeName := Some (name (current d));
     CrSpec := expandVirtualNodeSpec (spec (current d));
     CrTags := IgnoreAWS (MergeTags (DefaultTagsConfig meta) (tags (current d)));
     CrMeshOwner := GetOk (mesh_owner (current d)) |}.

(** The request that [resourceVirtualNodeUpdate] builds when [spec] changed. *)
Definition updateRequest (d : ResourceData) : UpdateVirtualNodeInput :=
  {| UpMeshName := Some (mesh_name (current d));
     UpVirtualNodeName := Some (name (current d));
     UpSpec := expandVirtualNodeSpec (spec (planned d));
     UpMeshOwner := GetOk (mesh_owner (current d)) |}.

Definition isUpdateTags (e : Event) : bool :=
  match e with EvUpdateTags _ _ _ _ => true | _ => false end.

(** A call that the service answered by an error. *)
Definition failed (e : Event) : bool :=
  match e with
  | EvCreateVirtualNode _ (inr _) | EvDescribeVirtualNode _ (inr _)
  | EvUpdateVirtualNode _ (inr _) | EvDeleteVirtualNode _ (inr _)
  | EvListTags _ (inr _) | EvUpdateTags _ _ _ (Some _) => true
  | _ => false
  end.

(** ** Services to run the functions against *)

Definition notFound : AwsError :=
  {| Code := ErrCodeNotFoundException; Message := "virtual node not found" |}.

Definition deletedIn (h : list Event) : bool :=
  existsb (fun e => match e with
                    | EvDeleteVirtualNode _ (inl _) => true
                    | _ => false
                    end) h.

(** A service that holds the node [vn] until a delete call succeeds, and
    answers not-found from then on. *)
Definition serviceWith (vn : VirtualNodeData) : Conn :=
  {| CreateVirtualNodeWithContext := fun _ _ => inl vn;
     DescribeVirtualNodeWithContext :=
       fun h _ => if deletedIn h then inr notFound else inl (Some vn);
     UpdateVirtualNodeWithContext :=
       fun h _ => if deletedIn h then inr notFound else inl vn;
     DeleteVirtualNodeWithContext :=
       fun h _ => if deletedIn h then inr notFound else inl vn;
     ListTagsOf := fun _ _ => inl ∅;
     UpdateTagsOf := fun _ _ _ _ => None |}.

(** A service in which the node is not visible: it accepts a create call
    and answers not-found to everything else. *)
Definition serviceWithout (vn : VirtualNodeData) : Conn :=
  {| CreateVirtualNodeWithContext := fun _ _ => inl vn;
     DescribeVirtualNodeWithContext := fun _ _ => inr notFound;
     UpdateVirtualNodeWithContext := fun _ _ => inr notFound;
     DeleteVirtualNodeWithContext := fun _ _ => inr notFound;
     ListTagsOf := fun _ _ => inr notFound;
     UpdateTagsOf := fun _ _ _ _ => Some notFound |}.

(** A service whose describe answers carry no virtual node. *)
Definition serviceEmpty (vn : VirtualNodeData) : Conn :=
  {| CreateVirtualNodeWithContext := fun _ _ => inl vn;
     DescribeVirtualNodeWithContext := fun _ _ => inl None;
     UpdateVirtualNodeWithContext := fun _ _ => inl vn;
     DeleteVirtualNodeWithContext := fun _ _ => inl vn;
     ListTagsOf := fun _ _ => inl ∅;
     UpdateTagsOf := fun _ _ _ _ => None |}.

(** A service that, once a delete call has been answered by success or by
    not-found, answers the same call next by success or by not-found. *)
Definition forgetsDeleted (conn : Conn) : Prop :=
  forall h input r,
    match r with inl _ => True | inr e => Code e = ErrCodeNotFoundException end ->
    match DeleteVirtualNodeWithContext conn (h ++ [EvDeleteVirtualNode input r]) input with
    | inl _ => True
    | inr e => Code e = ErrCodeNotFoundException
    end.

End WithHelpers.

(** A plain instance of the helpers, to run the functions on concrete
    inputs: the [spec] block is kept as a list of strings that both
    mappings leave as it is, default tags are merged under the resource's
    own, times are already formatted. *)
#[local] Instance plainHelpers : Helpers := {|
  SpecConfig := list string;
  VirtualNodeSpec := list string;
  expandVirtualNodeSpec := fun c => c;
  flattenVirtualNodeSpec := fun w => w;
  DefaultConfig := gmap string string;
  IgnoreConfig := unit;
  MergeTags := fun dflt t => t ∪ dflt;
  IgnoreAWS := fun t => t;
  IgnoreConfigTags := fun _ t => t;
  RemoveDefaultConfig := fun dflt t => filter (fun kv => dflt !! kv.1 <> Some kv.2) t;
  Time := string;
  FormatRFC3339 := fun t => t
|}.

(** The attributes that address the remote object: every request of the
    file is keyed by them. *)
Definition identityAttributes : list string := ["mesh_name"; "name"].

Definition sampleNode (status : string) : VirtualNodeData :=
  {| VnMeshName := Some "meshA";
     Metadata := {| Arn := Some "arn:aws:appmesh:eu-west-1:123456789012:mesh/meshA/virtualNode/nodeB";
                    CreatedAt := "2023-01-01T00:00:00Z";
                    LastUpdatedAt := "2023-01-02T00:00:00Z";
                    MetaMeshOwner := Some "123456789012";
                    ResourceOwner := Some "123456789012";
                    Uid := Some "0a1b2c3d" |};
     Spec := ["listener"];
     VnStatus := {| Status := Some status |};
     VnVirtualNodeName := Some "nodeB" |}.

Definition sampleAttrs (spec_ : list string) (tags_ tags_all_ : gmap string string)
  : Attrs :=
  {| name := "nodeB"; mesh_name := "meshA"; mesh_owner := "";
     spec := spec_;
     arn := "arn:aws:appmesh:eu-west-1:123456789012:mesh/meshA/virtualNode/nodeB";
     created_date := ""; last_updated_date := ""; resource_owner := "";
     tags := tags_; tags_all := tags_all_ |}.

Definition sampleData (isNew : bool) : ResourceData :=
  {| Id := "0a1b2c3d"; IsNewResource := isNew;
     prior := sampleAttrs ["listener"] ∅ ∅;
     planned := sampleAttrs ["listener"] ∅ ∅;
     current := sampleAttrs ["listener"] ∅ ∅ |}.

(** The data that the host hands to Update: the old configuration as
    prior state, the new one as plan and as current view. *)
Definition forUpdate `{Helpers} (id : string) (old new : Attrs) : ResourceData :=
  {| Id := id; IsNewResource := false; prior := old; planned := new; current := new |}.

Definition sampleClient (conn : Conn) : AWSClient :=
  {| AppMeshConn := conn; DefaultTagsConfig := ∅; IgnoreTagsConfig := tt |}.

(** The top-level entries of [ResourceVirtualNode().Schema], in source
    order.  The two tag entries come from [tftags.TagsSchema()] and
    [tftags.TagsSchemaComputed()]: an optional map, and an optional and
    computed one. *)
Definition ResourceVirtualNodeSchema : list (string * Schema) :=
  [ ("name",
      {| Type_ := TypeString; Required := true; Optional := false;
         Computed := false; ForceNew := true |});
    ("mesh_name",
      {| Type_ := TypeString; Required := true; Optional := false;
         Computed := false; ForceNew := true |});
    ("mesh_owner",
      {| Type_ := TypeString; Required := false; Optional := true;
         Computed := true; ForceNew := true |});
    ("spec",
      {| Type_ := TypeList; Required := true; Optional := false;
         Computed := false; ForceNew := false |});
    ("arn",
      {| Type_ := TypeString; Required := false; Optional := false;
         Computed := true; ForceNew := false |});
    ("created_date",
      {| Type_ := TypeString; Required := false; Optional := false;
         Computed := true; ForceNew := false |});
    ("last_updated_date",
      {| Type_ := TypeString; Required := false; Optional := false;
         Computed := true; ForceNew := false |});
    ("resource_owner",
      {| Type_ := TypeString; Required := false; Optional := false;
         Computed := true; ForceNew := false |});
    ("tags",
      {| Type_ := TypeMap; Required := false; Optional := true;
         Computed := false; ForceNew := false |});
    ("tags_all",
      {| Type_ := TypeMap; Required := false; Optional := true;
         Computed := true; ForceNew := false |}) ].

End AppMesh.

(* ================================================================== *)
(** * internal/service/transfer/access.go                             *)
(* ================================================================== *)

Module Transfer.
Import SDK.
Local Open Scope go_scope.

(** Functions the file calls and that are defined elsewhere: the codec of
    the resource ID (same package), JSON normalisation
    ([structure.NormalizeJsonString] of the plugin SDK) and
    [verify.PolicyToSet]. *)
Class Helpers := {
  AccessCreateResourceID : string -> string -> string;
  AccessParseResourceID : string -> (string * string) + error;
  NormalizeJsonString : string -> string + error;
  PolicyToSet : string -> string -> string + error
}.

(** ** Wire types (github.com/aws/aws-sdk-go/service/transfer) *)

Record HomeDirectoryMapEntry := { Entry : option string; Target : option string }.

Record PosixProfile := {
  Gid : option Z;
  SecondaryGids : list Z;
  Uid : option Z
}.

Record CreateAccessInput := {
  CrExternalId : option string;
  CrHomeDirectory : option string;
  CrHomeDirectoryMappings : option (list HomeDirectoryMapEntry);
  CrHomeDirectoryType : option string;
  CrPolicy : option string;
  CrPosixProfile : option PosixProfile;
  CrRole : option string;
  CrServerId : option string
}.

Record UpdateAccessInput := {
  UpExternalId : option string;
  UpHomeDirectory : option string;
  UpHomeDirectoryMappings : option (list HomeDirectoryMapEntry);
  UpHomeDirectoryType : option string;
  UpPolicy : option string;
  UpPosixProfile : option PosixProfile;
  UpRole : option string;
  UpServerId : option string
}.

Record DescribedAccess := {
  ExternalId : option string;
  HomeDirectory : option string;
  HomeDirectoryMappings : option (list HomeDirectoryMapEntry);
  HomeDirectoryType : option string;
  Policy : option string;
  DaPosixProfile : option PosixProfile;
  Role : option string
}.

Definition ErrCodeResourceNotFoundException : string := "ResourceNotFoundException".

(** ** The remote service *)
Inductive Event :=
  | EvCreateAccess (input : CreateAccessInput) (res : option AwsError)
  | EvDescribeAccess (serverID externalID : string) (res : option DescribedAccess + AwsError)
  | EvUpdateAccess (input : UpdateAccessInput) (res : option AwsError)
  | EvDeleteAccess (serverID externalID : string) (res : option AwsError).

Record Conn := {
  CreateAccessWithContext : list Event -> CreateAccessInput -> option AwsError;
  DescribeAccessWithContext :
    list Event -> string -> string -> option DescribedAccess + AwsError;
  UpdateAccessWithContext : list Event -> UpdateAccessInput -> option AwsError;
  DeleteAccessWithContext : list Event -> string -> string -> option AwsError
}.

Definition mutating (e : Event) : bool :=
  match e with
  | EvCreateAccess _ _ | EvUpdateAccess _ _ | EvDeleteAccess _ _ _ => true
  | EvDescribeAccess _ _ _ => false
  end.

Definition createAccess (conn : Conn) (input : CreateAccessInput) : M Event (option error) :=
  fun h => let r := CreateAccessWithContext conn h input in
           (option_map awserr r, h ++ [EvCreateAccess input r]).

(** Modelled from the spec: [FindAccessByServerIDAndExternalID] lives in
    another file of the package, which is not among the files followed here; it is the read
    call "keyed by natural identifying fields".  It answers with the
    remote object, or with an error; the service's not-found answer and
    an answer without object both become the "NotFound" error kind, which
    [tfresource.NotFound] recognises. *)
Definition findResult (r : option DescribedAccess + AwsError) : DescribedAccess + error :=
  match r with
  | inr e =>
      if ErrCodeEquals (Some (awserr e)) ErrCodeResourceNotFoundException
      then inr (NotFoundError (Error (awserr e))) else inr (awserr e)
  | inl None => inr (NotFoundError "empty result")
  | inl (Some access) => inl access
  end.

(** A not-found answer of the service to a describe call: the error code
    of a missing resource, or an answer without object. *)
Definition isNotFoundReply (r : option DescribedAccess + AwsError) : bool :=
  match r with
  | inr e => String.eqb (Code e) ErrCodeResourceNotFoundException
  | inl None => true
  | inl (Some _) => false
  end.

Definition FindAccessByServerIDAndExternalID (conn : Conn) (serverID externalID : string)
  : M Event (DescribedAccess + error) :=
  fun h => let r := DescribeAccessWithContext conn h serverID externalID in
           (findResult r, h ++ [EvDescribeAccess serverID externalID r]).

Definition updateAccess (conn : Conn) (input : UpdateAccessInput) : M Event (option error) :=
  fun h => let r := UpdateAccessWithContext conn h input in
           (option_map awserr r, h ++ [EvUpdateAccess input r]).

Definition deleteAccess (conn : Conn) (serverID externalID : string) : M Event (option error) :=
  fun h => let r := DeleteAccessWithContext conn h serverID externalID in
           (option_map awserr r, h ++ [EvDeleteAccess serverID externalID r]).

(** ** Schema and tracked state *)

(** The attributes from which [resourceAccessCreate] builds the ID. *)
Definition identityAttributes : list string := ["server_id"; "external_id"].

(** The top-level entries of [ResourceAccess().Schema], in source order. *)
Definition ResourceAccessSchema : list (string * Schema) :=
  [ ("external_id",
      {| Type_ := TypeString; Required := true; Optional := false;
         Computed := false; ForceNew := false |});
    ("home_directory",
      {| Type_ := TypeString; Required := false; Optional := true;
         Computed := false; ForceNew := false |});
    ("home_directory_mappings",
      {| Type_ := TypeList; Required := false; Optional := true;
         Computed := false; ForceNew := false |});
    ("home_directory_type",
      {| Type_ := TypeString; Required := false; Optional := true;
         Computed := false; ForceNew := false |});
    ("policy",
      {| Type_ := TypeString; Required := false; Optional := true;
         Computed := false; ForceNew := false |});
    ("posix_profile",
      {| Type_ := TypeList; Required := false; Optional := true;
         Computed := false; ForceNew := false |});
    ("role",
      {| Type_ := TypeString; Required := false; Optional := true;
         Computed := false; ForceNew := false |});
    ("server_id",
      {| Type_ := TypeString; Required := true; Optional := false;
         Computed := false; ForceNew := true |}) ].

(** One element of the [home_directory_mappings] list. *)
Record MappingBlock := { entry : string; target : string }.

(** The element of the [posix_profile] list (at most one). *)
Record PosixBlock := { gid : Z; uid : Z; secondary_gids : gset Z }.

Record Attrs := {
  external_id : string;
  home_directory : string;
  home_directory_mappings : list MappingBlock;
  home_directory_type : string;
  policy : string;
  posix_profile : list PosixBlock;
  role : string;
  server_id : string
}.

Record ResourceData := {
  Id : string;
  IsNewResource : bool;
  prior : Attrs;
  planned : Attrs;
  current : Attrs
}.

Definition SetId (v : string) (d : ResourceData) : ResourceData :=
  {| Id := v; IsNewResource := IsNewResource d;
     prior := prior d; planned := planned d; current := current d |}.

Definition withCurrent (f : Attrs -> Attrs) (d : ResourceData) : ResourceData :=
  {| Id := Id d; IsNewResource := IsNewResource d;
     prior := prior d; planned := planned d; current := f (current d) |}.

Definition Set_external_id (v : string) (a : Attrs) : Attrs :=
  {| external_id := v; home_directory := home_directory a;
     home_directory_mappings := home_directory_mappings a;
     home_directory_type := home_directory_type a; policy := policy a;
     posix_profile := posix_profile a; role := role a; server_id := server_id a |}.
Definition Set_home_directory (v : string) (a : Attrs) : Attrs :=
  {| external_id := external_id a; home_directory := v;
     home_directory_mappings := home_directory_mappings a;
     home_directory_type := home_directory_type a; policy := policy a;
     posix_profile := posix_profile a; role := role a; server_id := server_id a |}.
Definition Set_home_directory_mappings (v : list MappingBlock) (a : Attrs) : Attrs :=
  {| external_id := external_id a; home_directory := home_directory a;
     home_directory_mappings := v;
     home_directory_type := home_directory_type a; policy := policy a;
     posix_profile := posix_profile a; role := role a; server_id := server_id a |}.
Definition Set_home_directory_type (v : string) (a : Attrs) : Attrs :=
  {| external_id := external_id a; home_directory := home_directory a;
     home_directory_mappings := home_directory_mappings a;
     home_directory_type := v; policy := policy a;
     posix_profile := posix_profile a; role := role a; server_id := server_id a |}.
Definition Set_policy (v : string) (a : Attrs) : Attrs :=
  {| external_id := external_id a; home_directory := home_directory a;
     home_directory_mappings := home_directory_mappings a;
     home_directory_type := home_directory_type a; policy := v;
     posix_profile := posix_profile a; role := role a; server_id := server_id a |}.
Definition Set_posix_profile (v : list PosixBlock) (a : Attrs) : Attrs :=
  {| external_id := external_id a; home_directory := home_directory a;
     home_directory_mappings := home_directory_mappings a;
     home_directory_type := home_directory_type a; policy := policy a;
     posix_profile := v; role := role a; server_id := server_id a |}.
Definition Set_server_id (v : string) (a : Attrs) : Attrs :=
  {| external_id := external_id a; home_directory := home_directory a;
     home_directory_mappings := home_directory_mappings a;
     home_directory_type := home_directory_type a; policy := policy a;
     posix_profile := posix_profile a; role := role a; server_id := v |}.

#[global] Instance MappingBlock_eq : EqDecision MappingBlock.
Proof. solve_decision. Defined.
#[global] Instance PosixBlock_eq : EqDecision PosixBlock.
Proof. solve_decision. Defined.

(** [d.GetOk]: the value when it differs from the zero value of its type. *)
Definition GetOk (v : string) : option string :=
  if String.eqb v "" then None else Some v.
Definition GetOkList {A} (v : list A) : option (list A) :=
  match v with [] => None | _ => Some v end.

Definition HasChange {A} `{EqDecision A} (get : Attrs -> A) (d : ResourceData) : bool :=
  negb (bool_decide (get (prior d) = get (planned d))).

(** ** Mappings of the nested blocks *)

(** [aws.Int64Value] *)
Definition Int64Value (p : option Z) : Z :=
  match p with Some z => z | None => 0%Z end.

(** Modelled from the spec: [expandHomeDirectoryMappings],
    [flattenHomeDirectoryMappings], [expandUserPOSIXUser] and
    [flattenUserPOSIXUser] live in user.go of the package, which is not
    among the files followed here.  Each block becomes "a
    present-or-absent wire substructure (absent block => field omitted,
    not a null/zero value)", and back, "nested blocks absent on the wire
    must flatten to absent/empty, never to a block of zero-valued
    fields". *)
Definition expandHomeDirectoryMappings (tfList : list MappingBlock)
  : list HomeDirectoryMapEntry :=
  map (fun b => {| Entry := Some (entry b); Target := Some (target b) |}) tfList.

Definition flattenHomeDirectoryMappings (apiObjects : option (list HomeDirectoryMapEntry))
  : list MappingBlock :=
  match apiObjects with
  | None => []
  | Some l =>
      map (fun e => {| entry := StringValue (Entry e);
                       target := StringValue (Target e) |}) l
  end.

Definition expandUserPOSIXUser (pUser : list PosixBlock) : option PosixProfile :=
  match pUser with
  | [] => None
  | b :: _ =>
      Some {| Gid := Some (gid b); Uid := Some (uid b);
              SecondaryGids := elements (secondary_gids b) |}
  end.

Definition flattenUserPOSIXUser (posixUser : option PosixProfile) : list PosixBlock :=
  match posixUser with
  | None => []
  | Some p =>
      [ {| gid := Int64Value (Gid p); uid := Int64Value (Uid p);
           secondary_gids := list_to_set (SecondaryGids p) |} ]
  end.

(** ** The resource ID *)

(** Modelled from the spec: [AccessCreateResourceID] and
    [AccessParseResourceID] live in another file of the package, which is
    not among the files followed here.  The ID is made "by
    deterministically concatenating natural-key fields with a fixed,
    documented separator" ([/]), and parsing "expects exactly two
    /-separated components - a reference with any other component count is
    a MalformedReference, not silently truncated". *)
Definition accessResourceIDSeparator : string := "/".

Definition createResourceID (serverID externalID : string) : string :=
  Join [serverID; externalID] accessResourceIDSeparator.

Definition parseResourceID (id : string) : (string * string) + error :=
  match Split id "/" with
  | [serverID; externalID] => inl (serverID, externalID)
  | _ => inr (errorString ("unexpected format for ID (" +:+ id
                 +:+ "), expected SERVERID/EXTERNALID"))
  end.

(** The helpers with this codec; policies are taken in normal form, where
    normalising changes nothing and a policy read back is kept when it is
    the tracked one. *)
Definition specHelpers : Helpers := {|
  AccessCreateResourceID := createResourceID;
  AccessParseResourceID := parseResourceID;
  NormalizeJsonString := fun s => inl s;
  PolicyToSet := fun exist new => inl (if String.eqb exist new then exist else new)
|}.

(** ** Services to run the functions against *)

Definition notFound : AwsError :=
  {| Code := ErrCodeResourceNotFoundException; Message := "access not found" |}.

Definition deletedIn (h : list Event) : bool :=
  existsb (fun e => match e with
                    | EvDeleteAccess _ _ None => true
                    | _ => false
                    end) h.

(** A service that holds the access [a] until a delete call succeeds. *)
Definition serviceWith (a : DescribedAccess) : Conn :=
  {| CreateAccessWithContext := fun _ _ => None;
     DescribeAccessWithContext :=
       fun h _ _ => if deletedIn h then inr notFound else inl (Some a);
     UpdateAccessWithContext :=
       fun h _ => if deletedIn h then Some notFound else None;
     DeleteAccessWithContext :=
       fun h _ _ => if deletedIn h then Some notFound else None |}.

(** A service in which the access is not visible. *)
Definition serviceWithout : Conn :=
  {| CreateAccessWithContext := fun _ _ => None;
     DescribeAccessWithContext := fun _ _ _ => inr notFound;
     UpdateAccessWithContext := fun _ _ => Some notFound;
     DeleteAccessWithContext := fun _ _ _ => Some notFound |}.

(** A service that accepts every call that changes something and shows
    no access. *)
Definition serviceGone : Conn :=
  {| CreateAccessWithContext := fun _ _ => None;
     DescribeAccessWithContext := fun _ _ _ => inr notFound;
     UpdateAccessWithContext := fun _ _ => None;
     DeleteAccessWithContext := fun _ _ _ => None |}.

(** What the service shows of an access created by [input]: the fields
    as they were sent, except the role, which it does not return. *)
Definition echoAccess (input : CreateAccessInput) : DescribedAccess :=
  {| ExternalId := CrExternalId input;
     HomeDirectory := CrHomeDirectory input;
     HomeDirectoryMappings := CrHomeDirectoryMappings input;
     HomeDirectoryType := CrHomeDirectoryType input;
     Policy := CrPolicy input;
     DaPosixProfile := CrPosixProfile input;
     Role := None |}.




(** A service that, once a delete call has been answered by success or by
    not-found, answers the same call next by success or by not-found. *)
Definition forgetsDeleted (conn : Conn) : Prop :=
  forall h serverID externalID r,
    match r with None => True | Some e => Code e = ErrCodeResourceNotFoundException end ->
    match DeleteAccessWithContext conn (h ++ [EvDeleteAccess serverID externalID r])
            serverID externalID with
    | None => True
    | Some e => Code e = ErrCodeResourceNotFoundException
    end.

Definition sampleAttrs : Attrs :=
  {| external_id := "S-1-1-12-1234567890-123456789-1234567890-1234";
     home_directory := "/home/alice";
     home_directory_mappings := [];
     home_directory_type := "PATH";
     policy := "";
     posix_profile := [ {| gid := 1000; uid := 1000; secondary_gids := {[ 100%Z; 200%Z ]} |} ];
     role := "arn:aws:iam::123456789012:role/transfer-access";
     server_id := "s-0123456789abcdef0" |}.

(** What a service may show of an access whose home directory was
    changed out of band. *)
Definition sampleAccess : DescribedAccess :=
  {| ExternalId := Some "S-1-1-12-1234567890-123456789-1234567890-1234";
     HomeDirectory := Some "/home/carol";
     HomeDirectoryMappings := None;
     HomeDirectoryType := Some "PATH";
     Policy := None;
     DaPosixProfile := None;
     Role := Some "arn:aws:iam::123456789012:role/other" |}.

Definition sampleId : string :=
  "s-0123456789abcdef0/S-1-1-12-1234567890-123456789-1234567890-1234".

Definition sampleData (isNew : bool) : ResourceData :=
  {| Id := sampleId; IsNewResource := isNew;
     prior := sampleAttrs; planned := sampleAttrs; current := sampleAttrs |}.

Definition noAttrs : Attrs :=
  {| external_id := ""; home_directory := ""; home_directory_mappings := [];
     home_directory_type := ""; policy := ""; posix_profile := [];
     role := ""; server_id := "" |}.


(** The data that the host hands to Create: no ID and no prior state yet,
    the resource marked as new, the configuration as plan and as current
    view. *)
Definition forCreate (config : Attrs) : ResourceData :=
  {| Id := ""; IsNewResource := true;
     prior := noAttrs; planned := config; current := config |}.

(** The data that the host hands to Update: the old configuration as
    prior state, the new one as plan and as current view. *)
Definition forUpdate (id : string) (old new : Attrs) : ResourceData :=
  {| Id := id; IsNewResource := false; prior := old; planned := new; current := new |}.

Section WithHelpers.
Context `{H : Helpers}.

(** ** Lifecycle functions *)

(** The request that [resourceAccessCreate] builds from the configuration
    (the wire encoding); the error is the one of an invalid [policy], with
    the offending value. *)
Definition createAccessInput (a : Attrs) : CreateAccessInput + (string * error) :=
  let externalID := external_id a in
  let serverID := server_id a in
  match (match GetOk (policy a) with
         | Some v => match NormalizeJsonString v with
                     | inl p => inl (Some p)
                     | inr e => inr (v, e)
                     end
         | None => inl None
         end) with
  | inr bad => inr bad
  | inl policy_ =>
      inl {| CrExternalId := Some externalID;
             CrServerId := Some serverID;
             CrHomeDirectory := GetOk (home_directory a);
             CrHomeDirectoryMappings :=
               option_map expandHomeDirectoryMappings
                 (GetOkList (home_directory_mappings a));
             CrHomeDirectoryType := GetOk (home_directory_type a);
             CrPolicy := policy_;
             CrPosixProfile :=
               match GetOkList (posix_profile a) with
               | Some v => expandUserPOSIXUser v
               | None => None
               end;
             CrRole := GetOk (role a) |}
  end.


(** The [d.Set] calls of [resourceAccessRead] once the remote object is
    there (the wire decoding).  There is none for [role].  A failing
    [verify.PolicyToSet] leaves the attributes set before it.  [d.Set]
    does not fail on a value of the attribute's type, so the returns that
    follow the [d.Set] of the two nested blocks are never taken and are
    left out. *)
Definition setAccessAttributes (serverID : string) (access : DescribedAccess)
  (d : ResourceData) : ResourceData * option error :=
  let d := withCurrent (Set_external_id (StringValue (ExternalId access))) d in
  let d := withCurrent (Set_home_directory (StringValue (HomeDirectory access))) d in
  let d := withCurrent (Set_home_directory_mappings
             (flattenHomeDirectoryMappings (HomeDirectoryMappings access))) d in
  let d := withCurrent (Set_home_directory_type (StringValue (HomeDirectoryType access))) d in
  let d := withCurrent (Set_posix_profile (flattenUserPOSIXUser (DaPosixProfile access))) d in
  match PolicyToSet (policy (current d)) (StringValue (Policy access)) with
  | inr e => (d, Some e)
  | inl policyToSet =>
      let d := withCurrent (Set_policy policyToSet) d in
      let d := withCurrent (Set_server_id serverID) d in
      (d, None)
  end.

Definition resourceAccessRead (conn : Conn) (d : ResourceData)
  : M Event (Diagnostics * ResourceData) :=
  let diags : Diagnostics := [] in
  match AccessParseResourceID (Id d) with
  | inr e =>
      ret (AppendErrorf diags ("parsing Transfer Access ID: " +:+ Error e), d)
  | inl (serverID, externalID) =>
      r <- FindAccessByServerIDAndExternalID conn serverID externalID ;;
      let err := match r with inr e => Some e | inl _ => None end in
      if negb (IsNewResource d) && NotFound err then
        ret (diags, SetId "" d)
      else
        match r with
        | inr e =>
            ret (AppendErrorf diags ("reading Transfer Access (" +:+ Id d
                   +:+ "): " +:+ Error e), d)
        | inl access =>
            match setAccessAttributes serverID access d with
            | (d, Some e) =>
                ret (AppendErrorf diags ("reading Transfer Access (" +:+ Id d
                       +:+ "): " +:+ Error e), d)
            | (d, None) => ret (diags, d)
            end
        end
  end.

Definition resourceAccessCreate (conn : Conn) (d : ResourceData)
  : M Event (Diagnostics * ResourceData) :=
  let diags : Diagnostics := [] in
  let externalID := external_id (current d) in
  let serverID := server_id (current d) in
  let id := AccessCreateResourceID serverID externalID in
  match createAccessInput (current d) with
  | inr (v, e) =>
      ret (AppendErrorf diags ("policy (" +:+ v +:+ ") is invalid JSON: " +:+ Error e), d)
  | inl input =>
      err <- createAccess conn input ;;
      match err with
      | Some e =>
          ret (AppendErrorf diags ("creating Transfer Access (" +:+ id
                 +:+ "): " +:+ Error e), d)
      | None =>
          let d := SetId id d in
          p <- resourceAccessRead conn d ;;
          let '(rdiags, d) := p in
          ret (diags ++ rdiags, d)
      end
  end.

(** The request that [resourceAccessUpdate] builds: the two keys parsed
    from the ID, and one field per attribute that changed. *)
Definition updateAccessInput (serverID externalID : string) (d : ResourceData)
  : UpdateAccessInput + (string * error) :=
  match (if HasChange policy d then
           match NormalizeJsonString (policy (current d)) with
           | inl p => inl (Some p)
           | inr e => inr (policy (current d), e)
           end
         else inl None) with
  | inr bad => inr bad
  | inl policy_ =>
      inl {| UpExternalId := Some externalID;
             UpServerId := Some serverID;
             UpHomeDirectory :=
               if HasChange home_directory d
               then Some (home_directory (current d)) else None;
             UpHomeDirectoryMappings :=
               if HasChange home_directory_mappings d
               then Some (expandHomeDirectoryMappings (home_directory_mappings (current d)))
               else None;
             UpHomeDirectoryType :=
               if HasChange home_directory_type d
               then Some (home_directory_type (current d)) else None;
             UpPolicy := policy_;
             UpPosixProfile :=
               if HasChange posix_profile d
               then expandUserPOSIXUser (posix_profile (current d)) else None;
             UpRole :=
               if HasChange role d then Some (role (current d)) else None |}
  end.

(** The attribute groups that [resourceAccessUpdate] looks at, in source
    order. *)
Inductive Group :=
  | GHomeDirectory | GHomeDirectoryMappings | GHomeDirectoryType
  | GPolicy | GPosixProfile | GRole.

Definition allGroups : list Group :=
  [GHomeDirectory; GHomeDirectoryMappings; GHomeDirectoryType;
   GPolicy; GPosixProfile; GRole].

Definition groupChanged (d : ResourceData) (g : Group) : bool :=
  match g with
  | GHomeDirectory => HasChange home_directory d
  | GHomeDirectoryMappings => HasChange home_directory_mappings d
  | GHomeDirectoryType => HasChange home_directory_type d
  | GPolicy => HasChange policy d
  | GPosixProfile => HasChange posix_profile d
  | GRole => HasChange role d
  end.

Definition changedGroups (d : ResourceData) : list Group :=
  List.filter (groupChanged d) allGroups.

(** An update request that carries the two keys and the group [g] only. *)
Definition requestFor (serverID externalID : string) (g : Group) (a : Attrs)
  : UpdateAccessInput :=
  {| UpExternalId := Some externalID;
     UpServerId := Some serverID;
     UpHomeDirectory :=
       match g with GHomeDirectory => Some (home_directory a) | _ => None end;
     UpHomeDirectoryMappings :=
       match g with
       | GHomeDirectoryMappings =>
           Some (expandHomeDirectoryMappings (home_directory_mappings a))
       | _ => None
       end;
     UpHomeDirectoryType :=
       match g with GHomeDirectoryType => Some (home_directory_type a) | _ => None end;
     UpPolicy :=
       match g with
       | GPolicy => match NormalizeJsonString (policy a) with
                    | inl p => Some p
                    | inr _ => None
                    end
       | _ => None
       end;
     UpPosixProfile :=
       match g with GPosixProfile => expandUserPOSIXUser (posix_profile a) | _ => None end;
     UpRole := match g with GRole => Some (role a) | _ => None end |}.

(** Whether an update request carries the field of the group [g]. *)
Definition carries (input : UpdateAccessInput) (g : Group) : bool :=
  match g with
  | GHomeDirectory => bool_decide (is_Some (UpHomeDirectory input))
  | GHomeDirectoryMappings => bool_decide (is_Some (UpHomeDirectoryMappings input))
  | GHomeDirectoryType => bool_decide (is_Some (UpHomeDirectoryType input))
  | GPolicy => bool_decide (is_Some (UpPolicy input))
  | GPosixProfile => bool_decide (is_Some (UpPosixProfile input))
  | GRole => bool_decide (is_Some (UpRole input))
  end.

Definition resourceAccessUpdate (conn : Conn) (d : ResourceData)
  : M Event (Diagnostics * ResourceData) :=
  let diags : Diagnostics := [] in
  match AccessParseResourceID (Id d) with
  | inr e =>
      ret (AppendErrorf diags ("parsing Transfer Access ID: " +:+ Error e), d)
  | inl (serverID, externalID) =>
      match updateAccessInput serverID externalID d with
      | inr (v, e) =>
          ret (AppendErrorf diags ("policy (" +:+ v +:+ ") is invalid JSON: "
                 +:+ Error e), d)
      | inl input =>
          err <- updateAccess conn input ;;
          match err with
          | Some e =>
              ret (AppendErrorf diags ("updating Transfer Access (" +:+ Id d
                     +:+ "): " +:+ Error e), d)
          | None =>
              p <- resourceAccessRead conn d ;;
              let '(rdiags, d) := p in
              ret (diags ++ rdiags, d)
          end
      end
  end.

Definition resourceAccessDelete (conn : Conn) (d : ResourceData) : M Event Diagnostics :=
  let diags : Diagnostics := [] in
  match AccessParseResourceID (Id d) with
  | inr e =>
      ret (AppendErrorf diags ("parsing Transfer Access ID: " +:+ Error e))
  | inl (serverID, externalID) =>
      err <- deleteAccess conn serverID externalID ;;
      if ErrCodeEquals err ErrCodeResourceNotFoundException then ret diags
      else
        match err with
        | Some e =>
            ret (AppendErrorf diags ("deleting Transfer Access (" +:+ Id d
                   +:+ "): " +:+ Error e))
        | None => ret diags
        end
  end.

(** [schema.ImportStatePassthroughContext], the resource's importer: the
    reference becomes the ID as it is. *)
Definition ImportStatePassthroughContext (d : ResourceData)
  : list ResourceData * option error :=
  ([d], None).

End WithHelpers.

End Transfer.

(* ================================================================== *)
(** * Lightsail: the checks of the key pair acceptance test            *)
(* ================================================================== *)

Module Lightsail.
Import SDK.
Local Open Scope go_scope.

(** ** Wire types (github.com/aws/aws-sdk-go/service/lightsail) *)

Record KeyPair := {
  KpArn : option string;
  KpFingerprint : option string;
  KpName : option string
}.

Record GetKeyPairInput := { KeyPairName : option string }.
Record GetKeyPairOutput := { OutKeyPair : option KeyPair }.

Definition ErrCodeNotFoundException : string := "NotFoundException".

(** ** The state that the test harness hands to a check
    ([terraform.State], [terraform.ResourceState],
    [terraform.InstanceState]).  [Primary] is a pointer and may be nil;
    [Resources] is the resource map of the root module. *)
Record InstanceState := {
  ID : string;
  Attributes : gmap string string
}.

Record ResourceState := {
  Type_ : string;
  Primary : option InstanceState
}.

Record State := { Resources : gmap string ResourceState }.

(** [rs.Primary.Attributes[key]]: a missing key reads as the empty
    string. *)
Definition attribute (p : InstanceState) (key : string) : string :=
  default "" (Attributes p !! key).

(** ** The remote service *)
Inductive Event :=
  | EvGetKeyPair (input : GetKeyPairInput) (res : option GetKeyPairOutput + AwsError).

Record Conn := {
  GetKeyPairWithContext :
    list Event -> GetKeyPairInput -> option GetKeyPairOutput + AwsError
}.

Definition getKeyPair (conn : Conn) (input : GetKeyPairInput)
  : M Event (option GetKeyPairOutput * option error) :=
  fun h => let r := GetKeyPairWithContext conn h input in
           (match r with
            | inl out => (out, None)
            | inr e => (None, Some (awserr e))
            end,
            h ++ [EvGetKeyPair input r]).

(** A not-found answer of the service. *)
Definition isNotFoundReply (r : option GetKeyPairOutput + AwsError) : bool :=
  match r with
  | inr e => String.eqb (Code e) ErrCodeNotFoundException
  | inl _ => false
  end.

Definition answeredNotFound (e : Event) : bool :=
  match e with EvGetKeyPair _ r => isNotFoundReply r end.

Definition requested (e : Event) : option string :=
  match e with EvGetKeyPair input _ => KeyPairName input end.

(** What a check does: it returns an error or nil, or it dereferences a
    nil pointer. *)
Inductive Outcome :=
  | Returned (err : option error)
  | NilDereference.

Definition isKeyPair (rs : ResourceState) : bool :=
  String.eqb (Type_ rs) "aws_lightsail_key_pair".

(** The name under which a check looks a resource up. *)
Definition lookupName (rs : ResourceState) : option string :=
  option_map (fun p => attribute p "name") (Primary rs).

Section Checks.
(** [%q] of [fmt], that is [strconv.Quote], of the Go library. *)
Variable Quote : string -> string.

(** The function that [testAccCheckKeyPairExists] returns.  [res] is the
    value behind the pointer of the same name before the check; the
    result carries the value behind it afterwards. *)
Definition testAccCheckKeyPairExists (conn : Conn) (n : string) (res : KeyPair)
  (s : State) : M Event (Outcome * KeyPair) :=
  match Resources s !! n with
  | None => ret (Returned (Some (errorString ("Not found: " +:+ n))), res)
  | Some rs =>
      match Primary rs with
      | None => ret (NilDereference, res)
      | Some primary =>
          if String.eqb (ID primary) "" then
            ret (Returned (Some (errorString "No LightsailKeyPair set")), res)
          else
            p <- getKeyPair conn
                   {| KeyPairName := Some (attribute primary "name") |} ;;
            let '(respKeyPair, err) := p in
            match err with
            | Some e => ret (Returned (Some e), res)
            | None =>
                match respKeyPair with
                | Some {| OutKeyPair := Some kp |} => ret (Returned None, kp)
                | _ =>
                    ret (Returned (Some (errorString ("KeyPair ("
                           +:+ attribute primary "name" +:+ ") not found"))), res)
                end
            end
      end
  end.

(** The loop of the function that [testAccCheckKeyPairDestroy] returns,
    over the resources in the order in which [range] yields them. *)
Fixpoint checkDestroyed (conn : Conn) (visit : list ResourceState)
  : M Event Outcome :=
  match visit with
  | [] => ret (Returned None)
  | rs :: rest =>
      if negb (isKeyPair rs) then checkDestroyed conn rest
      else
        match Primary rs with
        | None => ret NilDereference
        | Some primary =>
            p <- getKeyPair conn
                   {| KeyPairName := Some (attribute primary "name") |} ;;
            let '(respKeyPair, err) := p in
            if ErrCodeEquals err ErrCodeNotFoundException then
              checkDestroyed conn rest
            else
              match err with
              | None =>
                  match respKeyPair with
                  | None => ret NilDereference
                  | Some {| OutKeyPair := Some _ |} =>
                      ret (Returned (Some (errorString ("LightsailKeyPair "
                             +:+ Quote (ID primary) +:+ " still exists"))))
                  | Some {| OutKeyPair := None |} => ret (Returned err)
                  end
              | Some _ => ret (Returned err)
              end
        end
  end.

(** The function that [testAccCheckKeyPairDestroy] returns.  Go leaves
    the order of [range] over a map open: [visit] is that order, some
    arrangement of the resources of the state. *)
Definition testAccCheckKeyPairDestroy (conn : Conn) (s : State)
  (visit : list ResourceState) : M Event Outcome :=
  checkDestroyed conn visit.

End Checks.

(** An order in which [range] may yield the resources of [s]. *)
Definition rangeOrder (s : State) (visit : list ResourceState) : Prop :=
  visit ≡ₚ map snd (map_to_list (Resources s)).

(** ** Services and states to run the checks against *)

(** Quoting of a string that needs no escape. *)
Definition plainQuote (s : string) : string :=
  String "034"%char (s +:+ String "034"%char EmptyString).

Definition notFound : AwsError :=
  {| Code := ErrCodeNotFoundException; Message := "key pair not found" |}.

(** A service that holds no key pair. *)
Definition serviceWithout : Conn :=
  {| GetKeyPairWithContext := fun _ _ => inr notFound |}.

(** A service that holds the key pair [kp] under every name. *)
Definition serviceWith (kp : KeyPair) : Conn :=
  {| GetKeyPairWithContext := fun _ _ => inl (Some {| OutKeyPair := Some kp |}) |}.

(** A service whose answers carry neither an error nor a key pair. *)
Definition serviceBlank : Conn :=
  {| GetKeyPairWithContext := fun _ _ => inl (Some {| OutKeyPair := None |}) |}.

Definition sampleKeyPair : KeyPair :=
  {| KpArn := Some "arn:aws:lightsail:eu-west-1:123456789012:KeyPair/0a1b2c3d";
     KpFingerprint := Some "aa:bb:cc";
     KpName := Some "tf-acc-test-1" |}.

Definition sampleResource (type_ name_ : string) : ResourceState :=
  {| Type_ := type_;
     Primary := Some {| ID := name_; Attributes := {[ "name" := name_ ]} |} |}.

Definition sampleState : State :=
  {| Resources :=
       {[ "aws_lightsail_key_pair.test" :=
            sampleResource "aws_lightsail_key_pair" "tf-acc-test-1" ]} |}.

End Lightsail.

(* ================================================================== *)
(** * Properties of the library model                                 *)
(* ================================================================== *)

Module SDKFacts.
Import SDK.

(** The history after a computation whose final step only repackages
    the result of [m]. *)
Lemma snd_bind_pair {Ev A B C} (m : M Ev (A * B)) (f : A -> B -> C) (h : list Ev) :
  snd (bind m (fun p => let '(a, b) := p in ret (f a b)) h) = snd (m h).
Proof. unfold bind, ret. destruct (m h) as [[a b] h']. reflexivity. Qed.

Lemma fst_bind_pair {Ev A B C} (m : M Ev (A * B)) (f : A -> B -> C) (h : list Ev) :
  fst (bind m (fun p => let '(a, b) := p in ret (f a b)) h)
  = f (fst (fst (m h))) (snd (fst (m h))).
Proof. unfold bind, ret. destruct (m h) as [[a b] h']. reflexivity. Qed.

Lemma Split_not_nil (s : string) (sep : ascii) : Split s sep <> [].
Proof.
  destruct s as [|c rest]; simpl; [discriminate|].
  destruct (Ascii.eqb c sep); [discriminate|].
  destruct (Split rest sep); discriminate.
Qed.

Lemma Split_String (c : ascii) (rest : string) (sep : ascii) :
  Split (String c rest) sep =
    if Ascii.eqb c sep then EmptyString :: Split rest sep
    else match Split rest sep with
         | piece :: pieces => String c piece :: pieces
         | [] => [String c EmptyString]
         end.
Proof. reflexivity. Qed.

(** One piece more than there are separators. *)
Lemma Split_length (s : string) (sep : ascii) :
  length (Split s sep) = S (Count s sep).
Proof.
  induction s as [|c rest IH]; simpl; [reflexivity|].
  destruct (Ascii.eqb c sep); simpl; [now rewrite IH|].
  pose proof (Split_not_nil rest sep).
  destruct (Split rest sep) as [|piece pieces]; [congruence|].
  simpl in *. exact IH.
Qed.

(** Joining the pieces with the separator gives the string back. *)
Lemma Join_Split (s : string) (sep : ascii) :
  Join (Split s sep) (String sep EmptyString) = s.
Proof.
  induction s as [|c rest IH]; simpl; [reflexivity|].
  pose proof (Split_not_nil rest sep) as Hne.
  destruct (Ascii.eqb c sep) eqn:E.
  - apply Ascii.eqb_eq in E as ->.
    destruct (Split rest sep) as [|piece pieces]; [congruence|].
    change (String sep (Join (piece :: pieces) (String sep EmptyString))
            = String sep rest).
    now rewrite IH.
  - destruct (Split rest sep) as [|piece pieces]; [congruence|].
    destruct pieces as [|piece' pieces].
    + simpl in *. now rewrite IH.
    + change (String c (Join (piece :: piece' :: pieces) (String sep EmptyString))
              = String c rest).
      now rewrite IH.
Qed.

(** No piece contains the separator. *)
Lemma Split_pieces (s : string) (sep : ascii) :
  Forall (fun piece => Count piece sep = 0) (Split s sep).
Proof.
  induction s as [|c rest IH]; simpl.
  - constructor; [reflexivity | constructor].
  - destruct (Ascii.eqb c sep) eqn:E.
    + constructor; [reflexivity | exact IH].
    + destruct (Split rest sep) as [|piece pieces].
      * constructor; [simpl; now rewrite E | constructor].
      * inversion IH; subst. constructor; [simpl; now rewrite E | assumption].
Qed.

(** A string without separator is its own single piece. *)
Lemma Split_no_separator (s : string) (sep : ascii) :
  Count s sep = 0 -> Split s sep = [s].
Proof.
  induction s as [|c rest IH]; simpl; [reflexivity|].
  destruct (Ascii.eqb c sep); [discriminate|]. simpl.
  intros Hc. now rewrite (IH Hc).
Qed.

(** Two strings without separator, joined by it, split back into the two. *)
Lemma Split_Join_two (a b : string) (sep : ascii) :
  Count a sep = 0 -> Count b sep = 0 ->
  Split (a +:+ String sep EmptyString +:+ b) sep = [a; b].
Proof.
  intros Ha Hb. induction a as [|c rest IH].
  - change (Split (String sep b) sep = [EmptyString; b]).
    rewrite Split_String, Ascii.eqb_refl. now rewrite (Split_no_separator b sep Hb).
  - change (Split (String c (rest +:+ String sep EmptyString +:+ b)) sep
            = [String c rest; b]).
    rewrite Split_String. simpl in Ha.
    destruct (Ascii.eqb c sep); [discriminate|]. now rewrite (IH Ha).
Qed.

End SDKFacts.

(* ================================================================== *)
(** * Properties of the generated pagers                              *)
(* ================================================================== *)

Module WAFFacts.
Import SDK WAF.

Lemma isLastPage_spec (output : ListOutput) :
  isLastPage output = true <-> StringValue (NextMarker output) = "".
Proof. unfold isLastPage. apply String.eqb_eq. Qed.

Lemma continues_false (r : Round) :
  continues r = false <-> rCont r = false \/ isLastPage (rPage r) = true.
Proof.
  unfold continues. destruct (rCont r), (isLastPage (rPage r)); simpl; intuition congruence.
Qed.

Section Run.
Context {S : Type} (conn : Conn) (op : ListOp) (fn : PageFn S).

(** More fuel never changes a result already reached. *)
Lemma listPages_fuel_mono (n k : nat) input s h res :
  listPages conn op fn n input s h = Some res ->
  listPages conn op fn (n + k) input s h = Some res.
Proof.
  revert input s h. induction n as [|n IH]; intros input s h; simpl; [discriminate|].
  destruct (conn h op input) as [output|e]; [|auto].
  destruct (fn output (isLastPage output) s) as [cont s1].
  destruct (negb cont || isLastPage output); [auto|]. apply IH.
Qed.

(** The loop is left at the first page after which the callback asks to
    stop, at the first last page, and at the first error. *)
Lemma listPages_stops_now input s h n :
  match conn h op input with
  | inr _ => True
  | inl output =>
      fst (fn output (isLastPage output) s) = false \/ isLastPage output = true
  end ->
  exists res, listPages conn op fn (Datatypes.S n) input s h = Some res.
Proof.
  simpl. destruct (conn h op input) as [output|e]; [|eauto].
  destruct (fn output (isLastPage output) s) as [cont s1]; simpl.
  intros [-> | ->]; simpl; eauto.
  rewrite orb_true_r. eauto.
Qed.

Lemma roundEvents_app (h : list Event) (input : ListInput) (output : ListOutput)
  (cont : bool) :
  (h ++ [EvCall op input (inl output)]) ++ [EvFn output (isLastPage output) cont]
  = h ++ roundEvents op {| rInput := input; rPage := output; rCont := cont |}.
Proof. unfold roundEvents. simpl. now rewrite <- app_assoc. Qed.

Lemma stateAfter_app (l1 l2 : list Round) (s : S) :
  stateAfter fn (l1 ++ l2) s = stateAfter fn l2 (stateAfter fn l1 s).
Proof. revert s. induction l1 as [|r l1 IH]; intros s; simpl; auto. Qed.

(** Rounds played one after the other. *)
Lemma played_app (l1 l2 : list Round) :
  forall input s h,
    played conn op fn (l1 ++ l2) input s h
    <-> played conn op fn l1 input s h
        /\ played conn op fn l2 (inputAfter l1 input) (stateAfter fn l1 s)
             (h ++ flat_map (roundEvents op) l1).
Proof.
  induction l1 as [|r l1 IH]; intros input s h.
  - simpl. rewrite app_nil_r. tauto.
  - cbn [app played inputAfter stateAfter flat_map]. rewrite IH.
    rewrite <- (app_assoc h). tauto.
Qed.

(** The loop goes through rounds that each ask for more, whatever fuel
    is left after them. *)
Lemma listPages_runs (front : list Round) :
  forall fuel input s h,
    Forall (fun r => continues r = true) front ->
    played conn op fn front input s h ->
    listPages conn op fn (length front + fuel) input s h
    = listPages conn op fn fuel (inputAfter front input) (stateAfter fn front s)
        (h ++ flat_map (roundEvents op) front).
Proof.
  induction front as [|r front IH]; intros fuel input s h Hall Hplayed.
  - simpl. now rewrite app_nil_r.
  - apply Forall_cons in Hall as [Hr Hall].
    destruct Hplayed as (Hin & Hc & Hf & Hrest).
    cbn [length Nat.add listPages inputAfter stateAfter flat_map]. rewrite Hc.
    unfold continues in Hr. apply andb_true_iff in Hr as [Hcont Hlast].
    apply negb_true_iff in Hlast.
    destruct (fn (rPage r) (isLastPage (rPage r)) s) as [cont s1] eqn:Hfn.
    cbn [fst snd] in *. rewrite Hf, Hcont, Hlast. cbn [negb orb].
    rewrite (IH fuel _ s1 _ Hall).
    + f_equal. rewrite <- Hlast at 1. rewrite roundEvents_app, <- app_assoc.
      do 2 f_equal. destruct r as [ri rp rc]. cbn in *. now subst.
    + rewrite <- Hlast at 1. rewrite roundEvents_app.
      destruct r as [ri rp rc]. cbn in *. subst. exact Hrest.
Qed.

(** What a run that returned has been through. *)
Lemma listPages_rounds fuel : forall input s h err input' s' h',
  listPages conn op fn fuel input s h = Some (err, input', s', h') ->
  exists front : list Round,
    length front < fuel
    /\ Forall (fun r => continues r = true) front
    /\ input' = inputAfter front input
    /\ match err with
       | Some e =>
           played conn op fn front input s h
           /\ s' = stateAfter fn front s
           /\ h' = h ++ flat_map (roundEvents op) front ++ failedCall op input' (Some e)
           /\ exists a, e = awserr a
                /\ conn (h ++ flat_map (roundEvents op) front) op input' = inr a
       | None =>
           exists r, continues r = false
             /\ played conn op fn (front ++ [r]) input s h
             /\ s' = stateAfter fn (front ++ [r]) s
             /\ h' = h ++ flat_map (roundEvents op) (front ++ [r])
       end.
Proof.
  induction fuel as [|fuel IH]; intros input s h err input' s' h'; simpl;
    [discriminate|].
  destruct (conn h op input) as [output|e] eqn:Hc.
  - destruct (fn output (isLastPage output) s) as [cont s1] eqn:Hf.
    set (r0 := {| rInput := input; rPage := output; rCont := cont |}).
    rewrite roundEvents_app. fold r0.
    destruct (negb cont || isLastPage output) eqn:Hstop.
    + intros [= <- <- <- <-]. exists []. split; [simpl; lia|].
      split; [constructor|]. split; [reflexivity|].
      exists r0. split; [|split; [|split]].
      * unfold continues; simpl.
        destruct cont, (isLastPage output); simpl in *; congruence.
      * simpl. rewrite Hf. auto.
      * simpl. now rewrite Hf.
      * simpl. rewrite ?app_nil_r. reflexivity.
    + intros Hrun. apply IH in Hrun as (front & Hlen & Hfront & Hin & Hev).
      exists (r0 :: front). split; [simpl; lia|]. split.
      * constructor; [|exact Hfront]. unfold continues; simpl.
        destruct cont, (isLastPage output); simpl in *; congruence.
      * split; [exact Hin|]. destruct err as [e|].
        -- destruct Hev as (Hplayed & -> & -> & a & -> & Ha).
           split; [|split; [|split]].
           ++ simpl. rewrite Hf. auto.
           ++ simpl. now rewrite Hf.
           ++ cbn [flat_map]. now rewrite <- !app_assoc.
           ++ exists a. split; [reflexivity|].
              cbn [flat_map]. now rewrite app_assoc.
        -- destruct Hev as (r & Hr & Hplayed & -> & ->). exists r.
           split; [exact Hr|]. split; [|split].
           ++ simpl. rewrite Hf. auto.
           ++ simpl. now rewrite Hf.
           ++ cbn [flat_map app]. now rewrite <- !app_assoc.
  - intros [= <- <- <- <-]. exists []. split; [simpl; lia|]. split; [constructor|].
    split; [reflexivity|]. simpl. rewrite app_nil_r. eauto 6.
Qed.

(** The loop has no page limit of its own: with a service that always
    announces a next page and a callback that always asks for it, no
    amount of fuel makes a generated function return. *)
Lemma listPages_may_run_on (fuel : nat) (input : ListInput) (s : S) (h : list Event) :
  (forall h' input', exists output,
     conn h' op input' = inl output /\ isLastPage output = false) ->
  (forall output lastPage s0, fst (fn output lastPage s0) = true) ->
  listPages conn op fn fuel input s h = None.
Proof.
  intros Hconn Hfn. revert input s h.
  induction fuel as [|fuel IH]; intros input s h; simpl; [reflexivity|].
  destruct (Hconn h input) as (output & -> & Hlast).
  specialize (Hfn output (isLastPage output) s).
  destruct (fn output (isLastPage output) s) as [cont s1]. simpl in Hfn. subst cont.
  rewrite Hlast. simpl. apply IH.
Qed.
End Run.

(** C10.  Every generated [list<Op>Pages] function returns a given
    result, with enough iterations allowed, exactly when there are rounds,
    each the answer of the service to the request of the round followed by
    one invocation of the callback on that page, such that: the callback's
    [lastPage] argument is true exactly when the page's [NextMarker] is
    empty; after every round but the final one the callback answered true
    and the page was not the last, and the input got that page's marker;
    the final round, if the error is nil, is one after which the callback
    answered false or the page was the last, and it ends the run with the
    callback as final event; and if the error is not nil, it is the
    error of the call that follows the rounds, which is the final event,
    with no callback after it.  So the function does return at the first
    round that asks to stop and at the first failing call, and the events,
    the input and the callback state it leaves are those of the rounds. *)
Theorem listPages_callback_once_per_page {S : Type}
  (conn : Conn) (op : ListOp) (fn : PageFn S) (fuel : nat)
  (input : ListInput) (s : S) (h : list Event)
  (err : option error) (input' : ListInput) (s' : S) (h' : list Event) :
  listPages conn op fn fuel input s h = Some (err, input', s', h')
  <->
  exists (front : list Round) (final : list Round),
    length front < fuel
    /\ played conn op fn (front ++ final) input s h
    /\ h' = h ++ flat_map (roundEvents op) (front ++ final) ++ failedCall op input' err
    /\ input' = inputAfter front input
    /\ s' = stateAfter fn (front ++ final) s
    /\ Forall (fun r => rCont r = true /\ isLastPage (rPage r) = false) front
    /\ Forall (fun r => rCont r = false \/ isLastPage (rPage r) = true) final
    /\ Forall (fun r => isLastPage (rPage r) = true
                        <-> StringValue (NextMarker (rPage r)) = "") (front ++ final)
    /\ match err with
       | None => length final = 1
       | Some e =>
           final = []
           /\ exists a, e = awserr a
                /\ conn (h ++ flat_map (roundEvents op) front) op input' = inr a
       end.
Proof.
  assert (Hmark : forall l : list Round,
    Forall (fun r => isLastPage (rPage r) = true
                     <-> StringValue (NextMarker (rPage r)) = "") l).
  { intros l. apply Forall_forall. intros r _. apply isLastPage_spec. }
  split.
  - intros Hrun.
    apply listPages_rounds in Hrun as (front & Hlen & Hfront & Hin & Hev).
    assert (Hfront' :
      Forall (fun r => rCont r = true /\ isLastPage (rPage r) = false) front).
    { eapply List.Forall_impl; [|exact Hfront]. intros r Hr. unfold continues in Hr.
      apply andb_true_iff in Hr as [? Hn]. apply negb_true_iff in Hn. auto. }
    destruct err as [e|].
    + destruct Hev as (Hplayed & Hs & Hev & Ha). exists front, [].
      rewrite app_nil_r. repeat split; auto.
    + destruct Hev as (r & Hr & Hplayed & Hs & Hev). exists front, [r].
      rewrite Hev. simpl. rewrite app_nil_r. repeat split; auto.
      constructor; [|constructor]. now apply continues_false.
  - intros (front & final & Hlen & Hplayed & Hh & Hin & Hs & Hfront & Hfinal & _ & Herr).
    assert (Hcont : Forall (fun r => continues r = true) front).
    { eapply List.Forall_impl; [|exact Hfront]. intros r [Hc Hl].
      unfold continues. now rewrite Hc, Hl. }
    apply played_app in Hplayed as [Hp1 Hp2].
    destruct fuel as [|fuel]; [lia|].
    replace (Datatypes.S fuel) with (length front + Datatypes.S (fuel - length front))
      by lia.
    rewrite (listPages_runs conn op fn front _ input s h Hcont Hp1).
    rewrite <- Hin in *. cbn [listPages].
    destruct err as [e|].
    + destruct Herr as (-> & a & -> & Ha). rewrite Ha.
      rewrite app_nil_r in Hh, Hs. subst s' h'. cbn [failedCall].
      now rewrite <- app_assoc.
    + destruct final as [|r [|r' final]]; try discriminate Herr.
      destruct Hp2 as (Hri & Hc & Hf & _). rewrite Hc.
      apply Forall_cons in Hfinal as [Hstop _].
      destruct (fn (rPage r) (isLastPage (rPage r)) (stateAfter fn front s))
        as [cont s1] eqn:Hfn.
      cbn [fst] in Hf. subst cont.
      assert (negb (rCont r) || isLastPage (rPage r) = true) as ->.
      { destruct Hstop as [-> | ->]; [reflexivity | apply orb_true_r]. }
      rewrite stateAfter_app in Hs. cbn [stateAfter] in Hs. rewrite Hfn in Hs.
      cbn [snd] in Hs. subst s' h'. rewrite roundEvents_app.
      cbn [failedCall]. rewrite flat_map_app. cbn [flat_map].
      rewrite !app_nil_r, <- app_assoc.
      do 3 f_equal. destruct r as [ri rp rc]. cbn in *. now subst.
Qed.

(** The theorem at work: a callback that stops after the first of two
    pages, a call that fails, and two pages collected. *)
Lemma listPages_callback_once_per_page_witness :
  let input := {| Limit := None; InNextMarker := None |} in
  let page1 := {| Items := [ {| ItemId := "a1"; ItemName := "first" |} ];
                  NextMarker := Some "m1" |} in
  listWebACLsPages (scripted somePages) firstPageOnly 1 input [] []
    = Some (None, input, [ {| ItemId := "a1"; ItemName := "first" |} ],
            [ EvCall ListWebACLs input (inl page1); EvFn page1 false false ])
  /\ listRulesPages (scripted [inr throttled]) collect 1 input [] []
     = Some (Some (awserr throttled), input, [],
             [ EvCall ListRules input (inr throttled) ])
  /\ exists (front final : list Round),
       length front < 5
       /\ played (scripted somePages) ListWebACLs collect (front ++ final) input [] []
       /\ length final = 1.
Proof.
  cbv zeta. split; [|split].
  - apply (proj2 (listPages_callback_once_per_page (scripted somePages) ListWebACLs
                    firstPageOnly 1 {| Limit := None; InNextMarker := None |} [] []
                    None _ _ _)).
    exists [], [ {| rInput := {| Limit := None; InNextMarker := None |};
                    rPage := {| Items := [ {| ItemId := "a1"; ItemName := "first" |} ];
                                NextMarker := Some "m1" |};
                    rCont := false |} ].
    split; [simpl; lia|]. split; [simpl; auto|]. split; [reflexivity|].
    split; [reflexivity|]. split; [reflexivity|]. split; [constructor|].
    split; [repeat constructor; auto|]. split; [|reflexivity].
    repeat constructor; discriminate.
  - apply (proj2 (listPages_callback_once_per_page (scripted [inr throttled]) ListRules
                    collect 1 {| Limit := None; InNextMarker := None |} [] []
                    (Some (awserr throttled)) _ _ _)).
    exists [], []. split; [simpl; lia|]. split; [exact I|]. split; [reflexivity|].
    split; [reflexivity|]. split; [reflexivity|]. split; [constructor|].
    split; [constructor|]. split; [constructor|]. split; [reflexivity|].
    exists throttled. split; reflexivity.
  - destruct (proj1 (listPages_callback_once_per_page (scripted somePages) ListWebACLs
                       collect 5 {| Limit := None; InNextMarker := None |} [] [] None
                       {| Limit := None; InNextMarker := Some "m1" |}
                       [ {| ItemId := "a1"; ItemName := "first" |};
                         {| ItemId := "a2"; ItemName := "second" |} ]
                       _) eq_refl)
      as (front & final & Hlen & Hplayed & _ & _ & _ & _ & _ & _ & Hone).
    exists front, final. auto.
Defined.

End WAFFacts.

(* ================================================================== *)
(** * Properties of the virtual node reconciler                       *)
(* ================================================================== *)

Module AppMeshFacts.
Import SDK AppMesh.

Section WithHelpers.
Context `{H : Helpers}.

Lemma ErrCodeEquals_awserr (e : AwsError) (code : string) :
  ErrCodeEquals (Some (awserr e)) code = String.eqb (Code e) code.
Proof. reflexivity. Qed.

Lemma TimedOut_describeResult (r : option VirtualNodeData + AwsError) :
  TimedOut (snd (describeResult r)) = false.
Proof. destruct r; reflexivity. Qed.

(** ** The polling loop *)

(** One attempt: a describe call, retryable exactly when a new resource
    is not found. *)
Lemma readAttempt_run (conn : Conn) (d : ResourceData)
  (req : DescribeVirtualNodeInput) v h :
  readAttempt conn d req v h =
    let r := DescribeVirtualNodeWithContext conn h req in
    ((fst (describeResult r),
      if IsNewResource d && isNotFoundReply r
      then option_map RetryableError (snd (describeResult r))
      else option_map NonRetryableError (snd (describeResult r))),
     h ++ [EvDescribeVirtualNode req r]).
Proof.
  unfold readAttempt, bind, describeVirtualNode. simpl.
  destruct (DescribeVirtualNodeWithContext conn h req) as [vn|e]; simpl.
  - rewrite andb_false_r. reflexivity.
  - destruct (IsNewResource d && _); reflexivity.
Qed.

Lemma RetryContext_step {Ev V} (n : nat) (f : V -> M Ev (V * option RetryError))
  (v : V) (resultErr : option error) (h : list Ev) :
  RetryContext (S n) f v resultErr h =
    match f v h with
    | ((v', None), h1) => ((v', None), h1)
    | ((v', Some (NonRetryableError e)), h1) => ((v', Some e), h1)
    | ((v', Some (RetryableError e)), h1) => RetryContext n f v' (Some e) h1
    end.
Proof.
  simpl. unfold bind. destruct (f v h) as [[v' [[e|e]|]] h1]; reflexivity.
Qed.

(** With at least one attempt in the window, the loop ends on the answer
    [r] of its final describe call; the calls before it were all answered
    by not-found, which happens for a new resource only; and a new
    resource that is still not found at the end has used the whole
    window. *)
Lemma RetryContext_readAttempt (conn : Conn) (d : ResourceData)
  (req : DescribeVirtualNodeInput) (n : nat) :
  forall v resultErr h,
  exists (front : list AwsError) (r : option VirtualNodeData + AwsError),
    RetryContext (S n) (readAttempt conn d req) v resultErr h
      = (describeResult r, h ++ pollEvents req front ++ [EvDescribeVirtualNode req r])
    /\ r = DescribeVirtualNodeWithContext conn (h ++ pollEvents req front) req
    /\ Forall (fun e => Code e = ErrCodeNotFoundException) front
    /\ length front <= n
    /\ (front <> [] -> IsNewResource d = true)
    /\ (IsNewResource d = true -> isNotFoundReply r = true -> length front = n).
Proof.
  induction n as [|n IH]; intros v resultErr h;
    rewrite RetryContext_step, readAttempt_run;
    remember (DescribeVirtualNodeWithContext conn h req) as r eqn:Hconn; cbv zeta;
    destruct (IsNewResource d && isNotFoundReply r) eqn:Hretry.
  - exists [], r. rewrite app_nil_r. simpl.
    apply andb_true_iff in Hretry as [Hnew Hnf].
    destruct r as [vn|e]; [discriminate|]. simpl.
    repeat split; auto; try congruence; try constructor.
  - exists [], r. rewrite app_nil_r. simpl.
    repeat split; auto; try congruence; try constructor.
    all: try (destruct r as [vn|e]; reflexivity).
    all: try (intros Hn Hnf; rewrite Hn, Hnf in Hretry; discriminate).
  - apply andb_true_iff in Hretry as [Hnew Hnf].
    destruct r as [vn|e]; [discriminate|]. simpl in Hnf.
    cbn [describeResult fst snd option_map].
    destruct (IH None (Some (awserr e)) (h ++ [EvDescribeVirtualNode req (inr e)]))
      as (front & r' & Hrun & Hr' & Hall & Hlen & Hne & Hfull).
    exists (e :: front), r'. repeat split.
    + rewrite Hrun. f_equal. simpl. now rewrite <- !app_assoc.
    + rewrite Hr'. f_equal. simpl. now rewrite <- !app_assoc.
    + constructor; [apply String.eqb_eq; exact Hnf | exact Hall].
    + simpl. lia.
    + auto.
    + intros Hn Hnf'. simpl. f_equal. auto.
  - exists [], r. rewrite app_nil_r. simpl.
    repeat split; auto; try congruence; try lia; try constructor.
    all: try (destruct r as [vn|e]; reflexivity).
    all: try (intros Hn Hnf; rewrite Hn, Hnf in Hretry; discriminate).
Qed.

(** The whole first part of Read, for any window. *)
Lemma describeWithRetry_shape (conn : Conn) (attempts : nat) (d : ResourceData)
  (req : DescribeVirtualNodeInput) (h : list Event) :
  exists (front : list AwsError) (r : option VirtualNodeData + AwsError),
    describeWithRetry conn attempts d req h
      = (describeResult r, h ++ pollEvents req front ++ [EvDescribeVirtualNode req r])
    /\ r = DescribeVirtualNodeWithContext conn (h ++ pollEvents req front) req
    /\ Forall (fun e => Code e = ErrCodeNotFoundException) front
    /\ S (length front) <= Nat.max attempts 1
    /\ (front <> [] -> IsNewResource d = true)
    /\ (IsNewResource d = true -> isNotFoundReply r = true ->
        S (length front) = Nat.max attempts 1).
Proof.
  destruct attempts as [|n].
  - exists [], (DescribeVirtualNodeWithContext conn h req).
    rewrite app_nil_r. repeat split; auto; try congruence; constructor.
  - destruct (RetryContext_readAttempt conn d req n None None h)
      as (front & r & Hrun & Hr & Hall & Hlen & Hne & Hfull).
    exists front, r. unfold describeWithRetry, bind. rewrite Hrun.
    pose proof (TimedOut_describeResult r) as Ht.
    destruct (describeResult r) as [resp err]. simpl in Ht. rewrite Ht.
    repeat split; auto; try lia.
    intros Hn Hnf. rewrite (Hfull Hn Hnf). lia.
Qed.

(** For a resource that is not new there is no polling: one call. *)
Lemma describeWithRetry_existing (conn : Conn) (attempts : nat) (d : ResourceData)
  (req : DescribeVirtualNodeInput) (h : list Event) :
  IsNewResource d = false ->
  describeWithRetry conn attempts d req h = describeVirtualNode conn req h.
Proof.
  intros Hold.
  destruct (describeWithRetry_shape conn attempts d req h)
    as (front & r & Hrun & Hr & _ & _ & Hne & _).
  destruct front as [|e front].
  - rewrite Hrun, Hr. simpl. rewrite app_nil_r. reflexivity.
  - assert (IsNewResource d = true) by (apply Hne; discriminate). congruence.
Qed.

(** ** The second part of Read, by the answer it works on *)

Lemma finishRead_absent (meta : AWSClient) (d : ResourceData)
  (r : option VirtualNodeData + AwsError) (h : list Event) :
  IsNewResource d = false ->
  isNotFoundReply r || isDeletedReply r = true ->
  finishRead meta d (fst (describeResult r)) (snd (describeResult r)) h
    = (([], SetId "" d), h).
Proof.
  intros Hold Hr. unfold finishRead. rewrite Hold. simpl negb.
  destruct r as [[vn|]|e]; simpl in *; try discriminate.
  - rewrite Hr. reflexivity.
  - rewrite orb_false_r in Hr. rewrite Hr. reflexivity.
Qed.

Lemma finishRead_new_deleted (meta : AWSClient) (d : ResourceData)
  (vn : VirtualNodeData) (h : list Event) :
  IsNewResource d = true ->
  isDeletedReply (inl (Some vn)) = true ->
  finishRead meta d (Some vn) None h
    = ((AppendErrorf [] ("reading App Mesh Virtual Node: "
          +:+ StringValue (Status (VnStatus vn)) +:+ " after creation"), d), h).
Proof.
  intros Hnew Hdel. unfold finishRead. rewrite Hnew. simpl in *.
  rewrite Hdel. reflexivity.
Qed.

Lemma finishRead_error (meta : AWSClient) (d : ResourceData) (e : AwsError)
  (h : list Event) :
  IsNewResource d && isNotFoundReply (inr e) = true
  \/ isNotFoundReply (inr e) = false ->
  finishRead meta d None (Some (awserr e)) h
    = ((AppendErrorf [] ("reading App Mesh Virtual Node: " +:+ Error (awserr e)), d), h).
Proof.
  intros Hc. unfold finishRead. rewrite ErrCodeEquals_awserr. simpl in Hc.
  destruct Hc as [Hc | Hc].
  - apply andb_true_iff in Hc as [-> Hc]. reflexivity.
  - rewrite Hc, andb_false_r. reflexivity.
Qed.

(** The second part issues at most one call, which lists the tags. *)
Lemma finishRead_events (meta : AWSClient) (d : ResourceData)
  (resp : option VirtualNodeData) (err : option error) (h : list Event) :
  exists new,
    snd (finishRead meta d resp err h) = h ++ new
    /\ length new <= 1
    /\ Forall (fun e => mutating e = false /\ isDescribe e = false) new.
Proof.
  unfold finishRead.
  destruct (negb (IsNewResource d) && ErrCodeEquals err ErrCodeNotFoundException).
  { exists []. rewrite app_nil_r. simpl. auto. }
  destruct err as [e|].
  { exists []. rewrite app_nil_r. simpl. auto. }
  destruct resp as [vn|].
  2: { exists []. rewrite app_nil_r. simpl. auto. }
  destruct (String.eqb _ VirtualNodeStatusCodeDeleted).
  { destruct (IsNewResource d); exists []; rewrite app_nil_r; simpl; auto. }
  unfold bind, ListTags.
  destruct (ListTagsOf (AppMeshConn meta) h (StringValue (Arn (Metadata vn))))
    as [t|e]; eexists; (split; [reflexivity|]); simpl; auto.
Qed.

(** ** Read as a whole *)

(** Read adds to the history a bounded number of describe calls and at
    most one listing of tags, and nothing that changes the remote system. *)
Lemma resourceVirtualNodeRead_events (meta : AWSClient) (attempts : nat)
  (d : ResourceData) (h : list Event) :
  exists new,
    snd (resourceVirtualNodeRead meta attempts d h) = h ++ new
    /\ length (List.filter isDescribe new) <= Nat.max attempts 1
    /\ length new <= S (Nat.max attempts 1)
    /\ Forall (fun e => mutating e = false) new.
Proof.
  unfold resourceVirtualNodeRead, bind.
  destruct (describeWithRetry_shape (AppMeshConn meta) attempts d (describeRequest d) h)
    as (front & r & Hrun & _ & _ & Hlen & _ & _).
  rewrite Hrun. destruct (describeResult r) as [resp err].
  destruct (finishRead_events meta d resp err
              (h ++ pollEvents (describeRequest d) front
                 ++ [EvDescribeVirtualNode (describeRequest d) r]))
    as (new & Hnew & Hlen' & Hall).
  exists (pollEvents (describeRequest d) front
            ++ [EvDescribeVirtualNode (describeRequest d) r] ++ new).
  rewrite Hnew. repeat split.
  - now rewrite <- !app_assoc.
  - rewrite !List.filter_app, !length_app.
    assert (length (List.filter isDescribe new) = 0) as ->.
    { clear -Hall. induction Hall as [|e l [_ He] _ IH]; simpl; [reflexivity|].
      rewrite He. exact IH. }
    assert (length (List.filter isDescribe (pollEvents (describeRequest d) front))
            <= length front).
    { etransitivity; [apply List.filter_length_le|].
      unfold pollEvents. now rewrite length_map. }
    simpl. lia.
  - rewrite !length_app. unfold pollEvents. rewrite length_map. simpl. lia.
  - apply Forall_app. split.
    + unfold pollEvents. apply Forall_forall. intros e He.
      apply list_elem_of_In, in_map_iff in He as (a & <- & _). reflexivity.
    + constructor; [reflexivity|].
      eapply List.Forall_impl; [|exact Hall]. intros e He. apply He.
Qed.

(** Read is its second part, run on the answer that ended the polling. *)
Lemma resourceVirtualNodeRead_shape (meta : AWSClient) (attempts : nat)
  (d : ResourceData) (h : list Event) :
  let conn := AppMeshConn meta in
  let req := describeRequest d in
  exists (front : list AwsError) (r : option VirtualNodeData + AwsError),
    resourceVirtualNodeRead meta attempts d h
      = finishRead meta d (fst (describeResult r)) (snd (describeResult r))
          (h ++ pollEvents req front ++ [EvDescribeVirtualNode req r])
    /\ r = DescribeVirtualNodeWithContext conn (h ++ pollEvents req front) req
    /\ Forall (fun e => Code e = ErrCodeNotFoundException) front
    /\ S (length front) <= Nat.max attempts 1
    /\ (front <> [] -> IsNewResource d = true)
    /\ (IsNewResource d = true -> isNotFoundReply r = true ->
        S (length front) = Nat.max attempts 1).
Proof.
  cbv zeta.
  destruct (describeWithRetry_shape (AppMeshConn meta) attempts d (describeRequest d) h)
    as (front & r & Hrun & Hrest).
  exists front, r. split; [|exact Hrest].
  unfold resourceVirtualNodeRead, bind. rewrite Hrun.
  destruct (describeResult r) as [resp err]. reflexivity.
Qed.

(** Read of a resource that is not new, on an answer that shows it gone. *)
Lemma resourceVirtualNodeRead_absent (meta : AWSClient) (attempts : nat)
  (d : ResourceData) (h : list Event) :
  let r := DescribeVirtualNodeWithContext (AppMeshConn meta) h (describeRequest d) in
  IsNewResource d = false ->
  isNotFoundReply r || isDeletedReply r = true ->
  resourceVirtualNodeRead meta attempts d h
    = (([], SetId "" d), h ++ [EvDescribeVirtualNode (describeRequest d) r]).
Proof.
  intros r Hold Hr. unfold resourceVirtualNodeRead, bind.
  rewrite (describeWithRetry_existing _ _ _ _ _ Hold).
  unfold describeVirtualNode. fold r.
  rewrite <- (finishRead_absent meta d r _ Hold Hr).
  destruct (describeResult r) as [resp err]. reflexivity.
Qed.

(** Read of a new resource that stays not found: the whole window is
    used, then Read fails and leaves the data as they were. *)
Lemma resourceVirtualNodeRead_new_not_found (meta : AWSClient) (attempts : nat)
  (d : ResourceData) (h : list Event) :
  IsNewResource d = true ->
  (forall h', isNotFoundReply
     (DescribeVirtualNodeWithContext (AppMeshConn meta) h' (describeRequest d)) = true) ->
  exists polls,
    snd (resourceVirtualNodeRead meta attempts d h)
      = h ++ pollEvents (describeRequest d) polls
    /\ length polls = Nat.max attempts 1
    /\ Forall (fun e => Code e = ErrCodeNotFoundException) polls
    /\ HasError (fst (fst (resourceVirtualNodeRead meta attempts d h))) = true
    /\ snd (fst (resourceVirtualNodeRead meta attempts d h)) = d.
Proof.
  intros Hnew Hnf.
  destruct (resourceVirtualNodeRead_shape meta attempts d h)
    as (front & r & Hrun & Hr & Hall & _ & _ & Hfull).
  specialize (Hnf (h ++ pollEvents (describeRequest d) front)).
  rewrite <- Hr in Hnf. specialize (Hfull Hnew Hnf).
  destruct r as [vn|e]; [discriminate|].
  rewrite Hrun. simpl describeResult. cbn [fst snd].
  rewrite finishRead_error by (left; rewrite Hnew; exact Hnf).
  exists (front ++ [e]). cbn [fst snd]. repeat split.
  - unfold pollEvents. now rewrite map_app.
  - rewrite length_app. simpl. lia.
  - apply Forall_app. split; [exact Hall|].
    constructor; [now apply String.eqb_eq | constructor].
Qed.

(** Read of a new resource: an answer that shows the object deleted can
    only be the final event, and Read then fails without touching the data. *)
Lemma resourceVirtualNodeRead_new_deleted (meta : AWSClient) (attempts : nat)
  (d : ResourceData) (h new : list Event) (vn : VirtualNodeData) :
  IsNewResource d = true ->
  snd (resourceVirtualNodeRead meta attempts d h) = h ++ new ->
  In (EvDescribeVirtualNode (describeRequest d) (inl (Some vn))) new ->
  isDeletedReply (inl (Some vn)) = true ->
  fst (resourceVirtualNodeRead meta attempts d h)
    = (AppendErrorf [] ("reading App Mesh Virtual Node: "
         +:+ StringValue (Status (VnStatus vn)) +:+ " after creation"), d)
  /\ exists polls,
       new = pollEvents (describeRequest d) polls
               ++ [EvDescribeVirtualNode (describeRequest d) (inl (Some vn))]
       /\ Forall (fun e => Code e = ErrCodeNotFoundException) polls.
Proof.
  intros Hnew Hh Hin Hdel.
  destruct (resourceVirtualNodeRead_shape meta attempts d h)
    as (front & r & Hrun & _ & Hall & _ & _ & _).
  set (req := describeRequest d) in *.
  destruct (finishRead_events meta d (fst (describeResult r)) (snd (describeResult r))
              (h ++ pollEvents req front ++ [EvDescribeVirtualNode req r]))
    as (fin & Hfin & _ & Hfinall).
  rewrite Hrun in Hh. rewrite Hfin in Hh.
  rewrite <- !app_assoc in Hh. apply app_inv_head in Hh. subst new.
  assert (Hr : r = inl (Some vn)).
  { apply in_app_or in Hin as [Hin | Hin].
    - unfold pollEvents in Hin. apply in_map_iff in Hin as (e & He & _). discriminate.
    - apply in_app_or in Hin as [[Hin | []] | Hin]; [congruence|].
      rewrite Forall_forall in Hfinall.
      apply list_elem_of_In, Hfinall in Hin as [_ Hin]. discriminate. }
  subst r. rewrite Hrun. simpl describeResult in *. cbn [fst snd] in *.
  rewrite (finishRead_new_deleted meta d vn _ Hnew Hdel) in *.
  cbn [fst snd] in *. split; [reflexivity|].
  exists front. split; [|exact Hall].
  assert (fin = []) as ->.
  { apply (f_equal (@length Event)) in Hfin. rewrite (length_app _ fin) in Hfin.
    destruct fin; [reflexivity | simpl in Hfin; lia]. }
  now rewrite app_nil_r.
Qed.

(** ** Create *)

Lemma resourceVirtualNodeCreate_events (meta : AWSClient) (attempts : nat)
  (d : ResourceData) (h : list Event) :
  exists new,
    snd (resourceVirtualNodeCreate meta attempts d h) = h ++ new
    /\ length new <= S (S (Nat.max attempts 1)).
Proof.
  unfold resourceVirtualNodeCreate. cbv zeta. unfold bind at 1.
  unfold createVirtualNode. cbv zeta.
  destruct (CreateVirtualNodeWithContext _ _ _) as [vn|e].
  - set (d1 := SetId _ d). set (h1 := h ++ _).
    destruct (resourceVirtualNodeRead_events meta attempts d1 h1)
      as (new & Hnew & _ & Hlen & _).
    eexists (_ :: new). split; [|simpl; lia].
    etransitivity;
      [apply (SDKFacts.snd_bind_pair _ (fun rdiags d0 => ([] ++ rdiags, d0)))|].
    rewrite Hnew. unfold h1. now rewrite <- app_assoc.
  - eexists [_]. split; [reflexivity | simpl; lia].
Qed.

(** ** Delete *)

Lemma resourceVirtualNodeDelete_run (meta : AWSClient) (d : ResourceData)
  (h : list Event) :
  let r := DeleteVirtualNodeWithContext (AppMeshConn meta) h (deleteRequest d) in
  resourceVirtualNodeDelete meta d h =
    (match r with
     | inl _ => []
     | inr e =>
         if String.eqb (Code e) ErrCodeNotFoundException then []
         else AppendErrorf [] ("deleting App Mesh virtual node (" +:+ Id d
                +:+ "): " +:+ Error (awserr e))
     end,
     h ++ [EvDeleteVirtualNode (deleteRequest d) r]).
Proof.
  unfold resourceVirtualNodeDelete, bind, deleteVirtualNode. cbv zeta.
  destruct (DeleteVirtualNodeWithContext (AppMeshConn meta) h (deleteRequest d))
    as [vn|e]; [reflexivity|].
  rewrite ErrCodeEquals_awserr.
  destruct (String.eqb (Code e) ErrCodeNotFoundException); reflexivity.
Qed.

Lemma resourceVirtualNodeDelete_twice (meta : AWSClient) (d : ResourceData)
  (h : list Event) :
  forgetsDeleted (AppMeshConn meta) ->
  fst (resourceVirtualNodeDelete meta d h) = [] ->
  fst (resourceVirtualNodeDelete meta d (snd (resourceVirtualNodeDelete meta d h))) = [].
Proof.
  intros Hsvc Hfirst. rewrite !resourceVirtualNodeDelete_run in *. cbv zeta in *.
  simpl fst in *. simpl snd.
  set (r := DeleteVirtualNodeWithContext (AppMeshConn meta) h (deleteRequest d)) in *.
  specialize (Hsvc h (deleteRequest d) r).
  destruct (DeleteVirtualNodeWithContext (AppMeshConn meta)
              (h ++ [EvDeleteVirtualNode (deleteRequest d) r]) (deleteRequest d))
    as [vn|e]; [reflexivity|].
  assert (Hr : match r with
               | inl _ => True
               | inr e0 => Code e0 = ErrCodeNotFoundException
               end).
  { destruct r as [vn|e0]; [exact I|].
    destruct (String.eqb (Code e0) ErrCodeNotFoundException) eqn:E.
    - now apply String.eqb_eq.
    - discriminate. }
  rewrite (Hsvc Hr). reflexivity.
Qed.

(** ** Update *)

Lemma resourceVirtualNodeUpdate_events (meta : AWSClient) (attempts : nat)
  (d : ResourceData) (h : list Event) :
  exists reads,
    snd (resourceVirtualNodeUpdate meta attempts d h)
      = h ++ updateCalls meta d h ++ reads
    /\ Forall (fun e => mutating e = false) reads
    /\ length reads <= S (Nat.max attempts 1).
Proof.
  assert (Hread : forall h0 pre, h0 = h ++ pre ->
    exists reads,
      snd (let (a, h') := resourceVirtualNodeRead meta attempts d h0 in
           (let '(rdiags, d0) := a in ret ([] ++ rdiags, d0)) h')
        = h ++ pre ++ reads
      /\ Forall (fun e => mutating e = false) reads
      /\ length reads <= S (Nat.max attempts 1)).
  { intros h0 pre ->.
    destruct (resourceVirtualNodeRead_events meta attempts d (h ++ pre))
      as (new & Hnew & _ & Hlen & Hall).
    exists new. destruct (resourceVirtualNodeRead meta attempts d _) as [[rd d'] h'].
    simpl in *. rewrite Hnew, <- !app_assoc. auto. }
  assert (Hstop : forall pre,
    exists reads : list Event,
      h ++ pre = h ++ pre ++ reads
      /\ Forall (fun e => mutating e = false) reads
      /\ length reads <= S (Nat.max attempts 1)).
  { intros pre. exists []. rewrite app_nil_r. repeat split; [constructor | simpl; lia]. }
  unfold resourceVirtualNodeUpdate, updateCalls, bind. cbv zeta.
  set (specReq := {| UpMeshName := _ |}).
  destruct (HasChange spec d) eqn:Hs.
  - unfold updateVirtualNode. cbv zeta. unfold ret at 1.
    destruct (UpdateVirtualNodeWithContext (AppMeshConn meta) h specReq) as [vn|e].
    + simpl andb. simpl negb. cbv iota.
      destruct (HasChange tags_all d) eqn:Ht.
      * unfold UpdateTags. cbv zeta.
        destruct (UpdateTagsOf _ _ _ _ _) as [e|]; unfold asError, option_map; cbv iota.
        -- simpl snd. rewrite <- app_assoc. apply (Hstop [_; _]).
        -- apply (Hread _ [_; _]). now rewrite <- app_assoc.
      * unfold ret at 1. apply (Hread _ [_]). reflexivity.
    + simpl snd. cbn [andb negb app]. apply (Hstop [_]).
  - unfold ret at 1. simpl andb. simpl negb. cbv iota.
    destruct (HasChange tags_all d) eqn:Ht.
    * unfold UpdateTags. cbv zeta. cbn [app].
      replace (h ++ []) with h by (symmetry; apply app_nil_r).
      destruct (UpdateTagsOf _ _ _ _ _) as [e|]; unfold asError, option_map; cbv iota.
      -- simpl snd. apply (Hstop [_]).
      -- apply (Hread _ [_]). reflexivity.
    * unfold ret at 1. apply (Hread _ []). symmetry. apply app_nil_r.
Qed.

(** ** Import *)

Lemma resourceVirtualNodeImport_malformed (meta : AWSClient) (d : ResourceData)
  (h : list Event) :
  length (Split (Id d) "/") <> 2 ->
  resourceVirtualNodeImport meta d h
    = (Returned [] (Some (errorString ("wrong format of import ID (" +:+ Id d
         +:+ "), use: 'mesh-name/virtual-node-name'"))), h).
Proof.
  intros Hlen. unfold resourceVirtualNodeImport.
  apply Nat.eqb_neq in Hlen. rewrite Hlen. reflexivity.
Qed.

Lemma resourceVirtualNodeImport_two (meta : AWSClient) (d : ResourceData)
  (h : list Event) (mesh node : string) :
  Split (Id d) "/" = [mesh; node] ->
  let req := {| DeMeshName := Some mesh; DeVirtualNodeName := Some node;
                DeMeshOwner := None |} in
  let r := DescribeVirtualNodeWithContext (AppMeshConn meta) h req in
  snd (resourceVirtualNodeImport meta d h) = h ++ [EvDescribeVirtualNode req r]
  /\ fst (resourceVirtualNodeImport meta d h) =
       match r with
       | inr e => Returned [] (Some (awserr e))
       | inl None => NilDereference
       | inl (Some vn) =>
           Returned
             [withCurrent (Set_mesh_name (StringValue (VnMeshName vn)))
                (withCurrent (Set_name (StringValue (VnVirtualNodeName vn)))
                   (SetId (StringValue (Uid (Metadata vn))) d))] None
       end.
Proof.
  intros Hsplit. unfold resourceVirtualNodeImport. rewrite Hsplit. simpl.
  unfold bind, describeVirtualNode. cbv zeta.
  destruct (DescribeVirtualNodeWithContext _ _ _) as [[vn|]|e]; split; reflexivity.
Qed.

(** ** The numbers of calls *)

Lemma updateCalls_length (meta : AWSClient) (d : ResourceData) (h : list Event) :
  length (updateCalls meta d h) <= 2.
Proof.
  unfold updateCalls. cbv zeta. rewrite length_app.
  destruct (HasChange spec d); destruct (negb _ && _); simpl; lia.
Qed.

Lemma resourceVirtualNodeUpdate_bound (meta : AWSClient) (attempts : nat)
  (d : ResourceData) (h : list Event) :
  length (snd (resourceVirtualNodeUpdate meta attempts d h))
    <= length h + (3 + Nat.max attempts 1).
Proof.
  destruct (resourceVirtualNodeUpdate_events meta attempts d h)
    as (reads & -> & _ & Hlen).
  pose proof (updateCalls_length meta d h).
  rewrite !length_app. lia.
Qed.

Lemma resourceVirtualNodeCreate_bound (meta : AWSClient) (attempts : nat)
  (d : ResourceData) (h : list Event) :
  length (snd (resourceVirtualNodeCreate meta attempts d h))
    <= length h + (2 + Nat.max attempts 1).
Proof.
  destruct (resourceVirtualNodeCreate_events meta attempts d h) as (new & -> & Hlen).
  rewrite length_app. lia.
Qed.

Lemma resourceVirtualNodeRead_bound (meta : AWSClient) (attempts : nat)
  (d : ResourceData) (h : list Event) :
  length (snd (resourceVirtualNodeRead meta attempts d h))
    <= length h + (1 + Nat.max attempts 1).
Proof.
  destruct (resourceVirtualNodeRead_events meta attempts d h)
    as (new & -> & _ & Hlen & _).
  rewrite length_app. lia.
Qed.

Lemma resourceVirtualNodeImport_bound (meta : AWSClient) (d : ResourceData)
  (h : list Event) :
  length (snd (resourceVirtualNodeImport meta d h)) <= length h + 1.
Proof.
  unfold resourceVirtualNodeImport.
  destruct (negb _); [simpl; lia|].
  unfold bind, describeVirtualNode. cbv zeta.
  destruct (DescribeVirtualNodeWithContext _ _ _) as [[vn|]|e];
    simpl; rewrite length_app; simpl; lia.
Qed.

End WithHelpers.
End AppMeshFacts.

(* ================================================================== *)
(** * Properties of the access reconciler                             *)
(* ================================================================== *)

Module TransferFacts.
Import SDK Transfer.

Lemma NotFound_findResult (r : option DescribedAccess + AwsError) :
  NotFound (match findResult r with inr e => Some e | inl _ => None end)
  = isNotFoundReply r.
Proof.
  destruct r as [[a|]|e]; simpl; try reflexivity.
  destruct (String.eqb (Code e) ErrCodeResourceNotFoundException); reflexivity.
Qed.

Section WithHelpers.
Context `{H : Helpers}.

(** ** Read *)

Lemma resourceAccessRead_absent (conn : Conn) (d : ResourceData) (h : list Event)
  (serverID externalID : string) :
  AccessParseResourceID (Id d) = inl (serverID, externalID) ->
  IsNewResource d = false ->
  isNotFoundReply (DescribeAccessWithContext conn h serverID externalID) = true ->
  resourceAccessRead conn d h
    = (([], SetId "" d),
       h ++ [EvDescribeAccess serverID externalID
               (DescribeAccessWithContext conn h serverID externalID)]).
Proof.
  intros Hid Hold Hnf. unfold resourceAccessRead. rewrite Hid.
  unfold bind, FindAccessByServerIDAndExternalID.
  rewrite NotFound_findResult, Hnf, Hold. reflexivity.
Qed.

(** A new resource that is not found: one call, no second one, an error. *)
Lemma resourceAccessRead_new_not_found (conn : Conn) (d : ResourceData) (h : list Event)
  (serverID externalID : string) :
  AccessParseResourceID (Id d) = inl (serverID, externalID) ->
  IsNewResource d = true ->
  isNotFoundReply (DescribeAccessWithContext conn h serverID externalID) = true ->
  exists e,
    resourceAccessRead conn d h
      = ((AppendErrorf [] ("reading Transfer Access (" +:+ Id d +:+ "): " +:+ Error e), d),
         h ++ [EvDescribeAccess serverID externalID
                 (DescribeAccessWithContext conn h serverID externalID)]).
Proof.
  intros Hid Hnew Hnf. unfold resourceAccessRead. rewrite Hid.
  unfold bind, FindAccessByServerIDAndExternalID. rewrite Hnew. simpl negb.
  cbv beta iota zeta. rewrite andb_false_l.
  destruct (DescribeAccessWithContext conn h serverID externalID) as [[a|]|e];
    simpl in *; try discriminate.
  - exists (NotFoundError "empty result"). reflexivity.
  - rewrite Hnf. exists (NotFoundError (Error (awserr e))). reflexivity.
Qed.

(** Read makes no call when the ID does not parse, and one describe call
    otherwise. *)
Lemma resourceAccessRead_events (conn : Conn) (d : ResourceData) (h : list Event) :
  exists new,
    snd (resourceAccessRead conn d h) = h ++ new
    /\ length new <= 1
    /\ Forall (fun e => mutating e = false) new.
Proof.
  unfold resourceAccessRead.
  destruct (AccessParseResourceID (Id d)) as [[serverID externalID]|e].
  2: { exists []. rewrite app_nil_r. simpl. auto. }
  unfold bind, FindAccessByServerIDAndExternalID.
  exists [EvDescribeAccess serverID externalID
            (DescribeAccessWithContext conn h serverID externalID)].
  split; [|simpl; auto].
  destruct (negb (IsNewResource d) && _); [reflexivity|].
  destruct (findResult _) as [access|e]; [|reflexivity].
  destruct (setAccessAttributes serverID access d) as [d' [e|]]; reflexivity.
Qed.

Lemma resourceAccessRead_malformed (conn : Conn) (d : ResourceData) (h : list Event)
  (e : error) :
  AccessParseResourceID (Id d) = inr e ->
  resourceAccessRead conn d h
    = ((AppendErrorf [] ("parsing Transfer Access ID: " +:+ Error e), d), h).
Proof. intros Hid. unfold resourceAccessRead. rewrite Hid. reflexivity. Qed.

(** ** Delete *)

Lemma resourceAccessDelete_run (conn : Conn) (d : ResourceData) (h : list Event)
  (serverID externalID : string) :
  AccessParseResourceID (Id d) = inl (serverID, externalID) ->
  let r := DeleteAccessWithContext conn h serverID externalID in
  resourceAccessDelete conn d h =
    (match r with
     | None => []
     | Some e =>
         if String.eqb (Code e) ErrCodeResourceNotFoundException then []
         else AppendErrorf [] ("deleting Transfer Access (" +:+ Id d
                +:+ "): " +:+ Error (awserr e))
     end,
     h ++ [EvDeleteAccess serverID externalID r]).
Proof.
  intros Hid. unfold resourceAccessDelete, bind, deleteAccess. rewrite Hid. cbv zeta.
  destruct (DeleteAccessWithContext conn h serverID externalID) as [e|];
    [|reflexivity].
  simpl. destruct (String.eqb (Code e) ErrCodeResourceNotFoundException); reflexivity.
Qed.

Lemma resourceAccessDelete_twice (conn : Conn) (d : ResourceData) (h : list Event) :
  forgetsDeleted conn ->
  fst (resourceAccessDelete conn d h) = [] ->
  fst (resourceAccessDelete conn d (snd (resourceAccessDelete conn d h))) = [].
Proof.
  intros Hsvc Hfirst.
  destruct (AccessParseResourceID (Id d)) as [[serverID externalID]|e] eqn:Hid.
  2: { unfold resourceAccessDelete in Hfirst. rewrite Hid in Hfirst. discriminate. }
  rewrite !(resourceAccessDelete_run _ _ _ _ _ Hid) in *. cbv zeta in *.
  simpl fst in *. simpl snd.
  set (r := DeleteAccessWithContext conn h serverID externalID) in *.
  specialize (Hsvc h serverID externalID r).
  destruct (DeleteAccessWithContext conn
              (h ++ [EvDeleteAccess serverID externalID r]) serverID externalID)
    as [e|]; [|reflexivity].
  assert (Hr : match r with
               | None => True
               | Some e0 => Code e0 = ErrCodeResourceNotFoundException
               end).
  { destruct r as [e0|]; [|exact I].
    destruct (String.eqb (Code e0) ErrCodeResourceNotFoundException) eqn:E.
    - now apply String.eqb_eq.
    - discriminate. }
  rewrite (Hsvc Hr). reflexivity.
Qed.

(** ** Update *)

Lemma resourceAccessUpdate_events (conn : Conn) (d : ResourceData) (h : list Event)
  (serverID externalID : string) (input : UpdateAccessInput) :
  AccessParseResourceID (Id d) = inl (serverID, externalID) ->
  updateAccessInput serverID externalID d = inl input ->
  exists reads,
    snd (resourceAccessUpdate conn d h)
      = h ++ [EvUpdateAccess input (UpdateAccessWithContext conn h input)] ++ reads
    /\ Forall (fun e => mutating e = false) reads
    /\ length reads <= 1.
Proof.
  intros Hid Hin. unfold resourceAccessUpdate. rewrite Hid, Hin.
  unfold bind at 1. unfold updateAccess. cbv zeta.
  destruct (UpdateAccessWithContext conn h input) as [e|]; simpl option_map; cbv iota.
  - exists []. simpl. repeat split; [constructor | lia].
  - destruct (resourceAccessRead_events conn d (h ++ [EvUpdateAccess input None]))
      as (new & Hnew & Hlen & Hall).
    exists new. split; [|auto].
    etransitivity;
      [apply (SDKFacts.snd_bind_pair _ (fun rdiags d0 => ([] ++ rdiags, d0)))|].
    rewrite Hnew, <- app_assoc. reflexivity.
Qed.

(** ** The numbers of calls *)

Lemma resourceAccessCreate_events (conn : Conn) (d : ResourceData) (h : list Event) :
  exists new,
    snd (resourceAccessCreate conn d h) = h ++ new /\ length new <= 2.
Proof.
  unfold resourceAccessCreate. cbv zeta.
  destruct (createAccessInput (current d)) as [input|[v e]].
  2: { exists []. rewrite app_nil_r. simpl. auto. }
  unfold bind at 1. unfold createAccess. cbv zeta.
  destruct (CreateAccessWithContext conn h input) as [e|]; simpl option_map; cbv iota.
  - eexists [_]. split; [reflexivity | simpl; lia].
  - set (d1 := SetId _ d). set (h1 := h ++ _).
    destruct (resourceAccessRead_events conn d1 h1) as (new & Hnew & Hlen & _).
    eexists (_ :: new). split; [|simpl; lia].
    etransitivity;
      [apply (SDKFacts.snd_bind_pair _ (fun rdiags d0 => ([] ++ rdiags, d0)))|].
    rewrite Hnew. unfold h1. now rewrite <- app_assoc.
Qed.

Lemma resourceAccessUpdate_bound (conn : Conn) (d : ResourceData) (h : list Event) :
  exists new,
    snd (resourceAccessUpdate conn d h) = h ++ new /\ length new <= 2.
Proof.
  destruct (AccessParseResourceID (Id d)) as [[serverID externalID]|e] eqn:Hid.
  2: { exists []. unfold resourceAccessUpdate. rewrite Hid, app_nil_r. simpl. auto. }
  destruct (updateAccessInput serverID externalID d) as [input|[v e]] eqn:Hin.
  2: { exists []. unfold resourceAccessUpdate. rewrite Hid, Hin, app_nil_r.
       simpl. auto. }
  destruct (resourceAccessUpdate_events conn d h _ _ _ Hid Hin)
    as (reads & Hrun & _ & Hlen).
  eexists. split; [exact Hrun|]. simpl. lia.
Qed.

Lemma resourceAccessDelete_bound (conn : Conn) (d : ResourceData) (h : list Event) :
  exists new,
    snd (resourceAccessDelete conn d h) = h ++ new /\ length new <= 1.
Proof.
  destruct (AccessParseResourceID (Id d)) as [[serverID externalID]|e] eqn:Hid.
  - rewrite (resourceAccessDelete_run _ _ _ _ _ Hid). eexists [_]. simpl. auto.
  - exists []. unfold resourceAccessDelete. rewrite Hid, app_nil_r. simpl. auto.
Qed.

(** With one changed group, the request carries that group and no other. *)
Lemma updateAccessInput_one_group (serverID externalID : string) (d : ResourceData)
  (g : Group) :
  changedGroups d = [g] ->
  (g = GPolicy -> exists p, NormalizeJsonString (policy (current d)) = inl p) ->
  updateAccessInput serverID externalID d
    = inl (requestFor serverID externalID g (current d)).
Proof.
  unfold changedGroups, allGroups, updateAccessInput, requestFor. simpl List.filter.
  intros Hg Hpol.
  destruct (HasChange home_directory d), (HasChange home_directory_mappings d),
    (HasChange home_directory_type d), (HasChange policy d),
    (HasChange posix_profile d), (HasChange role d);
    simpl in Hg; try discriminate; injection Hg as <-; try reflexivity.
  destruct Hpol as [p ->]; reflexivity.
Qed.

(** Read leaves the ID of a new resource alone. *)
Lemma resourceAccessRead_new_keeps_id (conn : Conn) (d : ResourceData) (h : list Event) :
  IsNewResource d = true ->
  Id (snd (fst (resourceAccessRead conn d h))) = Id d.
Proof.
  intros Hnew. unfold resourceAccessRead.
  destruct (AccessParseResourceID (Id d)) as [[serverID externalID]|e]; [|reflexivity].
  unfold bind, FindAccessByServerIDAndExternalID. rewrite Hnew. simpl negb.
  cbv beta iota zeta. rewrite andb_false_l.
  destruct (findResult _) as [access|e]; [|reflexivity].
  unfold setAccessAttributes.
  destruct (PolicyToSet _ _); reflexivity.
Qed.

(** ** The two mappings *)






(** ** Read and the role *)

Lemma setAccessAttributes_role (serverID : string) (access : DescribedAccess)
  (d : ResourceData) :
  role (current (fst (setAccessAttributes serverID access d))) = role (current d).
Proof.
  unfold setAccessAttributes. destruct (PolicyToSet _ _); reflexivity.
Qed.

Lemma resourceAccessRead_role (conn : Conn) (d : ResourceData) (h : list Event) :
  role (current (snd (fst (resourceAccessRead conn d h)))) = role (current d).
Proof.
  unfold resourceAccessRead.
  destruct (AccessParseResourceID (Id d)) as [[serverID externalID]|e]; [|reflexivity].
  unfold bind, FindAccessByServerIDAndExternalID.
  destruct (negb (IsNewResource d) && _); [reflexivity|].
  destruct (findResult _) as [access|e]; [|reflexivity].
  pose proof (setAccessAttributes_role serverID access d) as Hrole.
  destruct (setAccessAttributes serverID access d) as [d' [e|]]; exact Hrole.
Qed.

Lemma resourceAccessRead_found (conn : Conn) (d : ResourceData) (h : list Event)
  (serverID externalID : string) (access : DescribedAccess) (policyToSet : string) :
  AccessParseResourceID (Id d) = inl (serverID, externalID) ->
  DescribeAccessWithContext conn h serverID externalID = inl (Some access) ->
  PolicyToSet (policy (current d)) (StringValue (Policy access)) = inl policyToSet ->
  fst (resourceAccessRead conn d h)
    = ([], {| Id := Id d; IsNewResource := IsNewResource d;
              prior := prior d; planned := planned d;
              current :=
                {| external_id := StringValue (ExternalId access);
                   home_directory := StringValue (HomeDirectory access);
                   home_directory_mappings :=
                     flattenHomeDirectoryMappings (HomeDirectoryMappings access);
                   home_directory_type := StringValue (HomeDirectoryType access);
                   policy := policyToSet;
                   posix_profile := flattenUserPOSIXUser (DaPosixProfile access);
                   role := role (current d);
                   server_id := serverID |} |}).
Proof.
  intros Hid Hfind Hpol. unfold resourceAccessRead. rewrite Hid.
  unfold bind, FindAccessByServerIDAndExternalID. rewrite Hfind. simpl findResult.
  cbv beta iota zeta. simpl NotFound. rewrite andb_false_r.
  unfold setAccessAttributes. simpl. rewrite Hpol. reflexivity.
Qed.

End WithHelpers.
End TransferFacts.

(* ================================================================== *)
(** * The lifecycle contract, across the resources                    *)
(* ================================================================== *)

Module Lifecycle.
Import SDK.

(** C1.  Read of a resource that was already tracked: when the describe
    call is answered by not-found, or (for the virtual node, which has a
    status) by an object whose status is "DELETED", Read clears the ID and
    returns no diagnostic, after that single call. *)
Theorem read_removes_absent_resource :
  (forall (H : AppMesh.Helpers) (meta : AppMesh.AWSClient) (attempts : nat)
          (d : AppMesh.ResourceData) (h : list AppMesh.Event),
     let r := AppMesh.DescribeVirtualNodeWithContext (AppMesh.AppMeshConn meta) h
                (AppMesh.describeRequest d) in
     AppMesh.IsNewResource d = false ->
     AppMesh.isNotFoundReply r || AppMesh.isDeletedReply r = true ->
     AppMesh.resourceVirtualNodeRead meta attempts d h
       = (([], AppMesh.SetId "" d),
          h ++ [AppMesh.EvDescribeVirtualNode (AppMesh.describeRequest d) r]))
  /\
  (forall (H : Transfer.Helpers) (conn : Transfer.Conn) (d : Transfer.ResourceData)
          (h : list Transfer.Event) (serverID externalID : string),
     let r := Transfer.DescribeAccessWithContext conn h serverID externalID in
     Transfer.AccessParseResourceID (Transfer.Id d) = inl (serverID, externalID) ->
     Transfer.IsNewResource d = false ->
     Transfer.isNotFoundReply r = true ->
     Transfer.resourceAccessRead conn d h
       = (([], Transfer.SetId "" d),
          h ++ [Transfer.EvDescribeAccess serverID externalID r])).
Proof.
  split.
  - intros H meta attempts d h r. apply AppMeshFacts.resourceVirtualNodeRead_absent.
  - intros H conn d h serverID externalID r.
    apply TransferFacts.resourceAccessRead_absent.
Qed.

Lemma read_removes_absent_resource_witness :
  AppMesh.resourceVirtualNodeRead
    (AppMesh.sampleClient (AppMesh.serviceWithout (AppMesh.sampleNode "ACTIVE")))
    3 (AppMesh.sampleData false) []
    = (([], AppMesh.SetId "" (AppMesh.sampleData false)),
       [] ++ [AppMesh.EvDescribeVirtualNode
                (AppMesh.describeRequest (AppMesh.sampleData false))
                (inr AppMesh.notFound)])
  /\ AppMesh.resourceVirtualNodeRead
       (AppMesh.sampleClient (AppMesh.serviceWith (AppMesh.sampleNode "DELETED")))
       3 (AppMesh.sampleData false) []
     = (([], AppMesh.SetId "" (AppMesh.sampleData false)),
        [] ++ [AppMesh.EvDescribeVirtualNode
                 (AppMesh.describeRequest (AppMesh.sampleData false))
                 (inl (Some (AppMesh.sampleNode "DELETED")))])
  /\ Transfer.resourceAccessRead (H := Transfer.specHelpers)
       Transfer.serviceWithout (Transfer.sampleData false) []
     = (([], Transfer.SetId "" (Transfer.sampleData false)),
        [] ++ [Transfer.EvDescribeAccess "s-0123456789abcdef0"
                 "S-1-1-12-1234567890-123456789-1234567890-1234"
                 (inr Transfer.notFound)]).
Proof.
  split; [|split].
  - apply (proj1 read_removes_absent_resource AppMesh.plainHelpers
             (AppMesh.sampleClient (AppMesh.serviceWithout (AppMesh.sampleNode "ACTIVE")))
             3 (AppMesh.sampleData false) []); reflexivity.
  - apply (proj1 read_removes_absent_resource AppMesh.plainHelpers
             (AppMesh.sampleClient (AppMesh.serviceWith (AppMesh.sampleNode "DELETED")))
             3 (AppMesh.sampleData false) []); reflexivity.
  - apply (proj2 read_removes_absent_resource Transfer.specHelpers
             Transfer.serviceWithout (Transfer.sampleData false) []
             "s-0123456789abcdef0" "S-1-1-12-1234567890-123456789-1234567890-1234");
      reflexivity.
Defined.

(** C2.  Delete, for both resources: a not-found answer of the delete
    call gives no diagnostic; any other error of the call is reported in
    one diagnostic that carries it; and with a service that answers a
    repeated delete by success or not-found, a second Delete on the same
    data after a first that succeeded gives no diagnostic either. *)
Theorem delete_is_idempotent :
  (forall (H : AppMesh.Helpers) (meta : AppMesh.AWSClient)
          (d : AppMesh.ResourceData) (h : list AppMesh.Event),
     let r := AppMesh.DeleteVirtualNodeWithContext (AppMesh.AppMeshConn meta) h
                (AppMesh.deleteRequest d) in
     (forall e, r = inr e -> Code e = AppMesh.ErrCodeNotFoundException ->
        AppMesh.resourceVirtualNodeDelete meta d h
          = ([], h ++ [AppMesh.EvDeleteVirtualNode (AppMesh.deleteRequest d) r]))
     /\ (forall e, r = inr e -> Code e <> AppMesh.ErrCodeNotFoundException ->
        AppMesh.resourceVirtualNodeDelete meta d h
          = ([ {| Summary := "deleting App Mesh virtual node (" +:+ AppMesh.Id d
                     +:+ "): " +:+ Error (awserr e) |} ],
             h ++ [AppMesh.EvDeleteVirtualNode (AppMesh.deleteRequest d) r]))
     /\ (AppMesh.forgetsDeleted (AppMesh.AppMeshConn meta) ->
         fst (AppMesh.resourceVirtualNodeDelete meta d h) = [] ->
         fst (AppMesh.resourceVirtualNodeDelete meta d
                (snd (AppMesh.resourceVirtualNodeDelete meta d h))) = []))
  /\
  (forall (H : Transfer.Helpers) (conn : Transfer.Conn) (d : Transfer.ResourceData)
          (h : list Transfer.Event) (serverID externalID : string),
     let r := Transfer.DeleteAccessWithContext conn h serverID externalID in
     Transfer.AccessParseResourceID (Transfer.Id d) = inl (serverID, externalID) ->
     (forall e, r = Some e -> Code e = Transfer.ErrCodeResourceNotFoundException ->
        Transfer.resourceAccessDelete conn d h
          = ([], h ++ [Transfer.EvDeleteAccess serverID externalID r]))
     /\ (forall e, r = Some e -> Code e <> Transfer.ErrCodeResourceNotFoundException ->
        Transfer.resourceAccessDelete conn d h
          = ([ {| Summary := "deleting Transfer Access (" +:+ Transfer.Id d
                     +:+ "): " +:+ Error (awserr e) |} ],
             h ++ [Transfer.EvDeleteAccess serverID externalID r]))
     /\ (Transfer.forgetsDeleted conn ->
         fst (Transfer.resourceAccessDelete conn d h) = [] ->
         fst (Transfer.resourceAccessDelete conn d
                (snd (Transfer.resourceAccessDelete conn d h))) = [])).
Proof.
  split.
  - intros H meta d h r. repeat split.
    + intros e Hr Hcode. rewrite AppMeshFacts.resourceVirtualNodeDelete_run.
      fold r. rewrite Hr. apply String.eqb_eq in Hcode. now rewrite Hcode.
    + intros e Hr Hcode. rewrite AppMeshFacts.resourceVirtualNodeDelete_run.
      fold r. rewrite Hr. apply String.eqb_neq in Hcode. now rewrite Hcode.
    + apply AppMeshFacts.resourceVirtualNodeDelete_twice.
  - intros H conn d h serverID externalID r Hid. repeat split.
    + intros e Hr Hcode. rewrite (TransferFacts.resourceAccessDelete_run _ _ _ _ _ Hid).
      fold r. rewrite Hr. apply String.eqb_eq in Hcode. now rewrite Hcode.
    + intros e Hr Hcode. rewrite (TransferFacts.resourceAccessDelete_run _ _ _ _ _ Hid).
      fold r. rewrite Hr. apply String.eqb_neq in Hcode. now rewrite Hcode.
    + apply TransferFacts.resourceAccessDelete_twice.
Qed.

Lemma delete_is_idempotent_witness :
  fst (AppMesh.resourceVirtualNodeDelete
         (AppMesh.sampleClient (AppMesh.serviceWith (AppMesh.sampleNode "ACTIVE")))
         (AppMesh.sampleData false)
         (snd (AppMesh.resourceVirtualNodeDelete
                 (AppMesh.sampleClient (AppMesh.serviceWith (AppMesh.sampleNode "ACTIVE")))
                 (AppMesh.sampleData false) []))) = []
  /\ Transfer.resourceAccessDelete (H := Transfer.specHelpers)
       Transfer.serviceWithout (Transfer.sampleData false) []
     = ([], [] ++ [Transfer.EvDeleteAccess "s-0123456789abcdef0"
                     "S-1-1-12-1234567890-123456789-1234567890-1234"
                     (Some Transfer.notFound)]).
Proof.
  split.
  - apply (proj1 delete_is_idempotent AppMesh.plainHelpers
             (AppMesh.sampleClient (AppMesh.serviceWith (AppMesh.sampleNode "ACTIVE")))
             (AppMesh.sampleData false) []).
    + intros h input r Hr. unfold AppMesh.serviceWith, AppMesh.deletedIn. simpl.
      rewrite existsb_app. simpl.
      destruct r as [vn|e]; simpl.
      * rewrite orb_true_r. reflexivity.
      * destruct (existsb _ h); simpl; [reflexivity | exact I].
    + reflexivity.
  - apply (proj2 delete_is_idempotent Transfer.specHelpers Transfer.serviceWithout
             (Transfer.sampleData false) []
             "s-0123456789abcdef0" "S-1-1-12-1234567890-123456789-1234567890-1234"
             eq_refl) with (e := Transfer.notFound); reflexivity.
Defined.

(** C3.  Read of the virtual node right after its creation: an answer
    that shows the object with status "DELETED" is the final event of the
    run (the polls before it were answered by not-found, nothing is called
    after it); Read returns an error diagnostic and leaves the ID and the
    attributes as they were. *)
Theorem read_after_create_deleted_is_fatal (H : AppMesh.Helpers)
  (meta : AppMesh.AWSClient) (attempts : nat) (d : AppMesh.ResourceData)
  (h new : list AppMesh.Event) (vn : AppMesh.VirtualNodeData) :
  AppMesh.IsNewResource d = true ->
  snd (AppMesh.resourceVirtualNodeRead meta attempts d h) = h ++ new ->
  In (AppMesh.EvDescribeVirtualNode (AppMesh.describeRequest d) (inl (Some vn))) new ->
  AppMesh.isDeletedReply (inl (Some vn)) = true ->
  let '(diags, d') := fst (AppMesh.resourceVirtualNodeRead meta attempts d h) in
  diags = [ {| Summary := "reading App Mesh Virtual Node: "
                 +:+ StringValue (AppMesh.Status (AppMesh.VnStatus vn))
                 +:+ " after creation" |} ]
  /\ HasError diags = true
  /\ d' = d
  /\ exists polls,
       new = AppMesh.pollEvents (AppMesh.describeRequest d) polls
               ++ [AppMesh.EvDescribeVirtualNode (AppMesh.describeRequest d)
                     (inl (Some vn))]
       /\ Forall (fun e => Code e = AppMesh.ErrCodeNotFoundException) polls.
Proof.
  intros Hnew Hh Hin Hdel.
  destruct (AppMeshFacts.resourceVirtualNodeRead_new_deleted
              meta attempts d h new vn Hnew Hh Hin Hdel) as [Hres Hev].
  rewrite Hres. repeat split; auto.
Qed.

Lemma read_after_create_deleted_is_fatal_witness :
  let meta := AppMesh.sampleClient (AppMesh.serviceWith (AppMesh.sampleNode "DELETED")) in
  let d := AppMesh.sampleData true in
  let vn := AppMesh.sampleNode "DELETED" in
  let '(diags, d') := fst (AppMesh.resourceVirtualNodeRead meta 3 d []) in
  diags = [ {| Summary := "reading App Mesh Virtual Node: "
                 +:+ StringValue (AppMesh.Status (AppMesh.VnStatus vn))
                 +:+ " after creation" |} ]
  /\ HasError diags = true
  /\ d' = d
  /\ exists polls,
       [AppMesh.EvDescribeVirtualNode (AppMesh.describeRequest d) (inl (Some vn))]
         = AppMesh.pollEvents (AppMesh.describeRequest d) polls
             ++ [AppMesh.EvDescribeVirtualNode (AppMesh.describeRequest d)
                   (inl (Some vn))]
       /\ Forall (fun e => Code e = AppMesh.ErrCodeNotFoundException) polls.
Proof.
  apply (read_after_create_deleted_is_fatal AppMesh.plainHelpers
           (AppMesh.sampleClient (AppMesh.serviceWith (AppMesh.sampleNode "DELETED")))
           3 (AppMesh.sampleData true) []
           [AppMesh.EvDescribeVirtualNode
              (AppMesh.describeRequest (AppMesh.sampleData true))
              (inl (Some (AppMesh.sampleNode "DELETED")))]
           (AppMesh.sampleNode "DELETED")).
  - reflexivity.
  - reflexivity.
  - simpl. left. reflexivity.
  - reflexivity.
Defined.

(** C4, as the code has it.  The virtual node: Read issues at most as
    many describe calls as the propagation window has attempts (one when
    it has none), and a Read of a new resource that is not found at every
    attempt uses them all, then fails and leaves the data as they were.
    The access: Read issues one describe call at most, so a new resource
    that is not found fails at once.  No operation of either resource
    issues more calls than a bound fixed by the window. *)
Theorem retries_are_bounded :
  (forall (H : AppMesh.Helpers) (meta : AppMesh.AWSClient) (attempts : nat)
          (d : AppMesh.ResourceData) (h : list AppMesh.Event),
     let window := Nat.max attempts 1 in
     (exists new,
        snd (AppMesh.resourceVirtualNodeRead meta attempts d h) = h ++ new
        /\ length (List.filter AppMesh.isDescribe new) <= window)
     /\ (AppMesh.IsNewResource d = true ->
         (forall h', AppMesh.isNotFoundReply
            (AppMesh.DescribeVirtualNodeWithContext (AppMesh.AppMeshConn meta) h'
               (AppMesh.describeRequest d)) = true) ->
         exists polls,
           snd (AppMesh.resourceVirtualNodeRead meta attempts d h)
             = h ++ AppMesh.pollEvents (AppMesh.describeRequest d) polls
           /\ length polls = window
           /\ HasError (fst (fst (AppMesh.resourceVirtualNodeRead meta attempts d h)))
              = true
           /\ snd (fst (AppMesh.resourceVirtualNodeRead meta attempts d h)) = d)
     /\ length (snd (AppMesh.resourceVirtualNodeRead meta attempts d h))
          <= length h + (1 + window)
     /\ length (snd (AppMesh.resourceVirtualNodeCreate meta attempts d h))
          <= length h + (2 + window)
     /\ length (snd (AppMesh.resourceVirtualNodeUpdate meta attempts d h))
          <= length h + (3 + window)
     /\ length (snd (AppMesh.resourceVirtualNodeDelete meta d h)) <= length h + 1
     /\ length (snd (AppMesh.resourceVirtualNodeImport meta d h)) <= length h + 1)
  /\
  (forall (H : Transfer.Helpers) (conn : Transfer.Conn) (d : Transfer.ResourceData)
          (h : list Transfer.Event),
     (forall serverID externalID,
        Transfer.AccessParseResourceID (Transfer.Id d) = inl (serverID, externalID) ->
        Transfer.IsNewResource d = true ->
        Transfer.isNotFoundReply
          (Transfer.DescribeAccessWithContext conn h serverID externalID) = true ->
        snd (Transfer.resourceAccessRead conn d h)
          = h ++ [Transfer.EvDescribeAccess serverID externalID
                    (Transfer.DescribeAccessWithContext conn h serverID externalID)]
        /\ HasError (fst (fst (Transfer.resourceAccessRead conn d h))) = true
        /\ snd (fst (Transfer.resourceAccessRead conn d h)) = d)
     /\ length (snd (Transfer.resourceAccessRead conn d h)) <= length h + 1
     /\ length (snd (Transfer.resourceAccessCreate conn d h)) <= length h + 2
     /\ length (snd (Transfer.resourceAccessUpdate conn d h)) <= length h + 2
     /\ length (snd (Transfer.resourceAccessDelete conn d h)) <= length h + 1).
Proof.
  split.
  - intros H meta attempts d h window. repeat split.
    + destruct (AppMeshFacts.resourceVirtualNodeRead_events meta attempts d h)
        as (new & Hnew & Hdesc & _). exists new. auto.
    + intros Hnew Hnf.
      destruct (AppMeshFacts.resourceVirtualNodeRead_new_not_found
                  meta attempts d h Hnew Hnf) as (polls & ? & ? & _ & ? & ?).
      exists polls. auto.
    + apply AppMeshFacts.resourceVirtualNodeRead_bound.
    + apply AppMeshFacts.resourceVirtualNodeCreate_bound.
    + apply AppMeshFacts.resourceVirtualNodeUpdate_bound.
    + rewrite AppMeshFacts.resourceVirtualNodeDelete_run. simpl.
      rewrite length_app. simpl. lia.
    + apply AppMeshFacts.resourceVirtualNodeImport_bound.
  - intros H conn d h. repeat split.
    + destruct (TransferFacts.resourceAccessRead_new_not_found
                  conn d h serverID externalID) as (e & ->); auto.
    + destruct (TransferFacts.resourceAccessRead_new_not_found
                  conn d h serverID externalID) as (e & ->); auto.
    + destruct (TransferFacts.resourceAccessRead_new_not_found
                  conn d h serverID externalID) as (e & ->); auto.
    + destruct (TransferFacts.resourceAccessRead_events conn d h) as (new & -> & ? & _).
      rewrite length_app. lia.
    + destruct (TransferFacts.resourceAccessCreate_events conn d h) as (new & -> & ?).
      rewrite length_app. lia.
    + destruct (TransferFacts.resourceAccessUpdate_bound conn d h) as (new & -> & ?).
      rewrite length_app. lia.
    + destruct (TransferFacts.resourceAccessDelete_bound conn d h) as (new & -> & ?).
      rewrite length_app. lia.
Qed.

Lemma retries_are_bounded_witness :
  (exists polls,
     snd (AppMesh.resourceVirtualNodeRead
            (AppMesh.sampleClient (AppMesh.serviceWithout (AppMesh.sampleNode "ACTIVE")))
            3 (AppMesh.sampleData true) [])
       = [] ++ AppMesh.pollEvents (AppMesh.describeRequest (AppMesh.sampleData true)) polls
     /\ length polls = Nat.max 3 1
     /\ HasError (fst (fst (AppMesh.resourceVirtualNodeRead
            (AppMesh.sampleClient (AppMesh.serviceWithout (AppMesh.sampleNode "ACTIVE")))
            3 (AppMesh.sampleData true) []))) = true
     /\ snd (fst (AppMesh.resourceVirtualNodeRead
            (AppMesh.sampleClient (AppMesh.serviceWithout (AppMesh.sampleNode "ACTIVE")))
            3 (AppMesh.sampleData true) [])) = AppMesh.sampleData true)
  /\ (snd (Transfer.resourceAccessRead (H := Transfer.specHelpers)
             Transfer.serviceWithout (Transfer.sampleData true) [])
        = [] ++ [Transfer.EvDescribeAccess "s-0123456789abcdef0"
                   "S-1-1-12-1234567890-123456789-1234567890-1234"
                   (inr Transfer.notFound)]
      /\ HasError (fst (fst (Transfer.resourceAccessRead (H := Transfer.specHelpers)
             Transfer.serviceWithout (Transfer.sampleData true) []))) = true
      /\ snd (fst (Transfer.resourceAccessRead (H := Transfer.specHelpers)
             Transfer.serviceWithout (Transfer.sampleData true) []))
         = Transfer.sampleData true).
Proof.
  split.
  - apply (proj1 retries_are_bounded AppMesh.plainHelpers
             (AppMesh.sampleClient (AppMesh.serviceWithout (AppMesh.sampleNode "ACTIVE")))
             3 (AppMesh.sampleData true) []); reflexivity.
  - apply (proj2 retries_are_bounded Transfer.specHelpers Transfer.serviceWithout
             (Transfer.sampleData true) []); reflexivity.
Defined.

(** C4 as stated fails on the access: its Read of a newly created
    resource that is not found makes one call and fails, without polling. *)
Lemma access_read_after_create_does_not_poll :
  Transfer.resourceAccessRead (H := Transfer.specHelpers)
    Transfer.serviceWithout (Transfer.sampleData true) []
  = (([ {| Summary := "reading Transfer Access (" +:+ Transfer.sampleId
             +:+ "): ResourceNotFoundException: access not found" |} ],
      Transfer.sampleData true),
     [ Transfer.EvDescribeAccess "s-0123456789abcdef0"
         "S-1-1-12-1234567890-123456789-1234567890-1234" (inr Transfer.notFound) ]).
Proof. reflexivity. Qed.

(** C5, as the code has it.  Update of the virtual node reconciles two
    groups: when only [spec] changed it issues one call that changes the
    remote system, the UpdateVirtualNode request built from the tracked
    names and the new spec, and when only [tags_all] changed, one
    invocation of the tag update helper from the old to the new tags; when
    neither changed, whatever else did, it changes nothing remotely.
    Update of the access reconciles six groups: when exactly one of them
    changed it issues one UpdateAccess call, keyed by the two components
    of the ID.  That request carries no field of any other group, and it
    carries the field of the changed group, with one exception: for
    [posix_profile] the field is there exactly when the new configuration
    has the block, so that the removal of the block sends no field.  Every
    other call of the run is a read. *)
Theorem update_issues_one_call_for_the_changed_group :
  (forall (H : AppMesh.Helpers) (meta : AppMesh.AWSClient) (attempts : nat)
          (id : string) (old new : AppMesh.Attrs) (h : list AppMesh.Event),
     let d := AppMesh.forUpdate id old new in
     (AppMesh.spec old <> AppMesh.spec new ->
      AppMesh.tags_all old = AppMesh.tags_all new ->
      exists req r reads,
        snd (AppMesh.resourceVirtualNodeUpdate meta attempts d h)
          = h ++ [AppMesh.EvUpdateVirtualNode req r] ++ reads
        /\ req = AppMesh.updateRequest d
        /\ AppMesh.UpSpec req = AppMesh.expandVirtualNodeSpec (AppMesh.spec new)
        /\ Forall (fun e => AppMesh.mutating e = false) reads)
     /\
     (AppMesh.spec old = AppMesh.spec new ->
      AppMesh.tags_all old <> AppMesh.tags_all new ->
      exists r reads,
        snd (AppMesh.resourceVirtualNodeUpdate meta attempts d h)
          = h ++ [AppMesh.EvUpdateTags (AppMesh.arn new)
                    (AppMesh.tags_all old) (AppMesh.tags_all new) r] ++ reads
        /\ Forall (fun e => AppMesh.mutating e = false) reads)
     /\
     (AppMesh.spec old = AppMesh.spec new ->
      AppMesh.tags_all old = AppMesh.tags_all new ->
      exists reads,
        snd (AppMesh.resourceVirtualNodeUpdate meta attempts d h) = h ++ reads
        /\ Forall (fun e => AppMesh.mutating e = false) reads))
  /\
  (forall (H : Transfer.Helpers) (conn : Transfer.Conn) (id : string)
          (old new : Transfer.Attrs) (h : list Transfer.Event)
          (serverID externalID : string) (g : Transfer.Group),
     let d := Transfer.forUpdate id old new in
     let req := Transfer.requestFor serverID externalID g new in
     Transfer.AccessParseResourceID id = inl (serverID, externalID) ->
     Transfer.changedGroups d = [g] ->
     (g = Transfer.GPolicy ->
      exists p, Transfer.NormalizeJsonString (Transfer.policy new) = inl p) ->
     (exists r reads,
        snd (Transfer.resourceAccessUpdate conn d h)
          = h ++ [Transfer.EvUpdateAccess req r] ++ reads
        /\ Forall (fun e => Transfer.mutating e = false) reads)
     /\ Transfer.UpServerId req = Some serverID
     /\ Transfer.UpExternalId req = Some externalID
     /\ (forall g', g' <> g -> Transfer.carries req g' = false)
     /\ (g <> Transfer.GPosixProfile -> Transfer.carries req g = true)
     /\ (g = Transfer.GPosixProfile ->
         (Transfer.carries req g = true <-> Transfer.posix_profile new <> []))).
Proof.
  split.
  - intros H meta attempts id old new h d. split; [|split].
    + intros Hspec Htags.
      destruct (AppMeshFacts.resourceVirtualNodeUpdate_events meta attempts d h)
        as (reads & Hrun & Hreads & _).
      unfold AppMesh.updateCalls, AppMesh.HasChange in Hrun. simpl in Hrun.
      rewrite (bool_decide_eq_false_2 _ Hspec) in Hrun.
      rewrite (bool_decide_eq_true_2 _ Htags) in Hrun.
      simpl in Hrun. rewrite andb_false_r in Hrun. simpl in Hrun.
      eexists _, _, reads. split; [exact Hrun|]. split; [reflexivity|].
      split; [reflexivity | exact Hreads].
    + intros Hspec Htags.
      destruct (AppMeshFacts.resourceVirtualNodeUpdate_events meta attempts d h)
        as (reads & Hrun & Hreads & _).
      unfold AppMesh.updateCalls, AppMesh.HasChange in Hrun. simpl in Hrun.
      rewrite (bool_decide_eq_true_2 _ Hspec) in Hrun.
      rewrite (bool_decide_eq_false_2 _ Htags) in Hrun.
      simpl in Hrun.
      eexists _, reads. split; [exact Hrun | exact Hreads].
    + intros Hspec Htags.
      destruct (AppMeshFacts.resourceVirtualNodeUpdate_events meta attempts d h)
        as (reads & Hrun & Hreads & _).
      unfold AppMesh.updateCalls, AppMesh.HasChange in Hrun. simpl in Hrun.
      rewrite (bool_decide_eq_true_2 _ Hspec) in Hrun.
      rewrite (bool_decide_eq_true_2 _ Htags) in Hrun.
      simpl in Hrun.
      exists reads. split; [exact Hrun | exact Hreads].
  - intros H conn id old new h serverID externalID g d req Hid Hg Hpol.
    split; [|split; [reflexivity|split; [reflexivity|split; [|split]]]].
    + pose proof (TransferFacts.updateAccessInput_one_group serverID externalID d g
                    Hg Hpol) as Hin.
      destruct (TransferFacts.resourceAccessUpdate_events conn d h _ _ _ Hid Hin)
        as (reads & Hrun & Hreads & _).
      eexists _, reads. split; [exact Hrun | exact Hreads].
    + intros g' Hne. unfold req.
      destruct g, g'; try congruence; reflexivity.
    + intros Hne. unfold req. destruct g; try congruence; try reflexivity.
      destruct (Hpol eq_refl) as [p Hp]. cbn. rewrite Hp. reflexivity.
    + intros ->. unfold req. cbn.
      destruct (Transfer.posix_profile new) as [|b rest]; cbn; split;
        congruence || discriminate.
Qed.

Lemma update_issues_one_call_for_the_changed_group_witness :
  (exists req r reads,
     snd (AppMesh.resourceVirtualNodeUpdate
            (AppMesh.sampleClient (AppMesh.serviceWith (AppMesh.sampleNode "ACTIVE")))
            3 (AppMesh.forUpdate "0a1b2c3d"
                 (AppMesh.sampleAttrs ["listener"] ∅ ∅)
                 (AppMesh.sampleAttrs ["listener"; "backend"] ∅ ∅)) [])
       = [] ++ [AppMesh.EvUpdateVirtualNode req r] ++ reads
     /\ req = AppMesh.updateRequest
                (AppMesh.forUpdate "0a1b2c3d"
                   (AppMesh.sampleAttrs ["listener"] ∅ ∅)
                   (AppMesh.sampleAttrs ["listener"; "backend"] ∅ ∅))
     /\ AppMesh.UpSpec req = ["listener"; "backend"]
     /\ Forall (fun e => AppMesh.mutating e = false) reads)
  /\ (let req := Transfer.requestFor (H := Transfer.specHelpers)
                   "s-0123456789abcdef0"
                   "S-1-1-12-1234567890-123456789-1234567890-1234"
                   Transfer.GHomeDirectory
                   (Transfer.Set_home_directory "/home/bob" Transfer.sampleAttrs) in
      (exists r reads,
         snd (Transfer.resourceAccessUpdate (H := Transfer.specHelpers)
                (Transfer.serviceWith Transfer.sampleAccess)
                (Transfer.forUpdate Transfer.sampleId Transfer.sampleAttrs
                   (Transfer.Set_home_directory "/home/bob" Transfer.sampleAttrs)) [])
           = [] ++ [Transfer.EvUpdateAccess req r] ++ reads
         /\ Forall (fun e => Transfer.mutating e = false) reads)
      /\ Transfer.UpHomeDirectory req = Some "/home/bob"
      /\ Transfer.carries req Transfer.GHomeDirectory = true
      /\ Transfer.carries req Transfer.GRole = false)
  /\ (let req := Transfer.requestFor (H := Transfer.specHelpers)
                   "s-0123456789abcdef0"
                   "S-1-1-12-1234567890-123456789-1234567890-1234"
                   Transfer.GPosixProfile
                   (Transfer.Set_posix_profile [] Transfer.sampleAttrs) in
      (exists r reads,
         snd (Transfer.resourceAccessUpdate (H := Transfer.specHelpers)
                (Transfer.serviceWith Transfer.sampleAccess)
                (Transfer.forUpdate Transfer.sampleId Transfer.sampleAttrs
                   (Transfer.Set_posix_profile [] Transfer.sampleAttrs)) [])
           = [] ++ [Transfer.EvUpdateAccess req r] ++ reads
         /\ Forall (fun e => Transfer.mutating e = false) reads)
      /\ Transfer.carries req Transfer.GPosixProfile <> true).
Proof.
  split; [|split].
  - apply (proj1 (proj1 update_issues_one_call_for_the_changed_group
             AppMesh.plainHelpers
             (AppMesh.sampleClient (AppMesh.serviceWith (AppMesh.sampleNode "ACTIVE")))
             3 "0a1b2c3d" (AppMesh.sampleAttrs ["listener"] ∅ ∅)
             (AppMesh.sampleAttrs ["listener"; "backend"] ∅ ∅) [])).
    + simpl. discriminate.
    + reflexivity.
  - cbv zeta.
    assert (P := proj2 update_issues_one_call_for_the_changed_group Transfer.specHelpers
             (Transfer.serviceWith Transfer.sampleAccess)
             Transfer.sampleId Transfer.sampleAttrs
             (Transfer.Set_home_directory "/home/bob" Transfer.sampleAttrs) []
             "s-0123456789abcdef0" "S-1-1-12-1234567890-123456789-1234567890-1234"
             Transfer.GHomeDirectory).
    cbv zeta in P.
    destruct P as (Hrun & _ & _ & Hother & Hself & _).
    + reflexivity.
    + vm_compute. reflexivity.
    + discriminate.
    + split; [exact Hrun|]. split; [reflexivity|]. split.
      * apply Hself. discriminate.
      * apply Hother. discriminate.
  - cbv zeta.
    assert (P := proj2 update_issues_one_call_for_the_changed_group Transfer.specHelpers
             (Transfer.serviceWith Transfer.sampleAccess)
             Transfer.sampleId Transfer.sampleAttrs
             (Transfer.Set_posix_profile [] Transfer.sampleAttrs) []
             "s-0123456789abcdef0" "S-1-1-12-1234567890-123456789-1234567890-1234"
             Transfer.GPosixProfile).
    cbv zeta in P.
    destruct P as (Hrun & _ & _ & _ & _ & Hposix).
    + reflexivity.
    + vm_compute. reflexivity.
    + discriminate.
    + split; [exact Hrun|].
      intros Hc. apply (proj1 (Hposix eq_refl)) in Hc. now apply Hc.
Defined.

(** C5 as stated fails in two places.  A changed group may need no
    call: with a tag that moves from the default tags to the resource's
    own, [tags] changes and [tags_all] does not, and Update of the virtual
    node changes nothing remotely.  And the one call may not cover the
    changed group: when the [posix_profile] block of an access is removed,
    that is the one group that changed, and the one UpdateAccess request
    carries the two keys and no field at all. *)
Lemma changed_group_without_covering_call :
  (let old := AppMesh.sampleAttrs ["listener"] ∅ {[ "team" := "mesh" ]} in
   let new := AppMesh.sampleAttrs ["listener"] {[ "team" := "mesh" ]} {[ "team" := "mesh" ]} in
   AppMesh.tags old <> AppMesh.tags new
   /\ AppMesh.Set_tags (AppMesh.tags new) old = new
   /\ List.filter AppMesh.mutating
        (snd (AppMesh.resourceVirtualNodeUpdate
                (AppMesh.sampleClient (AppMesh.serviceWith (AppMesh.sampleNode "ACTIVE")))
                3 (AppMesh.forUpdate "0a1b2c3d" old new) [])) = [])
  /\
  (let old := Transfer.sampleAttrs in
   let new := Transfer.Set_posix_profile [] Transfer.sampleAttrs in
   Transfer.changedGroups (Transfer.forUpdate Transfer.sampleId old new)
     = [Transfer.GPosixProfile]
   /\ List.filter Transfer.mutating
        (snd (Transfer.resourceAccessUpdate (H := Transfer.specHelpers)
                (Transfer.serviceWith Transfer.sampleAccess)
                (Transfer.forUpdate Transfer.sampleId old new) []))
      = [ Transfer.EvUpdateAccess
            {| Transfer.UpExternalId := Some "S-1-1-12-1234567890-123456789-1234567890-1234";
               Transfer.UpHomeDirectory := None;
               Transfer.UpHomeDirectoryMappings := None;
               Transfer.UpHomeDirectoryType := None;
               Transfer.UpPolicy := None;
               Transfer.UpPosixProfile := None;
               Transfer.UpRole := None;
               Transfer.UpServerId := Some "s-0123456789abcdef0" |} None ]).
Proof.
  cbv zeta. split; [split; [|split]|split].
  - intros Heq. apply (f_equal (fun m => m !! "team")) in Heq. simpl in Heq.
    rewrite lookup_empty, lookup_singleton_eq in Heq. discriminate.
  - reflexivity.
  - vm_compute. reflexivity.
  - vm_compute. reflexivity.
  - vm_compute. reflexivity.
Qed.

(** C6.  Import by reference: a reference has one component more than it
    has slashes.  The importer of the virtual node rejects a reference
    whose component count is not two, with a format error and before any
    remote call, and for two components its one remote call is keyed by
    them, first the mesh and then the node.  The importer of the access
    passes the reference on as the ID; the Read that follows rejects an ID
    whose component count is not two, before any remote call, and reads
    two components as server and external ID. *)
Theorem import_requires_two_components :
  (forall s : string, length (Split s "/") = S (Count s "/"))
  /\
  (forall (H : AppMesh.Helpers) (meta : AppMesh.AWSClient) (d : AppMesh.ResourceData)
          (h : list AppMesh.Event),
     (length (Split (AppMesh.Id d) "/") <> 2 ->
      AppMesh.resourceVirtualNodeImport meta d h
        = (AppMesh.Returned []
             (Some (errorString ("wrong format of import ID (" +:+ AppMesh.Id d
                      +:+ "), use: 'mesh-name/virtual-node-name'"))), h))
     /\
     (forall mesh node, Split (AppMesh.Id d) "/" = [mesh; node] ->
      let req := {| AppMesh.DeMeshName := Some mesh;
                    AppMesh.DeVirtualNodeName := Some node;
                    AppMesh.DeMeshOwner := None |} in
      snd (AppMesh.resourceVirtualNodeImport meta d h)
        = h ++ [AppMesh.EvDescribeVirtualNode req
                  (AppMesh.DescribeVirtualNodeWithContext
                     (AppMesh.AppMeshConn meta) h req)]))
  /\
  (forall (conn : Transfer.Conn) (d : Transfer.ResourceData) (h : list Transfer.Event),
     Transfer.ImportStatePassthroughContext d = ([d], None)
     /\
     (length (Split (Transfer.Id d) "/") <> 2 ->
      exists e,
        Transfer.resourceAccessRead (H := Transfer.specHelpers) conn d h
          = (([ {| Summary := "parsing Transfer Access ID: " +:+ Error e |} ], d), h))
     /\
     (forall serverID externalID,
        Split (Transfer.Id d) "/" = [serverID; externalID] ->
        Transfer.parseResourceID (Transfer.Id d) = inl (serverID, externalID))).
Proof.
  split; [|split].
  - intros s. apply SDKFacts.Split_length.
  - intros H meta d h. split.
    + apply AppMeshFacts.resourceVirtualNodeImport_malformed.
    + intros mesh node Hsplit req.
      apply (AppMeshFacts.resourceVirtualNodeImport_two meta d h mesh node Hsplit).
  - intros conn d h. split; [reflexivity|]. split.
    + intros Hlen.
      assert (exists e, Transfer.parseResourceID (Transfer.Id d) = inr e) as [e He].
      { unfold Transfer.parseResourceID.
        destruct (Split (Transfer.Id d) "/") as [|a [|b [|c l]]]; eauto.
        simpl in Hlen. congruence. }
      exists e.
      apply (TransferFacts.resourceAccessRead_malformed (H := Transfer.specHelpers)).
      exact He.
    + intros serverID externalID Hsplit. unfold Transfer.parseResourceID.
      now rewrite Hsplit.
Qed.

Lemma import_requires_two_components_witness :
  (AppMesh.resourceVirtualNodeImport
     (AppMesh.sampleClient (AppMesh.serviceWith (AppMesh.sampleNode "ACTIVE")))
     (AppMesh.SetId "meshA" (AppMesh.sampleData false)) []
   = (AppMesh.Returned []
        (Some (errorString
           "wrong format of import ID (meshA), use: 'mesh-name/virtual-node-name'")),
      []))
  /\ (AppMesh.resourceVirtualNodeImport
        (AppMesh.sampleClient (AppMesh.serviceWith (AppMesh.sampleNode "ACTIVE")))
        (AppMesh.SetId "meshA/nodeB/extra" (AppMesh.sampleData false)) []
      = (AppMesh.Returned []
           (Some (errorString
              "wrong format of import ID (meshA/nodeB/extra), use: 'mesh-name/virtual-node-name'")),
         []))
  /\ (snd (AppMesh.resourceVirtualNodeImport
             (AppMesh.sampleClient (AppMesh.serviceWith (AppMesh.sampleNode "ACTIVE")))
             (AppMesh.SetId "meshA/nodeB" (AppMesh.sampleData false)) [])
      = [] ++ [AppMesh.EvDescribeVirtualNode
                 {| AppMesh.DeMeshName := Some "meshA";
                    AppMesh.DeVirtualNodeName := Some "nodeB";
                    AppMesh.DeMeshOwner := None |}
                 (inl (Some (AppMesh.sampleNode "ACTIVE")))])
  /\ (exists e,
        Transfer.resourceAccessRead (H := Transfer.specHelpers) Transfer.serviceWithout
          (Transfer.SetId "meshA/nodeB/extra" (Transfer.sampleData false)) []
        = (([ {| Summary := "parsing Transfer Access ID: " +:+ Error e |} ],
            Transfer.SetId "meshA/nodeB/extra" (Transfer.sampleData false)), []))
  /\ Transfer.parseResourceID "meshA/nodeB" = inl ("meshA", "nodeB").
Proof.
  split; [|split; [|split; [|split]]].
  - apply (proj1 (proj2 import_requires_two_components) AppMesh.plainHelpers).
    simpl. discriminate.
  - apply (proj1 (proj2 import_requires_two_components) AppMesh.plainHelpers).
    simpl. discriminate.
  - apply (proj2 (proj1 (proj2 import_requires_two_components) AppMesh.plainHelpers
             (AppMesh.sampleClient (AppMesh.serviceWith (AppMesh.sampleNode "ACTIVE")))
             (AppMesh.SetId "meshA/nodeB" (AppMesh.sampleData false)) [])
             "meshA" "nodeB").
    reflexivity.
  - apply (proj1 (proj2 (proj2 (proj2 import_requires_two_components)
             Transfer.serviceWithout
             (Transfer.SetId "meshA/nodeB/extra" (Transfer.sampleData false)) []))).
    simpl. discriminate.
  - apply (proj2 (proj2 (proj2 (proj2 import_requires_two_components)
             Transfer.serviceWithout
             (Transfer.SetId "meshA/nodeB" (Transfer.sampleData false)) []))
             "meshA" "nodeB").
    reflexivity.
Defined.

(** C7, on the code.  Both attributes behind the virtual node's key are
    [ForceNew].  Of the two attributes from which the access ID is built,
    [server_id] is [ForceNew] and [external_id] is not; so a changed
    [external_id] reaches Update, which sends nothing of it: its request
    is keyed by the old value, parsed from the ID, and sets no field. *)
Theorem access_external_id_is_not_force_new :
  map (forceNewOf AppMesh.ResourceVirtualNodeSchema) AppMesh.identityAttributes
    = [true; true]
  /\ map (forceNewOf Transfer.ResourceAccessSchema) Transfer.identityAttributes
     = [true; false]
  /\ (forall (H : Transfer.Helpers) (conn : Transfer.Conn) (config : Transfer.Attrs)
             (h : list Transfer.Event),
        fst (fst (Transfer.resourceAccessCreate conn (Transfer.forCreate config) h)) = [] ->
        Transfer.Id (snd (fst (Transfer.resourceAccessCreate conn
                                 (Transfer.forCreate config) h)))
          = Transfer.AccessCreateResourceID (Transfer.server_id config)
              (Transfer.external_id config))
  /\ (let old := Transfer.sampleAttrs in
      let new := Transfer.Set_external_id "S-1-1-12-0000000000-000000000-0000000000-0000"
                   Transfer.sampleAttrs in
      List.filter Transfer.mutating
        (snd (Transfer.resourceAccessUpdate (H := Transfer.specHelpers)
                (Transfer.serviceWith (Transfer.echoAccess
                   {| Transfer.CrExternalId := Some (Transfer.external_id old);
                      Transfer.CrHomeDirectory := None;
                      Transfer.CrHomeDirectoryMappings := None;
                      Transfer.CrHomeDirectoryType := None; Transfer.CrPolicy := None;
                      Transfer.CrPosixProfile := None; Transfer.CrRole := None;
                      Transfer.CrServerId := None |}))
                (Transfer.forUpdate Transfer.sampleId old new) []))
      = [ Transfer.EvUpdateAccess
            {| Transfer.UpExternalId := Some (Transfer.external_id old);
               Transfer.UpHomeDirectory := None;
               Transfer.UpHomeDirectoryMappings := None;
               Transfer.UpHomeDirectoryType := None;
               Transfer.UpPolicy := None;
               Transfer.UpPosixProfile := None;
               Transfer.UpRole := None;
               Transfer.UpServerId := Some (Transfer.server_id old) |} None ]).
Proof.
  split; [reflexivity|]. split; [reflexivity|]. split.
  - intros H conn config h. unfold Transfer.resourceAccessCreate. cbv zeta.
    destruct (Transfer.createAccessInput _) as [input|[v e]]; [|discriminate].
    unfold bind at 1 3. unfold Transfer.createAccess. cbv zeta.
    destruct (Transfer.CreateAccessWithContext conn h input) as [e|];
      simpl option_map; cbv iota; [discriminate|].
    intros _.
    set (d1 := Transfer.SetId _ _). set (h1 := h ++ _).
    etransitivity;
      [apply (f_equal (fun x => Transfer.Id (snd x)));
       apply (SDKFacts.fst_bind_pair _ (fun rdiags d0 => ([] ++ rdiags, d0)))|].
    apply (TransferFacts.resourceAccessRead_new_keeps_id conn d1 h1 eq_refl).
  - vm_compute. reflexivity.
Qed.




(** C9.  Read of the access never writes the [role] attribute, whatever
    the service answers; and when the service shows the access, the other
    attributes are the values of the answer, the policy being the one that
    [verify.PolicyToSet] chooses for it and [server_id] the one in the ID. *)
Theorem read_never_writes_role (H : Transfer.Helpers) (conn : Transfer.Conn)
  (d : Transfer.ResourceData) (h : list Transfer.Event) :
  Transfer.role (Transfer.current (snd (fst (Transfer.resourceAccessRead conn d h))))
    = Transfer.role (Transfer.current d)
  /\
  (forall serverID externalID access policyToSet,
     Transfer.AccessParseResourceID (Transfer.Id d) = inl (serverID, externalID) ->
     Transfer.DescribeAccessWithContext conn h serverID externalID = inl (Some access) ->
     Transfer.PolicyToSet (Transfer.policy (Transfer.current d))
       (StringValue (Transfer.Policy access)) = inl policyToSet ->
     Transfer.current (snd (fst (Transfer.resourceAccessRead conn d h)))
       = {| Transfer.external_id := StringValue (Transfer.ExternalId access);
            Transfer.home_directory := StringValue (Transfer.HomeDirectory access);
            Transfer.home_directory_mappings :=
              Transfer.flattenHomeDirectoryMappings (Transfer.HomeDirectoryMappings access);
            Transfer.home_directory_type :=
              StringValue (Transfer.HomeDirectoryType access);
            Transfer.policy := policyToSet;
            Transfer.posix_profile :=
              Transfer.flattenUserPOSIXUser (Transfer.DaPosixProfile access);
            Transfer.role := Transfer.role (Transfer.current d);
            Transfer.server_id := serverID |}).
Proof.
  split.
  - apply TransferFacts.resourceAccessRead_role.
  - intros serverID externalID access policyToSet Hid Hfind Hpol.
    now rewrite (TransferFacts.resourceAccessRead_found conn d h _ _ _ _ Hid Hfind Hpol).
Qed.

Lemma read_never_writes_role_witness :
  Transfer.current
    (snd (fst (Transfer.resourceAccessRead (H := Transfer.specHelpers)
                 (Transfer.serviceWith Transfer.sampleAccess)
                 (Transfer.sampleData false) [])))
  = {| Transfer.external_id := "S-1-1-12-1234567890-123456789-1234567890-1234";
       Transfer.home_directory := "/home/carol";
       Transfer.home_directory_mappings := [];
       Transfer.home_directory_type := "PATH";
       Transfer.policy := "";
       Transfer.posix_profile := [];
       Transfer.role := "arn:aws:iam::123456789012:role/transfer-access";
       Transfer.server_id := "s-0123456789abcdef0" |}.
Proof.
  apply (proj2 (read_never_writes_role Transfer.specHelpers
                  (Transfer.serviceWith Transfer.sampleAccess)
                  (Transfer.sampleData false) [])
           "s-0123456789abcdef0" "S-1-1-12-1234567890-123456789-1234567890-1234"
           Transfer.sampleAccess "");
    reflexivity.
Defined.

End Lifecycle.

(* ================================================================== *)
(** * More on the generated pagers                                    *)
(* ================================================================== *)

Module PagerFacts.
Import SDK WAF.

Lemma callsIn_app (h1 h2 : list Event) : callsIn (h1 ++ h2) = callsIn h1 + callsIn h2.
Proof. unfold callsIn. now rewrite List.filter_app, length_app. Qed.

(** A listing of finitely many pages, served in order from any point of
    the script, is read to its end when the fuel exceeds the number of
    pages before the last. *)
Lemma listPages_collect_from (op : ListOp) (last : ListOutput) :
  forall (pages : list ListOutput) (pre : list (ListOutput + AwsError))
         (fuel : nat) (input : ListInput) (acc : list SummaryItem) (h : list Event),
  Forall (fun p => isLastPage p = false) pages ->
  isLastPage last = true ->
  callsIn h = length pre ->
  length pages < fuel ->
  exists input' h',
    listPages (scripted (pre ++ map inl (pages ++ [last]))) op collect fuel input acc h
      = Some (None, input', acc ++ flat_map Items (pages ++ [last]), h')
    /\ callsIn h' = callsIn h + S (length pages).
Proof.
  induction pages as [|p pages IH]; intros pre fuel input acc h Hpages Hlast Hh Hfuel;
    (destruct fuel as [|fuel]; [simpl in Hfuel; lia|]); simpl listPages;
    unfold scripted at 1; rewrite Hh, app_nth2, Nat.sub_diag by lia; simpl nth.
  - unfold collect at 1. rewrite Hlast. simpl. rewrite app_nil_r.
    eexists _, _. split; [reflexivity|].
    rewrite !callsIn_app. unfold callsIn in *. simpl. lia.
  - inversion Hpages as [|? ? Hp Hrest]; subst.
    unfold collect at 1. rewrite Hp. cbn [negb orb].
    destruct (IH (pre ++ [inl p]) fuel (setNextMarker input (NextMarker p))
                (acc ++ Items p)
                ((h ++ [EvCall op input (inl p)]) ++ [EvFn p false true])
                Hrest Hlast) as (input' & h' & Hrun & Hcalls).
    + rewrite !callsIn_app, length_app. unfold callsIn in *. simpl. lia.
    + simpl in Hfuel. lia.
    + exists input', h'. split.
      * rewrite <- app_assoc in Hrun. simpl in Hrun. simpl.
        etransitivity; [exact Hrun|]. now rewrite <- app_assoc.
      * rewrite Hcalls, !callsIn_app. unfold callsIn in *. simpl. lia.
Qed.

(** X1.  Reading a finite listing to its end: against a service that
    serves the pages in order, all but the last with a next marker, and
    with the callback that collects the items and always asks for more,
    every generated function returns a nil error once the fuel exceeds the
    number of pages before the last; it has then made one call per page
    and collected the items of all pages, in order. *)
Theorem listPages_collects_finite_listing (op : ListOp)
  (pages : list ListOutput) (last : ListOutput) (fuel : nat)
  (input : ListInput) (acc : list SummaryItem) :
  Forall (fun p => isLastPage p = false) pages ->
  isLastPage last = true ->
  length pages < fuel ->
  exists input' h',
    listPages (scripted (map inl (pages ++ [last]))) op collect fuel input acc []
      = Some (None, input', acc ++ flat_map Items (pages ++ [last]), h')
    /\ callsIn h' = S (length pages).
Proof.
  intros Hpages Hlast Hfuel.
  apply (listPages_collect_from op last pages [] fuel input acc [] Hpages Hlast eq_refl Hfuel).
Qed.

Lemma listPages_collects_finite_listing_witness :
  exists input' h',
    listRulesPages
      (scripted (map inl
         ([ {| Items := [ {| ItemId := "r1"; ItemName := "one" |} ];
               NextMarker := Some "m1" |};
            {| Items := [ {| ItemId := "r2"; ItemName := "two" |} ];
               NextMarker := Some "m2" |} ]
          ++ [ {| Items := [ {| ItemId := "r3"; ItemName := "three" |} ];
                  NextMarker := Some "" |} ])))
      collect 3 {| Limit := Some 1%Z; InNextMarker := None |} [] []
    = Some (None, input',
            [] ++ flat_map Items
              ([ {| Items := [ {| ItemId := "r1"; ItemName := "one" |} ];
                    NextMarker := Some "m1" |};
                 {| Items := [ {| ItemId := "r2"; ItemName := "two" |} ];
                    NextMarker := Some "m2" |} ]
               ++ [ {| Items := [ {| ItemId := "r3"; ItemName := "three" |} ];
                       NextMarker := Some "" |} ]), h')
    /\ callsIn h' = 3.
Proof.
  apply (listPages_collects_finite_listing ListRules).
  - repeat constructor.
  - reflexivity.
  - simpl. lia.
Defined.

(** X2.  The request that the caller passed in is changed in one way
    only.  Whenever a generated function returns, every call it made was
    for its own operation and carried the caller's [Limit]; the input as
    the caller finds it has that [Limit] too and is the request of the
    final call made; and its marker is the one the caller passed or the
    [NextMarker] of a page after which the loop went on. *)
Theorem listPages_threads_the_marker {S : Type} (conn : Conn) (op : ListOp)
  (fn : PageFn S) (fuel : nat) (input : ListInput) (s : S) (h : list Event)
  (err : option error) (input' : ListInput) (s' : S) (h' : list Event) :
  listPages conn op fn fuel input s h = Some (err, input', s', h') ->
  exists new,
    h' = h ++ new
    /\ Limit input' = Limit input
    /\ Forall (fun e => match e with
                        | EvCall o i _ => o = op /\ Limit i = Limit input
                        | EvFn _ _ _ => True
                        end) new
    /\ (input' = input
        \/ exists page, In (EvFn page false true) new
                        /\ InNextMarker input' = NextMarker page)
    /\ exists pre res tail,
         new = pre ++ EvCall op input' res :: tail
         /\ Forall (fun e => match e with EvCall _ _ _ => False | _ => True end) tail.
Proof.
  revert input s h err input' s' h'.
  induction fuel as [|fuel IH]; intros input s h err input' s' h'; simpl;
    [discriminate|].
  destruct (conn h op input) as [output|e].
  - destruct (fn output (isLastPage output) s) as [cont s1].
    destruct (negb cont || isLastPage output) eqn:Hstop.
    + intros [= <- <- <- <-].
      exists [EvCall op input (inl output); EvFn output (isLastPage output) cont].
      rewrite <- app_assoc. repeat split; auto.
      exists [], (inl output), [EvFn output (isLastPage output) cont].
      split; [reflexivity|]. repeat constructor.
    + apply orb_false_iff in Hstop as [Hcont Hlast].
      apply negb_false_iff in Hcont. subst cont. rewrite Hlast.
      intros Hrun. apply IH in Hrun
        as (new & -> & Hlim & Hall & Hmark & pre & res & tail & -> & Htail).
      exists (EvCall op input (inl output) :: EvFn output false true
                :: pre ++ EvCall op input' res :: tail).
      split; [now rewrite <- !app_assoc|]. split; [exact Hlim|]. split; [|split].
      * constructor; [auto|]. constructor; [exact I|].
        eapply List.Forall_impl; [|exact Hall]. intros [o i r|]; auto.
      * right. destruct Hmark as [-> | (page & Hin & ->)].
        -- exists output. split; [right; left; reflexivity | reflexivity].
        -- exists page. split; [right; right; exact Hin | reflexivity].
      * exists (EvCall op input (inl output) :: EvFn output false true :: pre),
               res, tail. split; [reflexivity | exact Htail].
  - intros [= <- <- <- <-]. exists [EvCall op input (inr e)].
    repeat split; auto.
    exists [], (inr e), []. split; [reflexivity | constructor].
Qed.

Lemma listPages_threads_the_marker_witness :
  exists new,
    [ EvCall ListWebACLs {| Limit := Some 10%Z; InNextMarker := None |}
        (inl {| Items := [ {| ItemId := "a1"; ItemName := "first" |} ];
                NextMarker := Some "m1" |});
      EvFn {| Items := [ {| ItemId := "a1"; ItemName := "first" |} ];
              NextMarker := Some "m1" |} false true;
      EvCall ListWebACLs {| Limit := Some 10%Z; InNextMarker := Some "m1" |}
        (inl {| Items := [ {| ItemId := "a2"; ItemName := "second" |} ];
                NextMarker := None |});
      EvFn {| Items := [ {| ItemId := "a2"; ItemName := "second" |} ];
              NextMarker := None |} true true ] = [] ++ new
    /\ Limit {| Limit := Some 10%Z; InNextMarker := Some "m1" |} = Some 10%Z
    /\ Forall (fun e => match e with
                        | EvCall o i _ => o = ListWebACLs /\ Limit i = Some 10%Z
                        | EvFn _ _ _ => True
                        end) new
    /\ ({| Limit := Some 10%Z; InNextMarker := Some "m1" |}
          = {| Limit := Some 10%Z; InNextMarker := None |}
        \/ exists page, In (EvFn page false true) new
                        /\ Some "m1" = NextMarker page)
    /\ exists pre res tail,
         new = pre ++ EvCall ListWebACLs
                        {| Limit := Some 10%Z; InNextMarker := Some "m1" |} res :: tail
         /\ Forall (fun e => match e with EvCall _ _ _ => False | _ => True end) tail.
Proof.
  apply (listPages_threads_the_marker (scripted somePages) ListWebACLs collect 5
           {| Limit := Some 10%Z; InNextMarker := None |} [] [] None
           {| Limit := Some 10%Z; InNextMarker := Some "m1" |}
           [ {| ItemId := "a1"; ItemName := "first" |};
             {| ItemId := "a2"; ItemName := "second" |} ]).
  vm_compute. reflexivity.
Defined.

(** X3.  The pager has no page limit of its own; on a listing that
    never ends the callback alone decides how far it is read.  Against a
    service whose every answer announces a next page: with the callback
    that asks for more [n] times and then stops, every generated function
    returns a nil error after exactly [n + 1] calls, for every [n], as
    soon as that many iterations are allowed; and with a callback that
    always asks for more it does not return, however many iterations are
    allowed. *)
Theorem listPages_has_no_page_limit (conn : Conn) (op : ListOp) :
  (forall h input, exists output,
     conn h op input = inl output /\ isLastPage output = false) ->
  (forall (n fuel : nat) (input : ListInput) (h : list Event),
     n < fuel ->
     exists input' h',
       listPages conn op countdown fuel input n h = Some (None, input', 0, h')
       /\ callsIn h' = callsIn h + S n)
  /\ (forall (S : Type) (fn : PageFn S) (fuel : nat) (input : ListInput) (s : S)
             (h : list Event),
        (forall output lastPage s0, fst (fn output lastPage s0) = true) ->
        listPages conn op fn fuel input s h = None).
Proof.
  intros Hconn. split.
  - induction n as [|n IH]; intros fuel input h Hfuel;
      (destruct fuel as [|fuel]; [lia|]); cbn [listPages];
      destruct (Hconn h input) as (output & -> & Hlast); rewrite Hlast;
      cbn [countdown Nat.eqb negb orb Nat.pred].
    + eexists _, _. split; [reflexivity|].
      rewrite !callsIn_app. unfold callsIn. simpl. lia.
    + destruct (IH fuel (setNextMarker input (NextMarker output))
                  ((h ++ [EvCall op input (inl output)]) ++ [EvFn output false true]))
        as (input' & h' & Hrun & Hcalls); [lia|].
      exists input', h'. split; [exact Hrun|].
      rewrite Hcalls, !callsIn_app. unfold callsIn. simpl. lia.
  - intros S fn fuel input s h Hfn.
    apply WAFFacts.listPages_may_run_on; assumption.
Qed.

Lemma listPages_has_no_page_limit_witness :
  (exists input' h',
     listIPSetsPages endless countdown 4 {| Limit := None; InNextMarker := None |} 3 []
       = Some (None, input', 0, h')
     /\ callsIn h' = callsIn [] + 4)
  /\ listIPSetsPages endless collect 100 {| Limit := None; InNextMarker := None |} [] []
     = None.
Proof.
  assert (Hendless : forall h input, exists output,
            endless h ListIPSets input = inl output /\ isLastPage output = false).
  { intros h input. eexists. split; reflexivity. }
  split.
  - apply (proj1 (listPages_has_no_page_limit endless ListIPSets Hendless) 3 4).
    lia.
  - apply (proj2 (listPages_has_no_page_limit endless ListIPSets Hendless)
             (list SummaryItem) collect 100).
    reflexivity.
Defined.

End PagerFacts.

(* ================================================================== *)
(** * More on the virtual node reconciler                             *)
(* ================================================================== *)

Module VirtualNodeFacts.
Import SDK AppMesh.

(** What the second part of Read may do to the data. *)
Lemma finishRead_frame (H : Helpers) (meta : AWSClient) (d : ResourceData)
  (resp : option VirtualNodeData) (err : option error) (h : list Event) :
  let res := finishRead meta d resp err h in
  let d' := snd (fst res) in
  IsNewResource d' = IsNewResource d
  /\ prior d' = prior d
  /\ planned d' = planned d
  /\ (Id d' = Id d
      \/ (IsNewResource d = false /\ d' = SetId "" d /\ fst (fst res) = [])).
Proof.
  cbv zeta. unfold finishRead.
  destruct (IsNewResource d) eqn:Hnew; simpl negb; cbv iota.
  - rewrite andb_false_l.
    destruct err as [e|]; [simpl; auto|].
    destruct resp as [vn|]; [|simpl; auto].
    destruct (String.eqb _ VirtualNodeStatusCodeDeleted); [simpl; auto|].
    unfold bind, ListTags. destruct (ListTagsOf _ _ _); simpl; auto.
  - rewrite andb_true_l.
    destruct (ErrCodeEquals err ErrCodeNotFoundException).
    { simpl. repeat split; auto. }
    destruct err as [e|]; [simpl; auto|].
    destruct resp as [vn|]; [|simpl; auto].
    destruct (String.eqb _ VirtualNodeStatusCodeDeleted).
    { simpl. repeat split; auto. }
    unfold bind, ListTags. destruct (ListTagsOf _ _ _); simpl; auto.
Qed.

(** The same for the whole of Read. *)
Lemma resourceVirtualNodeRead_frame (H : Helpers) (meta : AWSClient)
  (attempts : nat) (d : ResourceData) (h : list Event) :
  let res := resourceVirtualNodeRead meta attempts d h in
  let d' := snd (fst res) in
  IsNewResource d' = IsNewResource d
  /\ prior d' = prior d
  /\ planned d' = planned d
  /\ (Id d' = Id d
      \/ (IsNewResource d = false /\ d' = SetId "" d /\ fst (fst res) = [])).
Proof.
  cbv zeta.
  destruct (AppMeshFacts.resourceVirtualNodeRead_shape meta attempts d h)
    as (front & r & -> & _).
  apply finishRead_frame.
Qed.

(** X4.  What Read may do to the tracked data, whatever the service
    answers and whatever the window: it leaves the prior state, the plan
    and the new-resource mark alone; the ID is kept or cleared, and it is
    cleared only for a resource that is not new, with no diagnostic and
    with the attributes left as they were.  So the ID of a new resource,
    and the ID of any resource when Read reports an error, is kept. *)
Theorem read_keeps_or_clears_the_id (H : Helpers) (meta : AWSClient)
  (attempts : nat) (d : ResourceData) (h : list Event) :
  let res := resourceVirtualNodeRead meta attempts d h in
  let d' := snd (fst res) in
  IsNewResource d' = IsNewResource d
  /\ prior d' = prior d
  /\ planned d' = planned d
  /\ (Id d' = Id d
      \/ (IsNewResource d = false /\ d' = SetId "" d /\ fst (fst res) = []))
  /\ (IsNewResource d = true -> Id d' = Id d)
  /\ (HasError (fst (fst res)) = true -> Id d' = Id d).
Proof.
  cbv zeta.
  destruct (resourceVirtualNodeRead_frame H meta attempts d h)
    as (Hnew & Hprior & Hplanned & Hid).
  repeat split; auto.
  - intros Hn. destruct Hid as [Hid | (Hold & _)]; [exact Hid | congruence].
  - intros Herr. destruct Hid as [Hid | (_ & _ & Hnil)]; [exact Hid|].
    rewrite Hnil in Herr. discriminate.
Qed.

Lemma read_keeps_or_clears_the_id_witness :
  Id (snd (fst (resourceVirtualNodeRead
                  (sampleClient (serviceWithout (sampleNode "ACTIVE"))) 3
                  (sampleData true) [])))
  = "0a1b2c3d".
Proof.
  refine (proj1 (proj2 (proj2 (proj2 (proj2
            (read_keeps_or_clears_the_id plainHelpers
               (sampleClient (serviceWithout (sampleNode "ACTIVE"))) 3
               (sampleData true) []))))) _).
  reflexivity.
Defined.

(** The answer on which Read works: a describe answer other than
    not-found is the answer of the final describe call, after polls that
    were all answered by not-found. *)
Lemma read_final_answer (H : Helpers) (meta : AWSClient) (attempts : nat)
  (d : ResourceData) (h new : list Event)
  (r : option VirtualNodeData + AwsError) :
  snd (resourceVirtualNodeRead meta attempts d h) = h ++ new ->
  In (EvDescribeVirtualNode (describeRequest d) r) new ->
  isNotFoundReply r = false ->
  exists polls fin,
    Forall (fun e => Code e = ErrCodeNotFoundException) polls
    /\ new = pollEvents (describeRequest d) polls
               ++ [EvDescribeVirtualNode (describeRequest d) r] ++ fin
    /\ resourceVirtualNodeRead meta attempts d h
       = finishRead meta d (fst (describeResult r)) (snd (describeResult r))
           (h ++ pollEvents (describeRequest d) polls
              ++ [EvDescribeVirtualNode (describeRequest d) r]).
Proof.
  intros Hh Hin Hr.
  destruct (AppMeshFacts.resourceVirtualNodeRead_shape meta attempts d h)
    as (front & r0 & Hrun & _ & Hall & _).
  set (req := describeRequest d) in *.
  destruct (AppMeshFacts.finishRead_events meta d (fst (describeResult r0))
              (snd (describeResult r0))
              (h ++ pollEvents req front ++ [EvDescribeVirtualNode req r0]))
    as (fin & Hfin & _ & Hfinall).
  rewrite Hrun, Hfin in Hh. rewrite <- !app_assoc in Hh.
  apply app_inv_head in Hh. subst new.
  assert (r0 = r) as ->.
  { apply in_app_or in Hin as [Hin | Hin].
    - unfold pollEvents in Hin. apply in_map_iff in Hin as (e & He & Hine).
      injection He as <-. rewrite Forall_forall in Hall.
      apply list_elem_of_In, Hall in Hine. simpl in Hr.
      apply String.eqb_neq in Hr. congruence.
    - apply in_app_or in Hin as [[Hin | []] | Hin]; [congruence|].
      rewrite Forall_forall in Hfinall.
      apply list_elem_of_In, Hfinall in Hin as [_ Hin]. discriminate. }
  exists front, fin. auto.
Qed.

(** Read on a node that the service shows and that is not deleted: one
    tag listing, then the attributes. *)
Lemma finishRead_live (H : Helpers) (meta : AWSClient) (d : ResourceData)
  (vn : VirtualNodeData) (h : list Event) :
  isDeletedReply (inl (Some vn)) = false ->
  let arn_ := StringValue (Arn (Metadata vn)) in
  let seen :=
    {| name := StringValue (VnVirtualNodeName vn);
       mesh_name := StringValue (VnMeshName vn);
       mesh_owner := StringValue (MetaMeshOwner (Metadata vn));
       spec := flattenVirtualNodeSpec (Spec vn);
       arn := arn_;
       created_date := FormatRFC3339 (CreatedAt (Metadata vn));
       last_updated_date := FormatRFC3339 (LastUpdatedAt (Metadata vn));
       resource_owner := StringValue (ResourceOwner (Metadata vn));
       tags := tags (current d);
       tags_all := tags_all (current d) |} in
  let r := ListTagsOf (AppMeshConn meta) h arn_ in
  finishRead meta d (Some vn) None h
    = (match r with
       | inl t =>
           let t' := IgnoreConfigTags (IgnoreTagsConfig meta) (IgnoreAWS t) in
           ([], withCurrent (fun _ => Set_tags_all t'
                  (Set_tags (RemoveDefaultConfig (DefaultTagsConfig meta) t') seen)) d)
       | inr e =>
           ([ {| Summary := "listing tags for App Mesh virtual node (" +:+ arn_
                   +:+ "): " +:+ Error (awserr e) |} ],
            withCurrent (fun _ => seen) d)
       end,
       h ++ [EvListTags arn_ r]).
Proof.
  intros Hlive. cbv zeta. unfold finishRead. simpl in Hlive.
  simpl ErrCodeEquals. rewrite andb_false_r. rewrite Hlive.
  unfold bind, ListTags. destruct (ListTagsOf _ _ _); reflexivity.
Qed.

(** X5.  Read of a node that the service shows with any status other than
    "DELETED" (also no status at all): after the polls, all answered by
    not-found, and the describe call that showed the node, Read lists the
    tags once, under the node's ARN.  When the listing succeeds, Read
    returns no diagnostic and every attribute is what the node shows, the
    tags filtered by the ignore rules and [tags] without the default
    tags.  When the listing fails, Read returns one diagnostic, yet the
    attributes other than the two tag maps have already been replaced.
    The ID is kept in both cases. *)
Theorem read_refreshes_from_a_live_node (H : Helpers) (meta : AWSClient)
  (attempts : nat) (d : ResourceData) (h new : list Event) (vn : VirtualNodeData) :
  snd (resourceVirtualNodeRead meta attempts d h) = h ++ new ->
  In (EvDescribeVirtualNode (describeRequest d) (inl (Some vn))) new ->
  isDeletedReply (inl (Some vn)) = false ->
  let arn_ := StringValue (Arn (Metadata vn)) in
  let seen :=
    {| name := StringValue (VnVirtualNodeName vn);
       mesh_name := StringValue (VnMeshName vn);
       mesh_owner := StringValue (MetaMeshOwner (Metadata vn));
       spec := flattenVirtualNodeSpec (Spec vn);
       arn := arn_;
       created_date := FormatRFC3339 (CreatedAt (Metadata vn));
       last_updated_date := FormatRFC3339 (LastUpdatedAt (Metadata vn));
       resource_owner := StringValue (ResourceOwner (Metadata vn));
       tags := tags (current d);
       tags_all := tags_all (current d) |} in
  exists polls r,
    new = pollEvents (describeRequest d) polls
            ++ [EvDescribeVirtualNode (describeRequest d) (inl (Some vn));
                EvListTags arn_ r]
    /\ Forall (fun e => Code e = ErrCodeNotFoundException) polls
    /\ fst (resourceVirtualNodeRead meta attempts d h)
       = match r with
         | inl t =>
             let t' := IgnoreConfigTags (IgnoreTagsConfig meta) (IgnoreAWS t) in
             ([], {| Id := Id d; IsNewResource := IsNewResource d;
                     prior := prior d; planned := planned d;
                     current := Set_tags_all t'
                       (Set_tags (RemoveDefaultConfig (DefaultTagsConfig meta) t') seen) |})
         | inr e =>
             ([ {| Summary := "listing tags for App Mesh virtual node (" +:+ arn_
                     +:+ "): " +:+ Error (awserr e) |} ],
              {| Id := Id d; IsNewResource := IsNewResource d;
                 prior := prior d; planned := planned d; current := seen |})
         end.
Proof.
  intros Hh Hin Hlive. cbv zeta.
  destruct (read_final_answer H meta attempts d h new (inl (Some vn)) Hh Hin eq_refl)
    as (polls & fin & Hall & _ & Hrun).
  cbn [describeResult fst snd] in Hrun.
  rewrite (finishRead_live H meta d vn _ Hlive) in Hrun. cbv zeta in Hrun.
  rewrite Hrun in Hh |- *. cbn [snd fst] in Hh |- *.
  rewrite <- !app_assoc in Hh. apply app_inv_head in Hh. subst new.
  eexists polls, _. split; [reflexivity|]. split; [exact Hall|].
  destruct (ListTagsOf _ _ _); reflexivity.
Qed.

Lemma read_refreshes_from_a_live_node_witness :
  let meta := sampleClient (serviceWith (sampleNode "INACTIVE")) in
  let d := sampleData false in
  exists polls r,
    [EvDescribeVirtualNode (describeRequest d) (inl (Some (sampleNode "INACTIVE")));
     EvListTags "arn:aws:appmesh:eu-west-1:123456789012:mesh/meshA/virtualNode/nodeB"
       (inl ∅)]
    = pollEvents (describeRequest d) polls
        ++ [EvDescribeVirtualNode (describeRequest d) (inl (Some (sampleNode "INACTIVE")));
            EvListTags "arn:aws:appmesh:eu-west-1:123456789012:mesh/meshA/virtualNode/nodeB" r]
    /\ Forall (fun e => Code e = ErrCodeNotFoundException) polls
    /\ fst (resourceVirtualNodeRead meta 3 d [])
       = match r with
         | inl t =>
             ([], {| Id := "0a1b2c3d"; IsNewResource := false;
                     prior := prior d; planned := planned d;
                     current :=
                       {| name := "nodeB"; mesh_name := "meshA";
                          mesh_owner := "123456789012"; spec := (["listener"] : @SpecConfig plainHelpers);
                          arn := "arn:aws:appmesh:eu-west-1:123456789012:mesh/meshA/virtualNode/nodeB";
                          created_date := "2023-01-01T00:00:00Z";
                          last_updated_date := "2023-01-02T00:00:00Z";
                          resource_owner := "123456789012";
                          tags := RemoveDefaultConfig (DefaultTagsConfig meta) t;
                          tags_all := t |} |})
         | inr e =>
             ([ {| Summary := "listing tags for App Mesh virtual node ("
                     +:+ "arn:aws:appmesh:eu-west-1:123456789012:mesh/meshA/virtualNode/nodeB"
                     +:+ "): " +:+ Error (awserr e) |} ],
              {| Id := "0a1b2c3d"; IsNewResource := false;
                 prior := prior d; planned := planned d;
                 current :=
                   {| name := "nodeB"; mesh_name := "meshA";
                      mesh_owner := "123456789012"; spec := (["listener"] : @SpecConfig plainHelpers);
                      arn := "arn:aws:appmesh:eu-west-1:123456789012:mesh/meshA/virtualNode/nodeB";
                      created_date := "2023-01-01T00:00:00Z";
                      last_updated_date := "2023-01-02T00:00:00Z";
                      resource_owner := "123456789012";
                      tags := ∅; tags_all := ∅ |} |})
         end.
Proof.
  apply (read_refreshes_from_a_live_node plainHelpers
           (sampleClient (serviceWith (sampleNode "INACTIVE"))) 3 (sampleData false) []
           [EvDescribeVirtualNode (describeRequest (sampleData false))
              (inl (Some (sampleNode "INACTIVE")));
            EvListTags "arn:aws:appmesh:eu-west-1:123456789012:mesh/meshA/virtualNode/nodeB"
              (inl ∅)]
           (sampleNode "INACTIVE")).
  - reflexivity.
  - simpl. left. reflexivity.
  - reflexivity.
Defined.

(** X6.  Read on an answer that carries no node and is not a not-found
    error, that is, another error or a response without a virtual node:
    that answer ended the describe calls, Read makes no further call,
    returns one diagnostic that names the error or the empty response, and
    leaves the tracked data, the ID included, as it was.  This holds for a
    new resource and for one that is not new. *)
Theorem read_reports_an_unusable_answer (H : Helpers) (meta : AWSClient)
  (attempts : nat) (d : ResourceData) (h new : list Event)
  (r : option VirtualNodeData + AwsError) :
  snd (resourceVirtualNodeRead meta attempts d h) = h ++ new ->
  In (EvDescribeVirtualNode (describeRequest d) r) new ->
  isNotFoundReply r = false ->
  fst (describeResult r) = None ->
  (exists polls,
     new = pollEvents (describeRequest d) polls
             ++ [EvDescribeVirtualNode (describeRequest d) r]
     /\ Forall (fun e => Code e = ErrCodeNotFoundException) polls)
  /\ fst (resourceVirtualNodeRead meta attempts d h)
     = ([ {| Summary := "reading App Mesh Virtual Node: "
               +:+ match r with
                   | inr e => Error (awserr e)
                   | inl _ => "empty response"
                   end |} ], d).
Proof.
  intros Hh Hin Hnf Hnone.
  destruct (read_final_answer H meta attempts d h new r Hh Hin Hnf)
    as (polls & fin & Hall & _ & Hrun).
  assert (finishRead meta d (fst (describeResult r)) (snd (describeResult r))
            (h ++ pollEvents (describeRequest d) polls
               ++ [EvDescribeVirtualNode (describeRequest d) r])
          = (([ {| Summary := "reading App Mesh Virtual Node: "
                     +:+ match r with
                         | inr e => Error (awserr e)
                         | inl _ => "empty response"
                         end |} ], d),
             h ++ pollEvents (describeRequest d) polls
               ++ [EvDescribeVirtualNode (describeRequest d) r])) as Hfin.
  { destruct r as [[vn|]|e]; [discriminate| |].
    - unfold finishRead. simpl. rewrite andb_false_r. reflexivity.
    - apply AppMeshFacts.finishRead_error. right. exact Hnf. }
  rewrite Hfin in Hrun. rewrite Hrun in Hh |- *. cbn [fst snd] in Hh |- *.
  apply app_inv_head in Hh. subst new.
  split; [|reflexivity]. exists polls. auto.
Qed.

Lemma read_reports_an_unusable_answer_witness :
  let meta := sampleClient (serviceEmpty (sampleNode "ACTIVE")) in
  let d := sampleData true in
  (exists polls,
     [EvDescribeVirtualNode (H := plainHelpers) (describeRequest d) (inl None)]
     = pollEvents (describeRequest d) polls
         ++ [EvDescribeVirtualNode (describeRequest d) (inl None)]
     /\ Forall (fun e => Code e = ErrCodeNotFoundException) polls)
  /\ fst (resourceVirtualNodeRead meta 3 d [])
     = ([ {| Summary := "reading App Mesh Virtual Node: empty response" |} ], d).
Proof.
  apply (read_reports_an_unusable_answer plainHelpers
           (sampleClient (serviceEmpty (sampleNode "ACTIVE"))) 3 (sampleData true) []
           [EvDescribeVirtualNode (describeRequest (sampleData true)) (inl None)]
           (inl None)).
  - reflexivity.
  - simpl. left. reflexivity.
  - reflexivity.
  - reflexivity.
Defined.

(** Create, by the answer to its one create call. *)
Lemma resourceVirtualNodeCreate_run (H : Helpers) (meta : AWSClient)
  (attempts : nat) (d : ResourceData) (h : list Event) :
  resourceVirtualNodeCreate meta attempts d h
  = match CreateVirtualNodeWithContext (AppMeshConn meta) h (createRequest meta d) with
    | inr e =>
        (([ {| Summary := "creating App Mesh virtual node: " +:+ Error (awserr e) |} ], d),
         h ++ [EvCreateVirtualNode (createRequest meta d) (inr e)])
    | inl vn =>
        resourceVirtualNodeRead meta attempts (SetId (StringValue (Uid (Metadata vn))) d)
          (h ++ [EvCreateVirtualNode (createRequest meta d) (inl vn)])
    end.
Proof.
  unfold resourceVirtualNodeCreate, createRequest, bind, createVirtualNode, ret.
  cbv zeta.
  destruct (CreateVirtualNodeWithContext _ _ _) as [vn|e]; [|reflexivity].
  destruct (resourceVirtualNodeRead _ _ _ _) as [[rdiags d'] h']. reflexivity.
Qed.

(** X7.  Create of a new resource.  When the create call fails, nothing
    else is called, the data is left as it was (no ID is set) and one
    diagnostic is returned.  When it succeeds, the ID becomes the unique
    identifier of the answer, Create then is Read on that data, and
    whatever Read finds or reports, the ID stays set and no further
    mutating call is made. *)
Theorem create_sets_the_id_once_created (H : Helpers) (meta : AWSClient)
  (attempts : nat) (d : ResourceData) (h : list Event) :
  IsNewResource d = true ->
  let req := createRequest meta d in
  let res := resourceVirtualNodeCreate meta attempts d h in
  match CreateVirtualNodeWithContext (AppMeshConn meta) h req with
  | inr e =>
      res = (([ {| Summary := "creating App Mesh virtual node: "
                     +:+ Error (awserr e) |} ], d),
             h ++ [EvCreateVirtualNode req (inr e)])
  | inl vn =>
      res = resourceVirtualNodeRead meta attempts
              (SetId (StringValue (Uid (Metadata vn))) d)
              (h ++ [EvCreateVirtualNode req (inl vn)])
      /\ Id (snd (fst res)) = StringValue (Uid (Metadata vn))
      /\ exists reads,
           snd res = h ++ EvCreateVirtualNode req (inl vn) :: reads
           /\ Forall (fun e => mutating e = false) reads
  end.
Proof.
  intros Hnew. cbv zeta. rewrite resourceVirtualNodeCreate_run.
  destruct (CreateVirtualNodeWithContext _ _ _) as [vn|e]; [|reflexivity].
  split; [reflexivity|]. split.
  - destruct (resourceVirtualNodeRead_frame H meta attempts
                (SetId (StringValue (Uid (Metadata vn))) d)
                (h ++ [EvCreateVirtualNode (createRequest meta d) (inl vn)]))
      as (_ & _ & _ & [Hid | (Hold & _)]).
    + exact Hid.
    + simpl in Hold. congruence.
  - destruct (AppMeshFacts.resourceVirtualNodeRead_events meta attempts
                (SetId (StringValue (Uid (Metadata vn))) d)
                (h ++ [EvCreateVirtualNode (createRequest meta d) (inl vn)]))
      as (reads & Hh & _ & _ & Hall).
    exists reads. rewrite Hh, <- app_assoc. split; [reflexivity | exact Hall].
Qed.

Lemma create_sets_the_id_once_created_witness :
  let meta := sampleClient (serviceWithout (sampleNode "ACTIVE")) in
  let d := SetId "" (sampleData true) in
  let res := resourceVirtualNodeCreate meta 3 d [] in
  res = resourceVirtualNodeRead meta 3 (SetId "0a1b2c3d" d)
          [EvCreateVirtualNode (createRequest meta d) (inl (sampleNode "ACTIVE"))]
  /\ Id (snd (fst res)) = "0a1b2c3d"
  /\ exists reads,
       snd res = [] ++ EvCreateVirtualNode (createRequest meta d)
                         (inl (sampleNode "ACTIVE")) :: reads
       /\ Forall (fun e => mutating e = false) reads.
Proof.
  apply (create_sets_the_id_once_created plainHelpers
           (sampleClient (serviceWithout (sampleNode "ACTIVE"))) 3
           (SetId "" (sampleData true)) []).
  reflexivity.
Defined.

(** X8.  Update stops at the first call that fails.  When the
    [spec] update or the tag update is answered by an error, that call is
    the last one of the operation: nothing is read back, the tracked data
    is left as it was, and the one diagnostic names the failed call, the
    [spec] failure by the resource ID and the tag failure by the ARN.  A
    failed [spec] update keeps the tag update from being sent. *)
Theorem update_stops_at_the_first_failure (H : Helpers) (meta : AWSClient)
  (attempts : nat) (d : ResourceData) (h : list Event) :
  existsb failed (updateCalls meta d h) = true ->
  exists pre c,
    updateCalls meta d h = pre ++ [c]
    /\ Forall (fun e => failed e = false) pre
    /\ failed c = true
    /\ (isUpdateTags c = true -> HasChange spec d = true -> pre <> [])
    /\ resourceVirtualNodeUpdate meta attempts d h
       = (([ {| Summary :=
                  match c with
                  | EvUpdateVirtualNode _ (inr e) =>
                      "updating App Mesh virtual node (" +:+ Id d +:+ "): "
                        +:+ Error (awserr e)
                  | EvUpdateTags arn_ _ _ (Some e) =>
                      "updating App Mesh virtual node (" +:+ arn_ +:+ ") tags: "
                        +:+ Error (awserr e)
                  | _ => ""
                  end |} ], d),
          h ++ updateCalls meta d h).
Proof.
  unfold resourceVirtualNodeUpdate, updateCalls, bind, updateVirtualNode,
    UpdateTags, ret. cbv zeta.
  destruct (HasChange spec d) eqn:Hspec.
  - destruct (UpdateVirtualNodeWithContext _ _ _) as [vn|e] eqn:Hup.
    + cbn [andb negb]. destruct (HasChange tags_all d) eqn:Htags.
      * destruct (UpdateTagsOf _ _ _ _ _) as [e|] eqn:Htag; [|discriminate].
        intros _. eexists [_], _. split; [reflexivity|].
        split; [repeat constructor|]. split; [reflexivity|].
        split; [discriminate|]. cbn [asError option_map].
        rewrite <- app_assoc. reflexivity.
      * discriminate.
    + cbn [andb negb]. intros _. exists [], (EvUpdateVirtualNode
        {| UpMeshName := Some (mesh_name (current d));
           UpMeshOwner := GetOk (mesh_owner (current d));
           UpSpec := expandVirtualNodeSpec (spec (planned d));
           UpVirtualNodeName := Some (name (current d)) |} (inr e)).
      split; [reflexivity|]. split; [constructor|]. split; [reflexivity|].
      split; [discriminate|]. reflexivity.
  - cbn [andb negb]. destruct (HasChange tags_all d) eqn:Htags; [|discriminate].
    rewrite app_nil_r.
    destruct (UpdateTagsOf _ _ _ _ _) as [e|] eqn:Htag; [|discriminate].
    intros _. eexists [], _. split; [reflexivity|].
    split; [constructor|]. split; [reflexivity|].
    split; [discriminate|]. reflexivity.
Qed.

Lemma update_stops_at_the_first_failure_witness :
  let meta := sampleClient (serviceWithout (sampleNode "ACTIVE")) in
  let d := forUpdate "0a1b2c3d" (sampleAttrs ["listener"] ∅ ∅)
             (sampleAttrs ["listener"; "backend"] ∅ {[ "team" := "net" ]}) in
  exists pre c,
    updateCalls meta d [] = pre ++ [c]
    /\ Forall (fun e => failed e = false) pre
    /\ failed c = true
    /\ (isUpdateTags c = true -> HasChange spec d = true -> pre <> [])
    /\ resourceVirtualNodeUpdate meta 3 d []
       = (([ {| Summary :=
                  match c with
                  | EvUpdateVirtualNode _ (inr e) =>
                      "updating App Mesh virtual node (" +:+ Id d +:+ "): "
                        +:+ Error (awserr e)
                  | EvUpdateTags arn_ _ _ (Some e) =>
                      "updating App Mesh virtual node (" +:+ arn_ +:+ ") tags: "
                        +:+ Error (awserr e)
                  | _ => ""
                  end |} ], d),
          [] ++ updateCalls meta d []).
Proof.
  apply (update_stops_at_the_first_failure plainHelpers
           (sampleClient (serviceWithout (sampleNode "ACTIVE"))) 3
           (forUpdate "0a1b2c3d" (sampleAttrs ["listener"] ∅ ∅)
              (sampleAttrs ["listener"; "backend"] ∅ {[ "team" := "net" ]})) []).
  vm_compute. reflexivity.
Defined.

(** X9.  Update ends with a Read.  When none of its calls fails (also
    when nothing changed and it makes none), Update is Read run after
    those calls, on the same data.  So an update whose read-back finds the
    node gone, by a not-found answer or a "DELETED" status, returns no
    diagnostic and clears the ID, although the update itself went
    through. *)
Theorem update_ends_with_a_read (H : Helpers) (meta : AWSClient)
  (attempts : nat) (d : ResourceData) (h : list Event) :
  existsb failed (updateCalls meta d h) = false ->
  let h1 := h ++ updateCalls meta d h in
  let r := DescribeVirtualNodeWithContext (AppMeshConn meta) h1 (describeRequest d) in
  resourceVirtualNodeUpdate meta attempts d h = resourceVirtualNodeRead meta attempts d h1
  /\ (IsNewResource d = false ->
      isNotFoundReply r || isDeletedReply r = true ->
      resourceVirtualNodeUpdate meta attempts d h
      = (([], SetId "" d), h1 ++ [EvDescribeVirtualNode (describeRequest d) r])).
Proof.
  intros Hok. cbv zeta.
  assert (resourceVirtualNodeUpdate meta attempts d h
          = resourceVirtualNodeRead meta attempts d (h ++ updateCalls meta d h)) as Hrun.
  { revert Hok.
    unfold resourceVirtualNodeUpdate, updateCalls, bind, updateVirtualNode,
      UpdateTags, ret. cbv zeta.
    destruct (HasChange spec d) eqn:Hspec.
    - destruct (UpdateVirtualNodeWithContext _ _ _) as [vn|e] eqn:Hup;
        cbn [andb negb]; [|discriminate].
      destruct (HasChange tags_all d) eqn:Htags.
      + destruct (UpdateTagsOf _ _ _ _ _) as [e|] eqn:Htag; [discriminate|].
        intros _. cbn [asError option_map]. rewrite <- app_assoc.
        destruct (resourceVirtualNodeRead _ _ _ _) as [[rdiags d'] h']. reflexivity.
      + intros _. rewrite app_nil_r.
        destruct (resourceVirtualNodeRead _ _ _ _) as [[rdiags d'] h']. reflexivity.
    - cbn [andb negb]. destruct (HasChange tags_all d) eqn:Htags.
      + rewrite app_nil_r.
        destruct (UpdateTagsOf _ _ _ _ _) as [e|] eqn:Htag; [discriminate|].
        intros _. cbn [asError option_map].
        destruct (resourceVirtualNodeRead _ _ _ _) as [[rdiags d'] h']. reflexivity.
      + intros _. cbn [app]. rewrite app_nil_r.
        destruct (resourceVirtualNodeRead _ _ _ _) as [[rdiags d'] h']. reflexivity. }
  split; [exact Hrun|].
  intros Hold Hgone. rewrite Hrun.
  apply AppMeshFacts.resourceVirtualNodeRead_absent; assumption.
Qed.

Lemma update_ends_with_a_read_witness :
  let meta := sampleClient (serviceWith (sampleNode "DELETED")) in
  let d := forUpdate "0a1b2c3d" (sampleAttrs ["listener"] ∅ ∅)
             (sampleAttrs ["listener"; "backend"] ∅ ∅) in
  let h1 := [] ++ updateCalls meta d [] in
  resourceVirtualNodeUpdate meta 3 d []
  = (([], SetId "" d),
     h1 ++ [EvDescribeVirtualNode (describeRequest d) (inl (Some (sampleNode "DELETED")))]).
Proof.
  refine (proj2 (update_ends_with_a_read plainHelpers
            (sampleClient (serviceWith (sampleNode "DELETED"))) 3
            (forUpdate "0a1b2c3d" (sampleAttrs ["listener"] ∅ ∅)
               (sampleAttrs ["listener"; "backend"] ∅ ∅)) [] _) _ _).
  - vm_compute. reflexivity.
  - reflexivity.
  - vm_compute. reflexivity.
Defined.

(** A reference with one separator splits in the two pieces around it. *)
Lemma Split_one_separator (s : string) (sep : ascii) :
  Count s sep = 1 ->
  exists a b,
    Split s sep = [a; b]
    /\ s = a +:+ String sep EmptyString +:+ b
    /\ Count a sep = 0 /\ Count b sep = 0.
Proof.
  intros Hone.
  pose proof (SDKFacts.Split_length s sep) as Hlen.
  pose proof (SDKFacts.Join_Split s sep) as Hjoin.
  pose proof (SDKFacts.Split_pieces s sep) as Hpieces.
  rewrite Hone in Hlen.
  destruct (Split s sep) as [|a [|b [|c rest]]]; try discriminate.
  exists a, b. split; [reflexivity|]. split; [symmetry; exact Hjoin|].
  apply Forall_cons in Hpieces as [Ha Hb].
  apply Forall_cons in Hb as [Hb _]. auto.
Qed.

(** X10.  Import accepts exactly the references that contain one "/".
    Any other number of separators is refused before any remote call.
    With one separator the two pieces around it, either of which may be
    empty, key one describe call that names no mesh owner; an error of
    that call is returned as it is, a response without a node makes the
    function dereference nil, and a node gives one resource whose ID is
    the node's unique identifier and whose [name] and [mesh_name] are the
    node's, the other attributes being left for Read. *)
Theorem import_accepts_one_separator (H : Helpers) (meta : AWSClient)
  (d : ResourceData) (h : list Event) :
  (Count (Id d) "/" <> 1 ->
   resourceVirtualNodeImport meta d h
   = (Returned [] (Some (errorString ("wrong format of import ID (" +:+ Id d
        +:+ "), use: 'mesh-name/virtual-node-name'"))), h))
  /\ (Count (Id d) "/" = 1 ->
      exists mesh node,
        Id d = mesh +:+ "/" +:+ node
        /\ Count mesh "/" = 0 /\ Count node "/" = 0
        /\ let req := {| DeMeshName := Some mesh; DeVirtualNodeName := Some node;
                         DeMeshOwner := None |} in
           let r := DescribeVirtualNodeWithContext (AppMeshConn meta) h req in
           resourceVirtualNodeImport meta d h
           = (match r with
              | inr e => Returned [] (Some (awserr e))
              | inl None => NilDereference
              | inl (Some vn) =>
                  Returned
                    [ {| Id := StringValue (Uid (Metadata vn));
                         IsNewResource := IsNewResource d;
                         prior := prior d; planned := planned d;
                         current := Set_mesh_name (StringValue (VnMeshName vn))
                                      (Set_name (StringValue (VnVirtualNodeName vn))
                                         (current d)) |} ] None
              end,
              h ++ [EvDescribeVirtualNode req r])).
Proof.
  split.
  - intros Hcount. apply AppMeshFacts.resourceVirtualNodeImport_malformed.
    rewrite SDKFacts.Split_length. lia.
  - intros Hcount.
    destruct (Split_one_separator (Id d) "/" Hcount) as (mesh & node & Hsplit & Hid & Hm & Hn).
    exists mesh, node. split; [exact Hid|]. split; [exact Hm|]. split; [exact Hn|].
    cbv zeta.
    destruct (AppMeshFacts.resourceVirtualNodeImport_two meta d h mesh node Hsplit)
      as [Hsnd Hfst].
    cbv zeta in Hsnd, Hfst.
    rewrite (surjective_pairing (resourceVirtualNodeImport meta d h)), Hsnd, Hfst.
    destruct (DescribeVirtualNodeWithContext _ _ _) as [[vn|]|e]; reflexivity.
Qed.

Lemma import_accepts_one_separator_witness :
  let meta := sampleClient (serviceWith (sampleNode "ACTIVE")) in
  (resourceVirtualNodeImport meta (SetId "meshA//nodeB" (sampleData false)) []
   = (Returned [] (Some (errorString
        "wrong format of import ID (meshA//nodeB), use: 'mesh-name/virtual-node-name'")),
      []))
  /\ (exists mesh node,
        Id (SetId "meshA/" (sampleData false)) = mesh +:+ "/" +:+ node
        /\ Count mesh "/" = 0 /\ Count node "/" = 0
        /\ let req := {| DeMeshName := Some mesh; DeVirtualNodeName := Some node;
                         DeMeshOwner := None |} in
           let r := DescribeVirtualNodeWithContext (AppMeshConn meta) [] req in
           resourceVirtualNodeImport meta (SetId "meshA/" (sampleData false)) []
           = (match r with
              | inr e => Returned [] (Some (awserr e))
              | inl None => NilDereference
              | inl (Some vn) =>
                  Returned
                    [ {| Id := StringValue (Uid (Metadata vn));
                         IsNewResource := false;
                         prior := prior (sampleData false);
                         planned := planned (sampleData false);
                         current := Set_mesh_name (StringValue (VnMeshName vn))
                                      (Set_name (StringValue (VnVirtualNodeName vn))
                                         (current (sampleData false))) |} ] None
              end,
              [] ++ [EvDescribeVirtualNode req r])).
Proof.
  split.
  - apply (proj1 (import_accepts_one_separator plainHelpers
             (sampleClient (serviceWith (sampleNode "ACTIVE")))
             (SetId "meshA//nodeB" (sampleData false)) [])).
    simpl. discriminate.
  - apply (proj2 (import_accepts_one_separator plainHelpers
             (sampleClient (serviceWith (sampleNode "ACTIVE")))
             (SetId "meshA/" (sampleData false)) [])).
    reflexivity.
Defined.

End VirtualNodeFacts.

(* ================================================================== *)
(** * More on the access reconciler                                   *)
(* ================================================================== *)

Module AccessFacts.
Import SDK Transfer.

Lemma setAccessAttributes_frame (H : Helpers) (serverID : string)
  (access : DescribedAccess) (d : ResourceData) :
  let d' := fst (setAccessAttributes serverID access d) in
  Id d' = Id d /\ IsNewResource d' = IsNewResource d
  /\ prior d' = prior d /\ planned d' = planned d.
Proof.
  cbv zeta. unfold setAccessAttributes.
  destruct (PolicyToSet _ _); simpl; auto.
Qed.

(** Read, by the parsed ID and the answer to its one describe call. *)
Lemma resourceAccessRead_run (H : Helpers) (conn : Conn) (d : ResourceData)
  (h : list Event) (serverID externalID : string) :
  AccessParseResourceID (Id d) = inl (serverID, externalID) ->
  let r := DescribeAccessWithContext conn h serverID externalID in
  resourceAccessRead conn d h
  = (if negb (IsNewResource d) && isNotFoundReply r then ([], SetId "" d)
     else match findResult r with
          | inr e =>
              ([ {| Summary := "reading Transfer Access (" +:+ Id d +:+ "): "
                      +:+ Error e |} ], d)
          | inl access =>
              match setAccessAttributes serverID access d with
              | (d', Some e) =>
                  ([ {| Summary := "reading Transfer Access (" +:+ Id d +:+ "): "
                          +:+ Error e |} ], d')
              | (d', None) => ([], d')
              end
          end,
     h ++ [EvDescribeAccess serverID externalID r]).
Proof.
  intros Hid. cbv zeta. unfold resourceAccessRead. rewrite Hid.
  unfold bind, FindAccessByServerIDAndExternalID, ret. cbv zeta.
  rewrite TransferFacts.NotFound_findResult.
  destruct (negb (IsNewResource d) && isNotFoundReply _); [reflexivity|].
  destruct (findResult _) as [access|e]; [|reflexivity].
  pose proof (setAccessAttributes_frame H serverID access d) as (Hkeep & _).
  destruct (setAccessAttributes _ _ _) as [d' [e|]]; [|reflexivity].
  simpl in Hkeep. rewrite Hkeep. reflexivity.
Qed.

Lemma resourceAccessRead_frame (H : Helpers) (conn : Conn) (d : ResourceData)
  (h : list Event) :
  let res := resourceAccessRead conn d h in
  let d' := snd (fst res) in
  IsNewResource d' = IsNewResource d
  /\ prior d' = prior d
  /\ planned d' = planned d
  /\ (Id d' = Id d
      \/ (IsNewResource d = false /\ d' = SetId "" d /\ fst (fst res) = [])).
Proof.
  cbv zeta.
  destruct (AccessParseResourceID (Id d)) as [[serverID externalID]|e] eqn:Hid.
  - rewrite (resourceAccessRead_run H conn d h serverID externalID Hid). cbv zeta.
    destruct (IsNewResource d) eqn:Hnew; cbn [negb andb].
    + destruct (findResult _) as [access|e]; [|simpl; auto].
      pose proof (setAccessAttributes_frame H serverID access d) as Hf.
      cbv zeta in Hf. destruct (setAccessAttributes _ _ _) as [d' [e|]];
        simpl in *; rewrite <- Hnew; tauto.
    + destruct (isNotFoundReply _); [simpl; repeat split; auto|].
      destruct (findResult _) as [access|e]; [|simpl; auto].
      pose proof (setAccessAttributes_frame H serverID access d) as Hf.
      cbv zeta in Hf. destruct (setAccessAttributes _ _ _) as [d' [e|]];
        simpl in *; rewrite <- Hnew; tauto.
  - rewrite (TransferFacts.resourceAccessRead_malformed conn d h e Hid). simpl. auto.
Qed.

(** X11.  What Read of an access may do to the tracked data, whatever
    the ID and whatever the service answers: the prior state, the plan and
    the new-resource mark are left alone; the ID is kept or cleared, and
    it is cleared only for a resource that is not new, with no diagnostic
    and with the attributes as they were.  The ID of a new resource, and
    the ID of any resource when Read reports an error, is kept. *)
Theorem access_read_keeps_or_clears_the_id (H : Helpers) (conn : Conn)
  (d : ResourceData) (h : list Event) :
  let res := resourceAccessRead conn d h in
  let d' := snd (fst res) in
  IsNewResource d' = IsNewResource d
  /\ prior d' = prior d
  /\ planned d' = planned d
  /\ (Id d' = Id d
      \/ (IsNewResource d = false /\ d' = SetId "" d /\ fst (fst res) = []))
  /\ (IsNewResource d = true -> Id d' = Id d)
  /\ (HasError (fst (fst res)) = true -> Id d' = Id d).
Proof.
  cbv zeta.
  destruct (resourceAccessRead_frame H conn d h) as (Hnew & Hprior & Hplanned & Hid).
  repeat split; auto.
  - intros Hn. destruct Hid as [Hid | (Hold & _)]; [exact Hid | congruence].
  - intros Herr. destruct Hid as [Hid | (_ & _ & Hnil)]; [exact Hid|].
    rewrite Hnil in Herr. discriminate.
Qed.

Lemma access_read_keeps_or_clears_the_id_witness :
  Id (snd (fst (resourceAccessRead (H := specHelpers) serviceWithout
                  (sampleData true) [])))
  = sampleId.
Proof.
  refine (proj1 (proj2 (proj2 (proj2 (proj2
            (access_read_keeps_or_clears_the_id specHelpers serviceWithout
               (sampleData true) []))))) _).
  reflexivity.
Defined.

(** X12.  When Read of an access returns no diagnostic: exactly when the
    ID parses and either the resource is not new and the service answers
    not-found (the resource is then dropped), or the service shows the
    access and the policy to keep can be worked out.  In every other case,
    an ID that does not parse, another error, a new resource that is not
    found, Read returns a diagnostic. *)
Theorem access_read_succeeds_exactly_when (H : Helpers) (conn : Conn)
  (d : ResourceData) (h : list Event) :
  fst (fst (resourceAccessRead conn d h)) = []
  <->
  exists serverID externalID,
    AccessParseResourceID (Id d) = inl (serverID, externalID)
    /\ let r := DescribeAccessWithContext conn h serverID externalID in
       ((IsNewResource d = false /\ isNotFoundReply r = true)
        \/ (exists access p,
              r = inl (Some access)
              /\ PolicyToSet (policy (current d)) (StringValue (Policy access))
                 = inl p)).
Proof.
  destruct (AccessParseResourceID (Id d)) as [[serverID externalID]|e] eqn:Hid.
  - rewrite (resourceAccessRead_run H conn d h serverID externalID Hid). cbv zeta.
    cbn [fst].
    assert (forall access,
              (exists p, PolicyToSet (policy (current d)) (StringValue (Policy access))
                         = inl p)
              <-> snd (setAccessAttributes serverID access d) = None) as Hset.
    { intros access. unfold setAccessAttributes. cbn [withCurrent current policy
        Set_external_id Set_home_directory Set_home_directory_mappings
        Set_home_directory_type Set_posix_profile].
      destruct (PolicyToSet _ _) as [p|e]; simpl; split.
      - reflexivity.
      - intros _. eauto.
      - intros [p Hp]. discriminate.
      - discriminate. }
    split.
    + intros Hnil. exists serverID, externalID. split; [reflexivity|]. cbv zeta.
      destruct (DescribeAccessWithContext conn h serverID externalID)
        as [[access|]|e] eqn:Hr.
      * right. exists access.
        assert (snd (setAccessAttributes serverID access d) = None) as Hok.
        { cbn [isNotFoundReply findResult] in Hnil. rewrite andb_false_r in Hnil.
          destruct (setAccessAttributes _ _ _) as [d' [e|]];
            [discriminate | reflexivity]. }
        apply Hset in Hok as [p Hp]. eauto.
      * left. cbn [isNotFoundReply findResult] in Hnil. rewrite andb_true_r in Hnil.
        destruct (IsNewResource d); [discriminate|]. auto.
      * left. cbn [isNotFoundReply] in *.
        destruct (IsNewResource d); cbn [negb andb] in Hnil.
        -- exfalso. unfold findResult in Hnil.
           destruct (ErrCodeEquals _ _); discriminate.
        -- destruct (String.eqb _ _) eqn:Hcode; [auto|].
           exfalso. unfold findResult in Hnil.
           destruct (ErrCodeEquals _ _); discriminate.
    + intros (sid & eid & Heq & Hcase). injection Heq as <- <-. cbv zeta in Hcase.
      destruct Hcase as [[Hold Hnf] | (access & p & Hr & Hp)].
      * rewrite Hold, Hnf. reflexivity.
      * rewrite Hr. cbn [isNotFoundReply findResult]. rewrite andb_false_r.
        assert (snd (setAccessAttributes serverID access d) = None) as Hok
          by (apply Hset; eauto).
        destruct (setAccessAttributes _ _ _) as [d' [e|]]; [discriminate | reflexivity].
  - rewrite (TransferFacts.resourceAccessRead_malformed conn d h e Hid). split.
    + discriminate.
    + intros (sid & eid & Heq & _). discriminate.
Qed.

Lemma access_read_succeeds_exactly_when_witness :
  fst (fst (resourceAccessRead (H := specHelpers) (serviceWith sampleAccess)
              (sampleData false) [])) = [].
Proof.
  apply (proj2 (access_read_succeeds_exactly_when specHelpers (serviceWith sampleAccess)
                  (sampleData false) [])).
  exists "s-0123456789abcdef0", "S-1-1-12-1234567890-123456789-1234567890-1234".
  split; [reflexivity|]. right. exists sampleAccess, "". split; reflexivity.
Defined.

(** X13.  An ID that does not parse never reaches the service: Read,
    Update and Delete each return the one diagnostic of the parse error,
    make no call and, for Read and Update, leave the tracked data as it
    was, whatever was planned. *)
Theorem malformed_id_never_reaches_the_service (H : Helpers) (conn : Conn)
  (d : ResourceData) (h : list Event) (e : error) :
  AccessParseResourceID (Id d) = inr e ->
  let diags := [ {| Summary := "parsing Transfer Access ID: " +:+ Error e |} ] in
  resourceAccessRead conn d h = ((diags, d), h)
  /\ resourceAccessUpdate conn d h = ((diags, d), h)
  /\ resourceAccessDelete conn d h = (diags, h).
Proof.
  intros Hid. cbv zeta.
  unfold resourceAccessRead, resourceAccessUpdate, resourceAccessDelete.
  rewrite Hid. repeat split; reflexivity.
Qed.

Lemma malformed_id_never_reaches_the_service_witness :
  let d := forUpdate "s-0123456789abcdef0" sampleAttrs
             (Set_home_directory "/home/bob" sampleAttrs) in
  let conn := serviceWith sampleAccess in
  let diags := [ {| Summary := "parsing Transfer Access ID: unexpected format for ID (s-0123456789abcdef0), expected SERVERID/EXTERNALID" |} ] in
  resourceAccessRead (H := specHelpers) conn d [] = ((diags, d), [])
  /\ resourceAccessUpdate (H := specHelpers) conn d [] = ((diags, d), [])
  /\ resourceAccessDelete (H := specHelpers) conn d [] = (diags, []).
Proof.
  apply (malformed_id_never_reaches_the_service specHelpers (serviceWith sampleAccess)
           (forUpdate "s-0123456789abcdef0" sampleAttrs
              (Set_home_directory "/home/bob" sampleAttrs)) []
           (errorString "unexpected format for ID (s-0123456789abcdef0), expected SERVERID/EXTERNALID")).
  reflexivity.
Defined.

(** X14.  Create of a new access.  An invalid policy ends Create before
    any call.  A failed create call ends it with one diagnostic, no ID and
    no read.  After a create call that succeeded the ID is the one made
    from [server_id] and [external_id], Create is Read on that data, and
    the ID stays set whatever Read finds or reports; Read adds at most one
    call, which is not mutating. *)
Theorem access_create_sets_the_id_once_created (H : Helpers) (conn : Conn)
  (d : ResourceData) (h : list Event) :
  IsNewResource d = true ->
  let id := AccessCreateResourceID (server_id (current d)) (external_id (current d)) in
  let res := resourceAccessCreate conn d h in
  match createAccessInput (current d) with
  | inr (v, e) =>
      res = (([ {| Summary := "policy (" +:+ v +:+ ") is invalid JSON: " +:+ Error e |} ],
              d), h)
  | inl input =>
      match CreateAccessWithContext conn h input with
      | Some e =>
          res = (([ {| Summary := "creating Transfer Access (" +:+ id +:+ "): "
                         +:+ Error (awserr e) |} ], d),
                 h ++ [EvCreateAccess input (Some e)])
      | None =>
          res = resourceAccessRead conn (SetId id d) (h ++ [EvCreateAccess input None])
          /\ Id (snd (fst res)) = id
          /\ exists reads,
               snd res = h ++ EvCreateAccess input None :: reads
               /\ length reads <= 1
               /\ Forall (fun e => mutating e = false) reads
      end
  end.
Proof.
  intros Hnew. cbv zeta. unfold resourceAccessCreate. cbv zeta.
  destruct (createAccessInput (current d)) as [input|[v e]]; [|reflexivity].
  unfold bind, createAccess, ret. cbv zeta.
  destruct (CreateAccessWithContext conn h input) as [e|]; [reflexivity|].
  cbn [option_map].
  set (d1 := SetId _ d). set (h1 := h ++ _).
  pose proof (resourceAccessRead_frame H conn d1 h1) as (_ & _ & _ & Hkeep).
  destruct (TransferFacts.resourceAccessRead_events conn d1 h1)
    as (reads & Hh & Hlen & Hall).
  destruct (resourceAccessRead conn d1 h1) as [[rdiags d'] h'].
  cbn [fst snd] in *. split; [reflexivity|]. split.
  - destruct Hkeep as [Hkeep | (Hold & _)]; [exact Hkeep|].
    simpl in Hold. congruence.
  - exists reads. subst h' h1. rewrite <- app_assoc. auto.
Qed.

Lemma access_create_sets_the_id_once_created_witness :
  let res := resourceAccessCreate (H := specHelpers) serviceWithout
               (forCreate sampleAttrs) [] in
  Id (snd (fst res)) = sampleId /\ HasError (fst (fst res)) = true.
Proof.
  split.
  - refine (proj1 (proj2 (access_create_sets_the_id_once_created specHelpers
              serviceWithout (forCreate sampleAttrs) [] _))).
    reflexivity.
  - vm_compute. reflexivity.
Defined.

(** The fields of the request that Update builds. *)
(** Reduce the field that [carries] reads in [Hc]. *)
Ltac fields_in Hc :=
  cbn [carries groupChanged UpHomeDirectory UpHomeDirectoryMappings
       UpHomeDirectoryType UpPolicy UpPosixProfile UpRole] in Hc |- *.

(** A field that is set shows that its group changed. *)
Ltac by_change Hc :=
  match goal with
  | |- ?b = true =>
      destruct b eqn:E; [reflexivity|];
      rewrite ?E in Hc; apply bool_decide_eq_true in Hc; destruct Hc; discriminate
  end.

Lemma updateAccessInput_fields (H : Helpers) (serverID externalID : string)
  (d : ResourceData) (input : UpdateAccessInput) :
  updateAccessInput serverID externalID d = inl input ->
  UpServerId input = Some serverID
  /\ UpExternalId input = Some externalID
  /\ (forall g, carries input g = true -> groupChanged d g = true)
  /\ (forall g, groupChanged d g = true ->
        carries input g = true
        \/ (g = GPosixProfile /\ posix_profile (current d) = [])).
Proof.
  unfold updateAccessInput.
  destruct (HasChange policy d) eqn:Hpol.
  - destruct (NormalizeJsonString _) as [p|e]; [|discriminate].
    cbv beta iota. intros [= <-]. split; [reflexivity|]. split; [reflexivity|]. split.
    + intros [] Hc; fields_in Hc; try exact Hpol; by_change Hc.
    + intros [] Hc; fields_in Hc; cbn [carries groupChanged
        UpHomeDirectory UpHomeDirectoryMappings UpHomeDirectoryType UpPolicy
        UpPosixProfile UpRole]; rewrite ?Hc;
        try (left; apply bool_decide_eq_true; eexists; reflexivity).
      destruct (posix_profile (current d)) as [|b rest]; [right; auto|].
      left. apply bool_decide_eq_true. eexists. reflexivity.
  - cbv beta iota. intros [= <-]. split; [reflexivity|]. split; [reflexivity|]. split.
    + intros [] Hc; fields_in Hc; by_change Hc.
    + intros [] Hc; fields_in Hc; cbn [carries groupChanged
        UpHomeDirectory UpHomeDirectoryMappings UpHomeDirectoryType UpPolicy
        UpPosixProfile UpRole]; rewrite ?Hc;
        try congruence;
        try (left; apply bool_decide_eq_true; eexists; reflexivity).
      destruct (posix_profile (current d)) as [|b rest]; [right; auto|].
      left. apply bool_decide_eq_true. eexists. reflexivity.
Qed.

(** X15.  Update of an access sends one request, whatever changed.  With
    an ID that parses and a changed policy that normalises (or an
    unchanged one), Update makes exactly one mutating call, also when no
    attribute changed at all.  The request is keyed by the two components
    of the ID, not by the [server_id] and [external_id] attributes.  It
    carries a field only for a group that changed, and it carries one for
    every changed group but one: a [posix_profile] block that was removed
    sends no field, so the request does not say that the profile is to be
    dropped. *)
Theorem access_update_sends_one_request (H : Helpers) (conn : Conn)
  (d : ResourceData) (h : list Event) (serverID externalID : string)
  (input : UpdateAccessInput) :
  AccessParseResourceID (Id d) = inl (serverID, externalID) ->
  updateAccessInput serverID externalID d = inl input ->
  (exists reads,
     snd (resourceAccessUpdate conn d h)
       = h ++ EvUpdateAccess input (UpdateAccessWithContext conn h input) :: reads
     /\ Forall (fun e => mutating e = false) reads)
  /\ UpServerId input = Some serverID
  /\ UpExternalId input = Some externalID
  /\ (forall g, carries input g = true -> groupChanged d g = true)
  /\ (forall g, groupChanged d g = true ->
        carries input g = true
        \/ (g = GPosixProfile /\ posix_profile (current d) = [])).
Proof.
  intros Hid Hinput. split.
  - destruct (TransferFacts.resourceAccessUpdate_events conn d h serverID externalID
                input Hid Hinput) as (reads & Hh & Hall & _).
    exists reads. split; [exact Hh | exact Hall].
  - exact (updateAccessInput_fields H serverID externalID d input Hinput).
Qed.

Lemma access_update_sends_one_request_witness :
  let d := forUpdate sampleId sampleAttrs (Set_posix_profile [] sampleAttrs) in
  let input := {| UpExternalId := Some "S-1-1-12-1234567890-123456789-1234567890-1234";
                  UpHomeDirectory := None; UpHomeDirectoryMappings := None;
                  UpHomeDirectoryType := None; UpPolicy := None;
                  UpPosixProfile := None; UpRole := None;
                  UpServerId := Some "s-0123456789abcdef0" |} in
  (exists reads,
     snd (resourceAccessUpdate (H := specHelpers) (serviceWith sampleAccess) d [])
       = [] ++ EvUpdateAccess input None :: reads
     /\ Forall (fun e => mutating e = false) reads)
  /\ groupChanged d GPosixProfile = true
  /\ carries input GPosixProfile = false.
Proof.
  split; [|split].
  - refine (proj1 (access_update_sends_one_request specHelpers (serviceWith sampleAccess)
              (forUpdate sampleId sampleAttrs (Set_posix_profile [] sampleAttrs)) []
              "s-0123456789abcdef0" "S-1-1-12-1234567890-123456789-1234567890-1234"
              _ _ _)).
    + reflexivity.
    + vm_compute. reflexivity.
  - vm_compute. reflexivity.
  - vm_compute. reflexivity.
Defined.

(** X16.  How Update of an access ends.  A changed policy that is not
    valid JSON ends it before any call.  A failed update call ends it with
    one diagnostic, the data as it was and nothing read back.  After an
    update call that succeeded, Update is Read run after that call on the
    same data; so when the read-back does not find the access, Update
    returns no diagnostic and clears the ID. *)
Theorem access_update_ends_with_a_read (H : Helpers) (conn : Conn)
  (d : ResourceData) (h : list Event) (serverID externalID : string) :
  AccessParseResourceID (Id d) = inl (serverID, externalID) ->
  let res := resourceAccessUpdate conn d h in
  match updateAccessInput serverID externalID d with
  | inr (v, e) =>
      res = (([ {| Summary := "policy (" +:+ v +:+ ") is invalid JSON: " +:+ Error e |} ],
              d), h)
  | inl input =>
      match UpdateAccessWithContext conn h input with
      | Some e =>
          res = (([ {| Summary := "updating Transfer Access (" +:+ Id d +:+ "): "
                         +:+ Error (awserr e) |} ], d),
                 h ++ [EvUpdateAccess input (Some e)])
      | None =>
          let h1 := h ++ [EvUpdateAccess input None] in
          let r := DescribeAccessWithContext conn h1 serverID externalID in
          res = resourceAccessRead conn d h1
          /\ (IsNewResource d = false -> isNotFoundReply r = true ->
              res = (([], SetId "" d), h1 ++ [EvDescribeAccess serverID externalID r]))
      end
  end.
Proof.
  intros Hid. cbv zeta. unfold resourceAccessUpdate. cbv zeta. rewrite Hid.
  destruct (updateAccessInput serverID externalID d) as [input|[v e]]; [|reflexivity].
  unfold bind, updateAccess, ret. cbv zeta.
  destruct (UpdateAccessWithContext conn h input) as [e|]; [reflexivity|].
  cbn [option_map].
  set (h1 := h ++ _).
  pose proof (TransferFacts.resourceAccessRead_absent conn d h1 serverID externalID Hid)
    as Habsent.
  destruct (resourceAccessRead conn d h1) as [[rdiags d'] h'].
  split; [reflexivity|].
  intros Hold Hnf. cbn [app]. rewrite (Habsent Hold Hnf). reflexivity.
Qed.

Lemma access_update_ends_with_a_read_witness :
  let d := forUpdate sampleId sampleAttrs (Set_home_directory "/home/bob" sampleAttrs) in
  let input := requestFor (H := specHelpers) "s-0123456789abcdef0"
                 "S-1-1-12-1234567890-123456789-1234567890-1234" GHomeDirectory
                 (Set_home_directory "/home/bob" sampleAttrs) in
  resourceAccessUpdate (H := specHelpers) serviceGone d []
  = (([], SetId "" d),
     [EvUpdateAccess input None;
      EvDescribeAccess "s-0123456789abcdef0"
        "S-1-1-12-1234567890-123456789-1234567890-1234" (inr notFound)]).
Proof.
  pose proof (access_update_ends_with_a_read specHelpers serviceGone
                (forUpdate sampleId sampleAttrs
                   (Set_home_directory "/home/bob" sampleAttrs))
                [] "s-0123456789abcdef0" "S-1-1-12-1234567890-123456789-1234567890-1234"
                eq_refl) as P.
  vm_compute in P. vm_compute. exact (proj2 P eq_refl eq_refl).
Defined.

(** X17.  Reading changes nothing remotely.  Read of a virtual node,
    Read of an access and Import of a virtual node issue only describe and
    tag-listing calls, whatever the data and the answers; the describe
    calls of one Read of a virtual node all carry the same request, built
    from the tracked names. *)
Theorem reads_change_nothing_remotely :
  (forall (H : AppMesh.Helpers) (meta : AppMesh.AWSClient) (attempts : nat)
          (d : AppMesh.ResourceData) (h : list AppMesh.Event),
     exists new,
       snd (AppMesh.resourceVirtualNodeRead meta attempts d h) = h ++ new
       /\ Forall (fun e => AppMesh.mutating e = false) new
       /\ Forall (fun e => match e with
                           | AppMesh.EvDescribeVirtualNode req _ =>
                               req = AppMesh.describeRequest d
                           | _ => True
                           end) new)
  /\ (forall (H : AppMesh.Helpers) (meta : AppMesh.AWSClient)
             (d : AppMesh.ResourceData) (h : list AppMesh.Event),
        exists new,
          snd (AppMesh.resourceVirtualNodeImport meta d h) = h ++ new
          /\ Forall (fun e => AppMesh.mutating e = false) new)
  /\ (forall (H : Helpers) (conn : Conn) (d : ResourceData) (h : list Event),
        exists new,
          snd (resourceAccessRead conn d h) = h ++ new
          /\ Forall (fun e => mutating e = false) new).
Proof.
  split; [|split].
  - intros H meta attempts d h.
    destruct (AppMeshFacts.resourceVirtualNodeRead_shape meta attempts d h)
      as (front & r & Hrun & _).
    destruct (AppMeshFacts.finishRead_events meta d
                (fst (AppMesh.describeResult r)) (snd (AppMesh.describeResult r))
                (h ++ AppMesh.pollEvents (AppMesh.describeRequest d) front
                   ++ [AppMesh.EvDescribeVirtualNode (AppMesh.describeRequest d) r]))
      as (fin & Hfin & _ & Hfinall).
    exists (AppMesh.pollEvents (AppMesh.describeRequest d) front
              ++ [AppMesh.EvDescribeVirtualNode (AppMesh.describeRequest d) r] ++ fin).
    rewrite Hrun, Hfin, <- !app_assoc. split; [reflexivity|].
    split.
    + apply Forall_app. split.
      * unfold AppMesh.pollEvents. apply Forall_map. apply Forall_forall. reflexivity.
      * constructor; [reflexivity|].
        eapply List.Forall_impl; [|exact Hfinall]. intros e [He _]. exact He.
    + apply Forall_app. split.
      * unfold AppMesh.pollEvents. apply Forall_map. apply Forall_forall. reflexivity.
      * constructor; [reflexivity|].
        eapply List.Forall_impl; [|exact Hfinall]. intros e [_ He].
        destruct e; try exact I. discriminate.
  - intros H meta d h.
    unfold AppMesh.resourceVirtualNodeImport. cbv zeta.
    destruct (negb _).
    + exists []. rewrite app_nil_r. split; [reflexivity | constructor].
    + unfold bind, AppMesh.describeVirtualNode, ret. cbv zeta.
      match goal with
      | |- context [AppMesh.EvDescribeVirtualNode ?req ?r] =>
          exists [AppMesh.EvDescribeVirtualNode req r]
      end.
      split.
      * destruct (AppMesh.DescribeVirtualNodeWithContext _ _ _) as [[vn|]|e];
          reflexivity.
      * repeat constructor.
  - intros H conn d h.
    destruct (TransferFacts.resourceAccessRead_events conn d h) as (new & Hh & _ & Hall).
    exists new. auto.
Qed.

End AccessFacts.

(* ================================================================== *)
(** * The checks of the key pair acceptance test                      *)
(* ================================================================== *)

Module KeyPairFacts.
Import SDK Lightsail.

Lemma filter_Permutation {A} (f : A -> bool) (l l' : list A) :
  l ≡ₚ l' -> List.filter f l ≡ₚ List.filter f l'.
Proof.
  induction 1 as [|x l l' _ IH|x y l|l l' l'' _ IH1 _ IH2]; simpl.
  - constructor.
  - destruct (f x); [constructor|]; exact IH.
  - destruct (f x), (f y); try reflexivity. constructor.
  - etransitivity; eassumption.
Qed.

Section Checks.
Variable Quote : string -> string.

Lemma checkDestroyed_events (conn : Conn) (visit : list ResourceState) :
  forall h, exists new, snd (checkDestroyed Quote conn visit h) = h ++ new.
Proof.
  induction visit as [|rs rest IH]; intros h; simpl.
  - exists []. now rewrite app_nil_r.
  - destruct (negb (isKeyPair rs)); [apply IH|].
    destruct (Primary rs) as [p|]; [|exists []; now rewrite app_nil_r].
    unfold bind, getKeyPair, ret.
    set (input := {| KeyPairName := Some (attribute p "name") |}).
    destruct (GetKeyPairWithContext conn h input) as [[[[kp|]]|]|e] eqn:Hr;
      cbn [ErrCodeEquals]; try (eexists [_]; reflexivity).
    destruct (String.eqb (Code e) ErrCodeNotFoundException).
    + destruct (IH (h ++ [EvGetKeyPair input (inr e)])) as (new & Hnew).
      exists (EvGetKeyPair input (inr e) :: new). rewrite Hnew, <- app_assoc. reflexivity.
    + exists [EvGetKeyPair input (inr e)]. reflexivity.
Qed.

(** One step of the loop on a key pair resource. *)
Lemma checkDestroyed_step (conn : Conn) (rs : ResourceState) (p : InstanceState)
  (rest : list ResourceState) (h : list Event) :
  isKeyPair rs = true ->
  Primary rs = Some p ->
  let input := {| KeyPairName := Some (attribute p "name") |} in
  let r := GetKeyPairWithContext conn h input in
  checkDestroyed Quote conn (rs :: rest) h
  = if isNotFoundReply r then
      checkDestroyed Quote conn rest (h ++ [EvGetKeyPair input r])
    else
      (match r with
       | inr e => Returned (Some (awserr e))
       | inl None => NilDereference
       | inl (Some {| OutKeyPair := Some _ |}) =>
           Returned (Some (errorString ("LightsailKeyPair "
             +:+ Quote (ID p) +:+ " still exists")))
       | inl (Some {| OutKeyPair := None |}) => Returned None
       end,
       h ++ [EvGetKeyPair input r]).
Proof.
  intros Hkp Hp. cbv zeta. cbn [checkDestroyed]. rewrite Hkp, Hp. cbn [negb].
  unfold bind, getKeyPair, ret.
  destruct (GetKeyPairWithContext conn h _) as [[[[kp|]]|]|e]; try reflexivity.
  cbn [ErrCodeEquals isNotFoundReply].
  destruct (String.eqb (Code e) ErrCodeNotFoundException); reflexivity.
Qed.

(** Resources that were all skipped or answered by not-found leave the
    loop where it was. *)
Lemma checkDestroyed_app (conn : Conn) (pre post : list ResourceState) :
  forall h new,
    checkDestroyed Quote conn pre h = (Returned None, h ++ new) ->
    Forall (fun e => answeredNotFound e = true) new ->
    checkDestroyed Quote conn (pre ++ post) h
    = checkDestroyed Quote conn post (h ++ new).
Proof.
  induction pre as [|rs pre IH]; intros h new Hrun Hall.
  - simpl in Hrun. injection Hrun as Hh.
    rewrite <- (app_nil_r h) in Hh at 1. apply app_inv_head in Hh. subst new.
    now rewrite app_nil_r.
  - rewrite <- app_comm_cons.
    destruct (isKeyPair rs) eqn:Hkp.
    + destruct (Primary rs) as [p|] eqn:Hp.
      * rewrite (checkDestroyed_step conn rs p pre h Hkp Hp) in Hrun.
        rewrite (checkDestroyed_step conn rs p (pre ++ post) h Hkp Hp).
        cbv zeta in Hrun |- *.
        set (input := {| KeyPairName := Some (attribute p "name") |}) in *.
        destruct (isNotFoundReply (GetKeyPairWithContext conn h input)) eqn:Hnf.
        -- destruct (checkDestroyed_events conn pre
                       (h ++ [EvGetKeyPair input (GetKeyPairWithContext conn h input)]))
             as (new' & Hnew').
           pose proof Hrun as Hsnd. apply (f_equal snd) in Hsnd. cbn [snd] in Hsnd.
           rewrite Hnew', <- app_assoc in Hsnd. apply app_inv_head in Hsnd.
           subst new. apply Forall_cons in Hall as [_ Hall].
           rewrite (IH _ new'); [now rewrite <- app_assoc| |exact Hall].
           rewrite Hrun, <- app_assoc. reflexivity.
        -- exfalso. injection Hrun as _ Hh. apply app_inv_head in Hh. subst new.
           apply Forall_cons in Hall as [Hbad _]. cbn [answeredNotFound] in Hbad.
           congruence.
      * exfalso. cbn [checkDestroyed] in Hrun. rewrite Hkp, Hp in Hrun. discriminate.
    + cbn [checkDestroyed] in Hrun |- *. rewrite Hkp in Hrun |- *. cbn [negb] in *.
      apply IH; assumption.
Qed.

(** X18.  The destroy check when every key pair is gone.  When the
    service answers every lookup by not-found and each key pair resource
    of the state has a primary instance, the check passes, in whatever
    order the resources are visited; it looks up each resource of type
    [aws_lightsail_key_pair] once, under its [name] attribute, and no
    resource of another type, so the names it asks for are those of the
    key pair resources of the state. *)
Theorem destroy_check_passes_when_all_gone (conn : Conn) (s : State)
  (visit : list ResourceState) (h : list Event) :
  rangeOrder s visit ->
  (forall h' input, isNotFoundReply (GetKeyPairWithContext conn h' input) = true) ->
  Forall (fun rs => isKeyPair rs = true -> Primary rs <> None) visit ->
  exists new,
    testAccCheckKeyPairDestroy Quote conn s visit h = (Returned None, h ++ new)
    /\ map requested new = map lookupName (List.filter isKeyPair visit)
    /\ map requested new
       ≡ₚ map lookupName (List.filter isKeyPair (map snd (map_to_list (Resources s))))
    /\ Forall (fun e => answeredNotFound e = true) new.
Proof.
  intros Horder Hgone Hprimary. unfold testAccCheckKeyPairDestroy.
  assert (exists new,
            checkDestroyed Quote conn visit h = (Returned None, h ++ new)
            /\ map requested new = map lookupName (List.filter isKeyPair visit)
            /\ Forall (fun e => answeredNotFound e = true) new) as (new & Hrun & Hreq & Hall).
  { clear Horder. revert h. induction visit as [|rs rest IH]; intros h.
    - exists []. simpl. rewrite app_nil_r. auto.
    - apply Forall_cons in Hprimary as [Hrs Hrest].
      destruct (isKeyPair rs) eqn:Hkp.
      + destruct (Primary rs) as [p|] eqn:Hp; [|exfalso; now apply Hrs].
        rewrite (checkDestroyed_step conn rs p rest h Hkp Hp). cbv zeta.
        rewrite Hgone.
        destruct (IH Hrest (h ++ [EvGetKeyPair {| KeyPairName := Some (attribute p "name") |}
                    (GetKeyPairWithContext conn h
                       {| KeyPairName := Some (attribute p "name") |})]))
          as (new & Hrun & Hreq & Hall).
        eexists (_ :: new). rewrite Hrun, <- app_assoc. split; [reflexivity|].
        cbn [List.filter]. rewrite Hkp. cbn [map requested KeyPairName].
        rewrite Hreq. unfold lookupName at 2. rewrite Hp. split; [reflexivity|].
        constructor; [|exact Hall]. cbn [answeredNotFound]. apply Hgone.
      + cbn [checkDestroyed List.filter]. rewrite Hkp. cbn [negb].
        apply IH. exact Hrest. }
  exists new. split; [exact Hrun|]. split; [exact Hreq|]. split; [|exact Hall].
  rewrite Hreq. apply Permutation_map, filter_Permutation. exact Horder.
Qed.

(** X19.  The destroy check stops at the first lookup that is not
    answered by not-found.  After resources that were skipped or answered
    by not-found, the answer for the next key pair resource decides the
    check, and the resources after it are never looked up: an error is
    returned as it is, a key pair in the answer gives the "still exists"
    error with the quoted ID, an answer without output makes the check
    dereference nil, and an answer with neither error nor key pair makes
    the check pass at once. *)
Theorem destroy_check_stops_at_first_answer (conn : Conn) (s : State)
  (pre post : list ResourceState) (rs : ResourceState) (p : InstanceState)
  (h new : list Event) :
  checkDestroyed Quote conn pre h = (Returned None, h ++ new) ->
  Forall (fun e => answeredNotFound e = true) new ->
  isKeyPair rs = true ->
  Primary rs = Some p ->
  let input := {| KeyPairName := Some (attribute p "name") |} in
  let r := GetKeyPairWithContext conn (h ++ new) input in
  isNotFoundReply r = false ->
  testAccCheckKeyPairDestroy Quote conn s (pre ++ rs :: post) h
  = (match r with
     | inr e => Returned (Some (awserr e))
     | inl None => NilDereference
     | inl (Some {| OutKeyPair := Some _ |}) =>
         Returned (Some (errorString ("LightsailKeyPair "
           +:+ Quote (ID p) +:+ " still exists")))
     | inl (Some {| OutKeyPair := None |}) => Returned None
     end,
     h ++ new ++ [EvGetKeyPair input r]).
Proof.
  intros Hpre Hall Hkp Hp input r Hr. unfold testAccCheckKeyPairDestroy.
  rewrite (checkDestroyed_app conn pre (rs :: post) h new Hpre Hall).
  rewrite (checkDestroyed_step conn rs p post (h ++ new) Hkp Hp). cbv zeta.
  fold input. fold r. rewrite Hr, <- app_assoc. reflexivity.
Qed.

End Checks.

Lemma destroy_check_passes_when_all_gone_witness :
  exists new,
    testAccCheckKeyPairDestroy plainQuote serviceWithout sampleState
      [sampleResource "aws_lightsail_key_pair" "tf-acc-test-1"] []
    = (Returned None, [] ++ new)
    /\ map requested new = [Some "tf-acc-test-1"]
    /\ map requested new
       ≡ₚ map lookupName (List.filter isKeyPair
                            (map snd (map_to_list (Resources sampleState))))
    /\ Forall (fun e => answeredNotFound e = true) new.
Proof.
  apply (destroy_check_passes_when_all_gone plainQuote serviceWithout sampleState
           [sampleResource "aws_lightsail_key_pair" "tf-acc-test-1"] []).
  - unfold rangeOrder. vm_compute. reflexivity.
  - reflexivity.
  - repeat constructor. discriminate.
Defined.

Lemma destroy_check_stops_at_first_answer_witness :
  testAccCheckKeyPairDestroy plainQuote serviceBlank sampleState
    ([sampleResource "aws_instance" "web"]
       ++ sampleResource "aws_lightsail_key_pair" "tf-acc-test-1"
       :: [sampleResource "aws_lightsail_key_pair" "tf-acc-test-2"]) []
  = (Returned None,
     [] ++ [] ++ [EvGetKeyPair {| KeyPairName := Some "tf-acc-test-1" |}
                    (inl (Some {| OutKeyPair := None |}))]).
Proof.
  refine (eq_trans
            (destroy_check_stops_at_first_answer plainQuote serviceBlank sampleState
               [sampleResource "aws_instance" "web"]
               [sampleResource "aws_lightsail_key_pair" "tf-acc-test-2"]
               (sampleResource "aws_lightsail_key_pair" "tf-acc-test-1")
               {| ID := "tf-acc-test-1"; Attributes := {[ "name" := "tf-acc-test-1" ]} |}
               [] [] _ _ _ _ _) _).
  - reflexivity.
  - constructor.
  - reflexivity.
  - reflexivity.
  - reflexivity.
  - vm_compute. reflexivity.
Defined.

(** X20.  The exists check.  It passes exactly when the state has a
    resource under the given name, whatever its type, with a primary
    instance and a non-empty ID, and the service answers the lookup of
    the resource's [name] attribute (not of its ID) with a key pair; the
    key pair is then stored for the caller.  When it does not pass, what
    the caller holds is left as it was.  It calls the service at most
    once, and not at all when the resource is missing from the state or
    has no ID. *)
Theorem exists_check_passes_exactly_when (conn : Conn) (n : string)
  (conf : KeyPair) (s : State) (h : list Event) :
  let res := testAccCheckKeyPairExists conn n conf s h in
  (fst (fst res) = Returned None
   <-> exists rs p kp,
         Resources s !! n = Some rs
         /\ Primary rs = Some p
         /\ ID p <> ""
         /\ GetKeyPairWithContext conn h {| KeyPairName := Some (attribute p "name") |}
            = inl (Some {| OutKeyPair := Some kp |})
         /\ snd (fst res) = kp)
  /\ (fst (fst res) <> Returned None -> snd (fst res) = conf)
  /\ (snd res = h
      \/ exists rs p,
           Resources s !! n = Some rs
           /\ Primary rs = Some p
           /\ ID p <> ""
           /\ snd res
              = h ++ [EvGetKeyPair {| KeyPairName := Some (attribute p "name") |}
                        (GetKeyPairWithContext conn h
                           {| KeyPairName := Some (attribute p "name") |})]).
Proof.
  cbv zeta. unfold testAccCheckKeyPairExists.
  destruct (Resources s !! n) as [rs|] eqn:Hrs.
  2:{ simpl. split; [|split; [reflexivity | left; reflexivity]].
      split; [discriminate|]. intros (rs & p & kp & Hno & _). discriminate. }
  destruct (Primary rs) as [p|] eqn:Hp.
  2:{ simpl. split; [|split; [reflexivity | left; reflexivity]].
      split; [discriminate|]. intros (rs' & p & kp & [= <-] & Hno & _). congruence. }
  destruct (String.eqb (ID p) "") eqn:Hid.
  { simpl. split; [|split; [reflexivity | left; reflexivity]].
    split; [discriminate|].
    intros (rs' & p' & kp & [= <-] & Hp' & Hne & _).
    apply String.eqb_eq in Hid. congruence. }
  apply String.eqb_neq in Hid.
  unfold bind, getKeyPair, ret.
  set (input := {| KeyPairName := Some (attribute p "name") |}).
  assert (forall rs' p', Some rs = Some rs' -> Primary rs' = Some p' -> p' = p) as Hsame.
  { intros rs' p' [= <-] Hp'. congruence. }
  destruct (GetKeyPairWithContext conn h input) as [[[[kp|]]|]|e] eqn:Hr; cbn [fst snd].
  - split; [|split].
    + split; [|reflexivity]. intros _. exists rs, p, kp. repeat split; auto.
    + intros Hbad. now contradiction Hbad.
    + right. exists rs, p. repeat split; auto. fold input. now rewrite Hr.
  - split; [|split].
    + split; [discriminate|].
      intros (rs' & p' & kp & Hrs' & Hp' & _ & Hans & _).
      rewrite (Hsame rs' p' Hrs' Hp') in Hans. fold input in Hans. congruence.
    + reflexivity.
    + right. exists rs, p. repeat split; auto. fold input. now rewrite Hr.
  - split; [|split].
    + split; [discriminate|].
      intros (rs' & p' & kp & Hrs' & Hp' & _ & Hans & _).
      rewrite (Hsame rs' p' Hrs' Hp') in Hans. fold input in Hans. congruence.
    + reflexivity.
    + right. exists rs, p. repeat split; auto. fold input. now rewrite Hr.
  - split; [|split].
    + split; [discriminate|].
      intros (rs' & p' & kp & Hrs' & Hp' & _ & Hans & _).
      rewrite (Hsame rs' p' Hrs' Hp') in Hans. fold input in Hans. congruence.
    + reflexivity.
    + right. exists rs, p. repeat split; auto. fold input. now rewrite Hr.
Qed.

Lemma exists_check_passes_exactly_when_witness :
  fst (fst (testAccCheckKeyPairExists (serviceWith sampleKeyPair)
              "aws_lightsail_key_pair.test"
              {| KpArn := None; KpFingerprint := None; KpName := None |}
              sampleState []))
  = Returned None.
Proof.
  apply (proj2 (proj1 (exists_check_passes_exactly_when (serviceWith sampleKeyPair)
                  "aws_lightsail_key_pair.test"
                  {| KpArn := None; KpFingerprint := None; KpName := None |}
                  sampleState []))).
  exists (sampleResource "aws_lightsail_key_pair" "tf-acc-test-1"),
    {| ID := "tf-acc-test-1"; Attributes := {[ "name" := "tf-acc-test-1" ]} |},
    sampleKeyPair.
  split; [vm_compute; reflexivity|]. split; [reflexivity|].
  split; [discriminate|]. split; [reflexivity|]. vm_compute. reflexivity.
Defined.

End KeyPairFacts.
